(** * Instance pod synthesis of the operator ([pkg/specs/pods.go])

    A shallow embedding of the functions of [pkg/specs/pods.go] that derive the
    pod of a PostgreSQL instance from a cluster description, and the properties
    of these functions.

    Go values are modelled as follows: [int32] and [int] as [Z]; [string] as
    [string]; slices as lists (a nil slice and an empty one are both [[]]);
    pointers to values that are not shared as [option]; a
    [map[string]string] that is only read as [gmap string string] (a nil map
    reads like the empty one); a pair [(T, error)] returned by a library as
    [Go.result]; [float64] as the binary64 instance of [spec_float]. The pod
    that [NewInstance] hands to the lifecycle hook and annotates on return is
    shared through a pointer, and its annotations are a map that other pods
    may share and that may be nil: pods and annotation maps live in an
    explicit store, and a write into a nil map is a run-time panic. *)

From Stdlib Require Import ZArith String List DecimalString DecimalPos DecimalZ.
From Stdlib Require Import Floats.SpecFloat Lia.
From stdpp Require Import base strings gmap list.

Open Scope Z_scope.

(** ** The Go runtime and standard library *)

Module Go.

(** [error]: the two concrete error types that occur here, [*errors.errorString]
    and [*fmt.wrapError] (built by [fmt.Errorf] with a [%w] verb). *)
Inductive error : Type :=
| errorString (s : string)
| wrapError (msg : string) (err : error).

Definition Error (e : error) : string :=
  match e with
  | errorString s => s
  | wrapError msg _ => msg
  end.

Definition Unwrap (e : error) : option error :=
  match e with
  | errorString _ => None
  | wrapError _ err => Some err
  end.

(** [fmt.Errorf(prefix + ": %w", err)] *)
Definition Errorf_w (prefix : string) (err : error) : error :=
  wrapError (prefix +:+ ": " +:+ Error err) err.

(** [fmt.Errorf(msg)] with no verb *)
Definition Errorf (msg : string) : error := errorString msg.

(** The outcome of a call that returns [(T, error)]. *)
Inductive result (A : Type) : Type :=
| Ok (a : A)
| Err (e : error).
Arguments Ok {A} a.
Arguments Err {A} e.

Definition bind {A B : Type} (r : result A) (k : A -> result B) : result B :=
  match r with
  | Ok a => k a
  | Err e => Err e
  end.

(** [x, err := f(); if err != nil { return nil, fmt.Errorf(prefix + ": %w", err) }] *)
Definition orWrap {A : Type} (r : result A) (prefix : string) : result A :=
  match r with
  | Ok a => Ok a
  | Err e => Err (Errorf_w prefix e)
  end.

(** How a function ends: it returns, or it panics. *)
Inductive completion (A : Type) : Type :=
| Done (a : A)
| Panic (msg : string).
Arguments Done {A} a.
Arguments Panic {A} msg.

(** [strconv.Itoa] *)
Definition Itoa (n : Z) : string := NilZero.string_of_int (Z.to_int n).

(** [slices.EqualFunc]: the lengths are compared first, then the elements
    pairwise from the left. *)
Fixpoint EqualFunc_loop {E1 E2 : Type} (eq : E1 -> E2 -> bool)
         (s1 : list E1) (s2 : list E2) : bool :=
  match s1, s2 with
  | [], _ => true
  | v1 :: s1', v2 :: s2' => if eq v1 v2 then EqualFunc_loop eq s1' s2' else false
  | _ :: _, [] => false
  end.

Definition EqualFunc {E1 E2 : Type} (s1 : list E1) (s2 : list E2)
           (eq : E1 -> E2 -> bool) : bool :=
  if negb (Nat.eqb (List.length s1) (List.length s2)) then false
  else EqualFunc_loop eq s1 s2.

(** [reflect.DeepEqual] on two values of one type whose equality is
    structural (strings, booleans, pointers compared through their
    pointees). *)
Definition DeepEqual {A : Type} `{EqDecision A} (x y : A) : bool :=
  bool_decide (x = y).

(** *** [float64] and the conversions around it *)

Definition prec : Z := 53.
Definition emax : Z := 1024.

(** [float64(n)] for an integer [n], rounded to nearest even. *)
Definition float64_of_int (n : Z) : spec_float :=
  binary_normalize prec emax n 0 false.

(** [x / y] on [float64] *)
Definition float64_div (x y : spec_float) : spec_float := SFdiv prec emax x y.

(** The integer [ceil (n / 2^k)] for [0 <= k]. *)
Definition ceil_shift (n k : Z) : Z := - ((- n) / 2 ^ k).

(** [math.Ceil]: zeros, infinities and NaN are returned unchanged; a finite
    number with a non-negative exponent is an integer already. *)
Definition math_Ceil (x : spec_float) : spec_float :=
  match x with
  | S754_finite s m e =>
      if 0 <=? e then x
      else binary_normalize prec emax (ceil_shift (cond_Zopp s (Zpos m)) (- e)) 0 s
  | _ => x
  end.

Definition MinInt32 : Z := - 2 ^ 31.
Definition MaxInt32 : Z := 2 ^ 31 - 1.

(** [int32(x)] for a [float64]: the fraction is discarded (truncation
    towards zero). Go leaves the result implementation-dependent when the
    value does not fit (infinities and NaN included); the function returns
    [MinInt32] there, as the amd64 conversion instruction does, and nothing
    below depends on this choice. *)
Definition int32_of_float64 (x : spec_float) : Z :=
  match x with
  | S754_zero _ => 0
  | S754_finite s m e =>
      let t := if 0 <=? e then cond_Zopp s (Zpos m * 2 ^ e)
               else Z.quot (cond_Zopp s (Zpos m)) (2 ^ (- e)) in
      if (MinInt32 <=? t) && (t <=? MaxInt32) then t else MinInt32
  | _ => MinInt32
  end.

End Go.

(** ** Kubernetes API types ([k8s.io/api/core/v1], [k8s.io/apimachinery])

    Each record has the fields that this package sets or reads. Values that
    the package only stores or copies (volumes, mounts, resource requirements,
    tolerations, spread constraints, security profiles, node affinity) are
    documents that are not interpreted. *)

Inductive Document : Type := Doc (text : string).

Module intstr.
(** [intstr.IntOrString]: [Type'] is [Int] for an integer and [String] for a
    string; the encoder of JSON refuses any other value of it. *)
Record IntOrString : Type := mk { Type' : Z; IntVal : Z; StrVal : string }.

Definition Int : Z := 0.
Definition String : Z := 1.

(** [intstr.FromInt32] *)
Definition FromInt32 (val : Z) : IntOrString := mk Int val "".
End intstr.

(** What stands for a Go map of strings that is written to: for a value that
    nothing else points to yet, nil or the content of the map ([MapValue]);
    for a value of the store, nil or a reference to a map of the store
    ([MapRef]). *)
Abbreviation MapValue := (option (gmap string string)).
Abbreviation MapRef := (option nat).

Module metav1.

Module LabelSelectorRequirement.
Record t : Type := mk { Key : string; Operator : string; Values : list string }.
End LabelSelectorRequirement.

Definition LabelSelectorOpIn : string := "In".

Module LabelSelector.
Record t : Type := mk {
  MatchLabels : gmap string string;
  MatchExpressions : list LabelSelectorRequirement.t }.
End LabelSelector.

(** [ObjectMeta]; [M] is what stands for the map of the annotations. The
    labels are not written after the literal that creates them and are kept
    by content. *)
Module ObjectMeta.
Record t (M : Type) : Type := mk {
  Labels : gmap string string;
  Annotations : M;
  Name : string;
  Namespace : string }.
Arguments mk {M} Labels Annotations Name Namespace.
Arguments Labels {M} _.
Arguments Annotations {M} _.
Arguments Name {M} _.
Arguments Namespace {M} _.

Definition set_Annotations {M N : Type} (m : t M) (a : N) : t N :=
  mk (Labels m) a (Name m) (Namespace m).
End ObjectMeta.

End metav1.

Module corev1.

Module ObjectFieldSelector.
Record t : Type := mk { APIVersion : string; FieldPath : string }.
End ObjectFieldSelector.

Module ResourceFieldSelector.
Record t : Type := mk { ContainerName : string; Resource : string; Divisor : string }.
End ResourceFieldSelector.

(** [ConfigMapKeySelector] and [SecretKeySelector] *)
Module KeySelector.
Record t : Type := mk { Name : string; Key : string; Optional : option bool }.
End KeySelector.

Module EnvVarSource.
Record t : Type := mk {
  FieldRef : option ObjectFieldSelector.t;
  ResourceFieldRef : option ResourceFieldSelector.t;
  ConfigMapKeyRef : option KeySelector.t;
  SecretKeyRef : option KeySelector.t }.
End EnvVarSource.

Module EnvVar.
Record t : Type := mk {
  Name : string;
  Value : string;
  ValueFrom : option EnvVarSource.t }.
End EnvVar.

(** [ConfigMapEnvSource] and [SecretEnvSource] *)
Module EnvSource.
Record t : Type := mk { Name : string; Optional : option bool }.
End EnvSource.

Module EnvFromSource.
Record t : Type := mk {
  Prefix : string;
  ConfigMapRef : option EnvSource.t;
  SecretRef : option EnvSource.t }.
End EnvFromSource.

Definition URISchemeHTTPS : string := "HTTPS".

Module HTTPGetAction.
Record t : Type := mk { Path : string; Port : intstr.IntOrString; Scheme : string }.

Definition set_Scheme (a : t) (scheme : string) : t := mk (Path a) (Port a) scheme.
End HTTPGetAction.

(** [Probe]; the embedded [ProbeHandler] contributes [HTTPGet]. *)
Module Probe.
Record t : Type := mk {
  HTTPGet : option HTTPGetAction.t;
  InitialDelaySeconds : Z;
  TimeoutSeconds : Z;
  PeriodSeconds : Z;
  SuccessThreshold : Z;
  FailureThreshold : Z;
  TerminationGracePeriodSeconds : option Z }.

Definition set_HTTPGet (p : t) (h : option HTTPGetAction.t) : t :=
  mk h (InitialDelaySeconds p) (TimeoutSeconds p) (PeriodSeconds p)
     (SuccessThreshold p) (FailureThreshold p) (TerminationGracePeriodSeconds p).

Definition set_FailureThreshold (p : t) (n : Z) : t :=
  mk (HTTPGet p) (InitialDelaySeconds p) (TimeoutSeconds p) (PeriodSeconds p)
     (SuccessThreshold p) n (TerminationGracePeriodSeconds p).
End Probe.

Module ContainerPort.
Record t : Type := mk { Name : string; ContainerPort : Z; Protocol : string }.
End ContainerPort.

Module VolumeMount.
Record t : Type := mk { Name : string; MountPath : string }.
End VolumeMount.

Definition ResourceRequirements : Type := Document.
Definition SecurityContext : Type := Document.
Definition SeccompProfile : Type := Document.

Module Container.
Record t : Type := mk {
  Name : string;
  Image : string;
  ImagePullPolicy : string;
  Env : list EnvVar.t;
  EnvFrom : list EnvFromSource.t;
  VolumeMounts : list VolumeMount.t;
  StartupProbe : option Probe.t;
  ReadinessProbe : option Probe.t;
  LivenessProbe : option Probe.t;
  Command : list string;
  Resources : ResourceRequirements;
  Ports : list ContainerPort.t;
  SecurityContext : option SecurityContext }.

Definition set_Env (c : t) (env : list EnvVar.t) : t :=
  mk (Name c) (Image c) (ImagePullPolicy c) env (EnvFrom c) (VolumeMounts c)
     (StartupProbe c) (ReadinessProbe c) (LivenessProbe c) (Command c)
     (Resources c) (Ports c) (SecurityContext c).

Definition set_VolumeMounts (c : t) (mounts : list VolumeMount.t) : t :=
  mk (Name c) (Image c) (ImagePullPolicy c) (Env c) (EnvFrom c) mounts
     (StartupProbe c) (ReadinessProbe c) (LivenessProbe c) (Command c)
     (Resources c) (Ports c) (SecurityContext c).

Definition set_StartupProbe (c : t) (p : option Probe.t) : t :=
  mk (Name c) (Image c) (ImagePullPolicy c) (Env c) (EnvFrom c) (VolumeMounts c)
     p (ReadinessProbe c) (LivenessProbe c) (Command c)
     (Resources c) (Ports c) (SecurityContext c).

Definition set_ReadinessProbe (c : t) (p : option Probe.t) : t :=
  mk (Name c) (Image c) (ImagePullPolicy c) (Env c) (EnvFrom c) (VolumeMounts c)
     (StartupProbe c) p (LivenessProbe c) (Command c)
     (Resources c) (Ports c) (SecurityContext c).

Definition set_LivenessProbe (c : t) (p : option Probe.t) : t :=
  mk (Name c) (Image c) (ImagePullPolicy c) (Env c) (EnvFrom c) (VolumeMounts c)
     (StartupProbe c) (ReadinessProbe c) p (Command c)
     (Resources c) (Ports c) (SecurityContext c).

Definition set_Command (c : t) (cmd : list string) : t :=
  mk (Name c) (Image c) (ImagePullPolicy c) (Env c) (EnvFrom c) (VolumeMounts c)
     (StartupProbe c) (ReadinessProbe c) (LivenessProbe c) cmd
     (Resources c) (Ports c) (SecurityContext c).
End Container.

Module PodAffinityTerm.
Record t : Type := mk {
  LabelSelector : option metav1.LabelSelector.t;
  TopologyKey : string }.
End PodAffinityTerm.

Module WeightedPodAffinityTerm.
Record t : Type := mk { Weight : Z; PodAffinityTerm : PodAffinityTerm.t }.
End WeightedPodAffinityTerm.

Module PodAntiAffinity.
Record t : Type := mk {
  RequiredDuringSchedulingIgnoredDuringExecution : list PodAffinityTerm.t;
  PreferredDuringSchedulingIgnoredDuringExecution : list WeightedPodAffinityTerm.t }.
End PodAntiAffinity.

Module PodAffinity.
Record t : Type := mk {
  RequiredDuringSchedulingIgnoredDuringExecution : list PodAffinityTerm.t;
  PreferredDuringSchedulingIgnoredDuringExecution : list WeightedPodAffinityTerm.t }.
End PodAffinity.

Definition NodeAffinity : Type := Document.

Module Affinity.
Record t : Type := mk {
  NodeAffinity : option NodeAffinity;
  PodAffinity : option PodAffinity.t;
  PodAntiAffinity : option PodAntiAffinity.t }.
End Affinity.

Module PodSecurityContext.
Record t : Type := mk {
  RunAsNonRoot : option bool;
  RunAsUser : option Z;
  RunAsGroup : option Z;
  FSGroup : option Z;
  SeccompProfile : option SeccompProfile }.
End PodSecurityContext.

Module KeyToPath.
Record t : Type := mk { Key : string; Path : string }.
End KeyToPath.

Module SecretVolumeSource.
Record t : Type := mk { SecretName : string; Items : list KeyToPath.t }.
End SecretVolumeSource.

(** [Volume]: a name and a source; the only source that this file builds is
    a secret, the others come from the rest of the package. *)
Inductive VolumeSource : Type :=
| VolumeSource_Secret (s : SecretVolumeSource.t)
| VolumeSource_other (d : Document).

Module Volume.
Record t : Type := mk { Name : string; VolumeSource : VolumeSource }.
End Volume.

Definition Toleration : Type := Document.
Definition TopologySpreadConstraint : Type := Document.

Module PodSpec.
Record t : Type := mk {
  Hostname : string;
  InitContainers : list Container.t;
  SchedulerName : string;
  Containers : list Container.t;
  Volumes : list Volume.t;
  SecurityContext : option PodSecurityContext.t;
  Affinity : option Affinity.t;
  Tolerations : list Toleration;
  ServiceAccountName : string;
  NodeSelector : gmap string string;
  TerminationGracePeriodSeconds : option Z;
  TopologySpreadConstraints : list TopologySpreadConstraint;
  PriorityClassName : string;
  Subdomain : string }.

Definition set_Containers (s : t) (cs : list Container.t) : t :=
  mk (Hostname s) (InitContainers s) (SchedulerName s) cs (Volumes s)
     (SecurityContext s) (Affinity s) (Tolerations s) (ServiceAccountName s)
     (NodeSelector s) (TerminationGracePeriodSeconds s)
     (TopologySpreadConstraints s) (PriorityClassName s) (Subdomain s).

Definition set_Volumes (s : t) (vs : list Volume.t) : t :=
  mk (Hostname s) (InitContainers s) (SchedulerName s) (Containers s) vs
     (SecurityContext s) (Affinity s) (Tolerations s) (ServiceAccountName s)
     (NodeSelector s) (TerminationGracePeriodSeconds s)
     (TopologySpreadConstraints s) (PriorityClassName s) (Subdomain s).

Definition set_PriorityClassName (s : t) (v : string) : t :=
  mk (Hostname s) (InitContainers s) (SchedulerName s) (Containers s) (Volumes s)
     (SecurityContext s) (Affinity s) (Tolerations s) (ServiceAccountName s)
     (NodeSelector s) (TerminationGracePeriodSeconds s)
     (TopologySpreadConstraints s) v (Subdomain s).

Definition set_Subdomain (s : t) (v : string) : t :=
  mk (Hostname s) (InitContainers s) (SchedulerName s) (Containers s) (Volumes s)
     (SecurityContext s) (Affinity s) (Tolerations s) (ServiceAccountName s)
     (NodeSelector s) (TerminationGracePeriodSeconds s)
     (TopologySpreadConstraints s) (PriorityClassName s) v.
End PodSpec.

Module Pod.
Record t (M : Type) : Type := mk { ObjectMeta : metav1.ObjectMeta.t M; Spec : PodSpec.t }.
Arguments mk {M} ObjectMeta Spec.
Arguments ObjectMeta {M} _.
Arguments Spec {M} _.

Definition set_Annotations {M N : Type} (pod : t M) (a : N) : t N :=
  mk (metav1.ObjectMeta.set_Annotations (ObjectMeta pod) a) (Spec pod).

Definition set_Spec {M : Type} (pod : t M) (spec : PodSpec.t) : t M :=
  mk (ObjectMeta pod) spec.
End Pod.

End corev1.

(** ** The cluster resource ([api/v1]) *)

Module apiv1.

(** Modelled from the spec: the constants of the anti-affinity mode, which
    [api/v1] declares; the modes are named "required" and "preferred". *)
Definition PodAntiAffinityTypeRequired : string := "required".
Definition PodAntiAffinityTypePreferred : string := "preferred".

Module AffinityConfiguration.
Record t : Type := mk {
  EnablePodAntiAffinity : option bool;
  TopologyKey : string;
  NodeSelector : gmap string string;
  NodeAffinity : option corev1.NodeAffinity;
  Tolerations : list corev1.Toleration;
  PodAntiAffinityType : string;
  AdditionalPodAntiAffinity : option corev1.PodAntiAffinity.t;
  AdditionalPodAffinity : option corev1.PodAffinity.t }.
End AffinityConfiguration.

(** The overrides of one probe: a field that is zero (nil for the grace
    period) is not set. *)
Module Probe.
Record t : Type := mk {
  InitialDelaySeconds : Z;
  TimeoutSeconds : Z;
  PeriodSeconds : Z;
  SuccessThreshold : Z;
  FailureThreshold : Z;
  TerminationGracePeriodSeconds : option Z }.
End Probe.

Module ProbesConfiguration.
Record t : Type := mk {
  Startup : option Probe.t;
  Liveness : option Probe.t;
  Readiness : option Probe.t }.
End ProbesConfiguration.

Module ClusterSpec.
Record t : Type := mk {
  Env : list corev1.EnvVar.t;
  EnvFrom : list corev1.EnvFromSource.t;
  SchedulerName : string;
  Affinity : AffinityConfiguration.t;
  TopologySpreadConstraints : list corev1.TopologySpreadConstraint;
  ImagePullPolicy : string;
  Resources : corev1.ResourceRequirements;
  LivenessProbeTimeout : option Z;
  Probes : option ProbesConfiguration.t;
  PriorityClassName : string }.
End ClusterSpec.

Module ClusterStatus.
Record t : Type := mk { Image : string }.
End ClusterStatus.

Module Cluster.
Record t : Type := mk {
  Name : string;
  Namespace : string;
  Annotations : gmap string string;
  Spec : ClusterSpec.t;
  Status : ClusterStatus.t }.
End Cluster.

Module SecretKeySelector.
Record t : Type := mk { Name : string; Key : string }.
End SecretKeySelector.

Module BarmanCredentials.
Record t : Type := mk {
  Google : option Document;
  AWS : option Document;
  Azure : option Document }.
End BarmanCredentials.

End apiv1.

(** ** Package [specs] *)

(** [EnvConfig] carries the environment configuration of a container. *)
Module EnvConfig.
Record t : Type := mk {
  EnvVars : list corev1.EnvVar.t;
  EnvFrom : list corev1.EnvFromSource.t;
  Hash : string }.
End EnvConfig.

(** The store: the pods that are reachable through pointers, a pointer
    being an index, and the annotation maps, under their references. A pod of
    the store holds the reference of its annotation map, so that two pods can
    share one map. A reference always denotes a map; the map of a reference
    for which the store has no entry is empty. *)
Abbreviation ptr := nat.

Record Store : Type := mkStore {
  pods : list (corev1.Pod.t MapRef);
  maps : gmap nat (gmap string string) }.

(** The content of the map that a reference denotes, [m[key]] and
    [m[key] = value]. *)
Definition mapContent (st : Store) (ref : nat) : gmap string string :=
  default ∅ (maps st !! ref).

Definition mapStore (st : Store) (ref : nat) (key value : string) : Store :=
  mkStore (pods st) (<[ ref := <[ key := value ]> (mapContent st ref) ]> (maps st)).

(** A pod that nothing else points to yet is placed in the store: its
    annotation map, when it is not nil, under a new reference, and the pod
    itself at the end of the pods. *)
Definition allocMap (st : Store) (m : MapValue) : MapRef * Store :=
  match m with
  | None => (None, st)
  | Some content =>
      let ref := fresh (dom (maps st)) in
      (Some ref, mkStore (pods st) (<[ ref := content ]> (maps st)))
  end.

Definition alloc (st : Store) (pod : corev1.Pod.t MapValue) : ptr * Store :=
  let '(ref, st) :=
    allocMap st (metav1.ObjectMeta.Annotations (corev1.Pod.ObjectMeta pod)) in
  (List.length (pods st),
   mkStore (pods st ++ [corev1.Pod.set_Annotations pod ref]) (maps st)).

(** The pod that a pointer denotes, with the content of its annotation map
    in the place of the reference. *)
Definition mapValue (st : Store) (m : MapRef) : MapValue :=
  match m with
  | Some ref => Some (mapContent st ref)
  | None => None
  end.

Definition podValue (st : Store) (l : ptr) : option (corev1.Pod.t MapValue) :=
  match pods st !! l with
  | Some pod =>
      Some (corev1.Pod.set_Annotations pod
              (mapValue st (metav1.ObjectMeta.Annotations (corev1.Pod.ObjectMeta pod))))
  | None => None
  end.

(** A value of the interface [client.Object]: nil, a [*corev1.Pod] (which may
    itself be a nil pointer), or an object of another kind. *)
Inductive ClientObject : Type :=
| ObjNil
| ObjPod (pod : option ptr)
| ObjOther (kind : string).

Inductive OperationVerb : Type :=
| OperationVerbEvaluate
| OperationVerbOther (verb : string).

(** The plugin client: the hook receives the cluster and the pointer to the
    pod, may read and write the pods and the maps of the store, and returns
    an object or an error. *)
Module PluginClient.
Record t : Type := mk {
  LifecycleHook :
    Store -> OperationVerb -> apiv1.Cluster.t -> ptr ->
    Go.result ClientObject * Store }.
End PluginClient.

(** Modelled from the spec: the call context, from which the optional plugin
    client is resolved ([cnpgiClient.GetPluginClientFromContext] is not in
    this file). *)
Module Context.
Record t : Type := mk { pluginClient : option PluginClient.t }.
End Context.

Definition GetPluginClientFromContext (ctx : Context.t) : option PluginClient.t :=
  Context.pluginClient ctx.

(** What this file takes from the rest of the repository and from libraries:
    constants and helpers of the packages [utils], [postgres], [url] and
    [configuration], methods of [apiv1.Cluster] and [apiv1.Probe], functions of
    the other files of package [specs], and the JSON, JSON-patch, hash and path
    libraries. *)
Class Externals : Type := {
  (* package utils *)
  ClusterLabelName : string;
  InstanceNameLabelName : string;
  PodRoleLabelName : string;
  PodRoleInstance : string;
  ClusterSerialAnnotationName : string;
  PodEnvHashAnnotationName : string;
  PodSpecAnnotationName : string;
  PodPatchAnnotationName : string;
  HaveSecurityContextConstraints : bool;
  IsAnnotationAppArmorPresent : corev1.PodSpec.t -> gmap string string -> bool;
  AnnotateAppArmor :
    metav1.ObjectMeta.t MapValue -> corev1.PodSpec.t -> gmap string string ->
    metav1.ObjectMeta.t MapValue * corev1.PodSpec.t;
  (* package postgres *)
  TemporaryDirectory : string;
  ServerPort : Z;
  SocketDirectory : string;
  CertificatesDir : string;
  BarmanRestoreEndpointCACertificateFileName : string;
  BarmanRestoreEndpointCACertificateLocation : string;
  (* package url *)
  PathStartup : string;
  PathReady : string;
  PathHealth : string;
  StatusPort : Z;
  PostgresMetricsPort : Z;
  (* configuration.Current *)
  StandbyTCPUserTimeout : Z;
  CreateAnyService : bool;
  (* methods of apiv1.Cluster *)
  GetSeccompProfile : apiv1.Cluster.t -> option corev1.SeccompProfile;
  GetPostgresUID : apiv1.Cluster.t -> Z;
  GetPostgresGID : apiv1.Cluster.t -> Z;
  GetMaxStartDelay : apiv1.Cluster.t -> Z;
  GetMaxStopDelay : apiv1.Cluster.t -> Z;
  IsMetricsTLSEnabled : apiv1.Cluster.t -> bool;
  GetServiceAnyName : apiv1.Cluster.t -> string;
  (* apiv1.Probe.ApplyInto, on a receiver that may be nil *)
  ApplyInto : option apiv1.Probe.t -> corev1.Probe.t -> corev1.Probe.t;
  (* other files of package specs *)
  createBootstrapContainer : apiv1.Cluster.t -> corev1.Container.t;
  createPostgresVolumes : apiv1.Cluster.t -> string -> list corev1.Volume.t;
  CreatePostgresVolumeMounts : apiv1.Cluster.t -> list corev1.VolumeMount.t;
  CreateContainerSecurityContext :
    option corev1.SeccompProfile -> option corev1.SecurityContext;
  addManagerLoggingOptions : apiv1.Cluster.t -> corev1.Container.t -> corev1.Container.t;
  (* libraries *)
  path_Join : string -> string -> string;
  hash_ComputeHash : EnvConfig.t -> string * option Go.error;
  json_Marshal_Pod : corev1.Pod.t MapValue -> Go.result string;
  json_Marshal_PodSpec : corev1.PodSpec.t -> Go.result string;
  json_Unmarshal_Pod :
    string -> corev1.Pod.t MapValue -> Go.result (corev1.Pod.t MapValue);
  jsonpatch_Patch : Type;
  jsonpatch_DecodePatch : string -> Go.result jsonpatch_Patch;
  jsonpatch_Apply : jsonpatch_Patch -> string -> Go.result string
}.

#[global] Instance ObjectFieldSelector_eq_dec : EqDecision corev1.ObjectFieldSelector.t.
Proof. solve_decision. Defined.
#[global] Instance ResourceFieldSelector_eq_dec : EqDecision corev1.ResourceFieldSelector.t.
Proof. solve_decision. Defined.
#[global] Instance KeySelector_eq_dec : EqDecision corev1.KeySelector.t.
Proof. solve_decision. Defined.
#[global] Instance EnvVarSource_eq_dec : EqDecision corev1.EnvVarSource.t.
Proof. solve_decision. Defined.
#[global] Instance EnvVar_eq_dec : EqDecision corev1.EnvVar.t.
Proof. solve_decision. Defined.
#[global] Instance EnvSource_eq_dec : EqDecision corev1.EnvSource.t.
Proof. solve_decision. Defined.
#[global] Instance EnvFromSource_eq_dec : EqDecision corev1.EnvFromSource.t.
Proof. solve_decision. Defined.

(** [PgDataPath] is the path to PGDATA variable *)
Definition PgDataPath : string := "/var/lib/postgresql/data/pgdata".

(** The periods set for the probes of the postgres instance *)
Definition ReadinessProbePeriod : Z := 10.
Definition StartupProbePeriod : Z := 10.
Definition LivenessProbePeriod : Z := 10.

(** [PostgresContainerName] is the name of the container executing PostgreSQL *)
Definition PostgresContainerName : string := "postgres".

(** [IsEnvEqual] detects if the environment of a container matches. *)
Definition IsEnvEqual (c : EnvConfig.t) (container : corev1.Container.t) : bool :=
  (* Step 1: detect changes in the envFrom section *)
  if negb (Go.EqualFunc (corev1.Container.EnvFrom container) (EnvConfig.EnvFrom c)
             (fun e1 e2 => Go.DeepEqual e1 e2))
  then false
  (* Step 2: detect changes in the env section *)
  else Go.EqualFunc (corev1.Container.Env container) (EnvConfig.EnvVars c)
         (fun e1 e2 => Go.DeepEqual e1 e2).

(** [getFailureThreshold]: FAILURE_THRESHOLD = ceil(startDelay / periodSeconds),
    with 1 as minimum. *)
Definition getFailureThreshold (startupDelay period : Z) : Z :=
  if startupDelay <=? period then 1
  else Go.int32_of_float64
         (Go.math_Ceil (Go.float64_div (Go.float64_of_int startupDelay)
                                       (Go.float64_of_int period))).

(** [GetInstanceName]: [fmt.Sprintf("%s-%v", clusterName, nodeSerial)] *)
Definition GetInstanceName (clusterName : string) (nodeSerial : Z) : string :=
  clusterName +:+ "-" +:+ Go.Itoa nodeSerial.

(** A literal [corev1.EnvVar{Name: name, Value: value}] *)
Definition envVar (name value : string) : corev1.EnvVar.t :=
  corev1.EnvVar.mk name value None.

Section specs.
Context `{Externals}.

(** [CreatePodEnvConfig] returns the environment of the pod together with
    its hash; the error of [hash.ComputeHash] is dropped. *)
Definition CreatePodEnvConfig (cluster : apiv1.Cluster.t) (podName : string) : EnvConfig.t :=
  let EnvVars :=
    [ envVar "PGDATA" PgDataPath;
      envVar "POD_NAME" podName;
      envVar "NAMESPACE" (apiv1.Cluster.Namespace cluster);
      envVar "CLUSTER_NAME" (apiv1.Cluster.Name cluster);
      envVar "PSQL_HISTORY" (path_Join TemporaryDirectory ".psql_history");
      envVar "PGPORT" (Go.Itoa ServerPort);
      envVar "PGHOST" SocketDirectory;
      envVar "TMPDIR" TemporaryDirectory ] in
  let EnvFrom := apiv1.ClusterSpec.EnvFrom (apiv1.Cluster.Spec cluster) in
  let EnvVars := EnvVars ++ apiv1.ClusterSpec.Env (apiv1.Cluster.Spec cluster) in
  let EnvVars :=
    if negb (StandbyTCPUserTimeout =? 0)
    then EnvVars ++ [ envVar "CNPG_STANDBY_TCP_USER_TIMEOUT" (Go.Itoa StandbyTCPUserTimeout) ]
    else EnvVars in
  let config := EnvConfig.mk EnvVars EnvFrom "" in
  let hashValue := fst (hash_ComputeHash config) in
  EnvConfig.mk EnvVars EnvFrom hashValue.

(** [CreateGeneratedAntiAffinity] generates the affinity terms the operator
    is in charge for if enabled, and returns nil if disabled. *)
Definition CreateGeneratedAntiAffinity
           (clusterName : string) (config : apiv1.AffinityConfiguration.t)
  : option corev1.Affinity.t :=
  match apiv1.AffinityConfiguration.EnablePodAntiAffinity config with
  | Some false => None
  | _ =>
      let topologyKey := apiv1.AffinityConfiguration.TopologyKey config in
      let topologyKey :=
        if Nat.eqb (String.length topologyKey) 0 then "kubernetes.io/hostname"
        else topologyKey in
      let podAffinityTerm :=
        corev1.PodAffinityTerm.mk
          (Some (metav1.LabelSelector.mk ∅
             [ metav1.LabelSelectorRequirement.mk
                 ClusterLabelName metav1.LabelSelectorOpIn [clusterName];
               metav1.LabelSelectorRequirement.mk
                 PodRoleLabelName metav1.LabelSelectorOpIn [PodRoleInstance] ]))
          topologyKey in
      let mode := apiv1.AffinityConfiguration.PodAntiAffinityType config in
      if String.eqb mode apiv1.PodAntiAffinityTypeRequired then
        Some (corev1.Affinity.mk None None
                (Some (corev1.PodAntiAffinity.mk [podAffinityTerm] [])))
      else if String.eqb mode apiv1.PodAntiAffinityTypePreferred then
        Some (corev1.Affinity.mk None None
                (Some (corev1.PodAntiAffinity.mk []
                         [corev1.WeightedPodAffinityTerm.mk 100 podAffinityTerm])))
      else None
  end.

(** [CreateAffinitySection] creates the affinity sections for Pods, given
    the configuration from the user. *)
Definition CreateAffinitySection
           (clusterName : string) (config : apiv1.AffinityConfiguration.t)
  : option corev1.Affinity.t :=
  let affinity := CreateGeneratedAntiAffinity clusterName config in
  match apiv1.AffinityConfiguration.AdditionalPodAffinity config,
        apiv1.AffinityConfiguration.AdditionalPodAntiAffinity config,
        apiv1.AffinityConfiguration.NodeAffinity config with
  | None, None, None => affinity
  | additionalPodAffinity, additionalPodAntiAffinity, nodeAffinity =>
      let affinity :=
        match affinity with
        | None => corev1.Affinity.mk None None None
        | Some a => a
        end in
      let affinity :=
        match additionalPodAffinity with
        | Some pa =>
            corev1.Affinity.mk (corev1.Affinity.NodeAffinity affinity) (Some pa)
                               (corev1.Affinity.PodAntiAffinity affinity)
        | None => affinity
        end in
      let affinity :=
        match additionalPodAntiAffinity with
        | Some extra =>
            let anti :=
              match corev1.Affinity.PodAntiAffinity affinity with
              | None => corev1.PodAntiAffinity.mk [] []
              | Some anti => anti
              end in
            let required :=
              corev1.PodAntiAffinity.RequiredDuringSchedulingIgnoredDuringExecution anti ++
              corev1.PodAntiAffinity.RequiredDuringSchedulingIgnoredDuringExecution extra in
            let preferred :=
              corev1.PodAntiAffinity.PreferredDuringSchedulingIgnoredDuringExecution anti ++
              corev1.PodAntiAffinity.PreferredDuringSchedulingIgnoredDuringExecution extra in
            corev1.Affinity.mk (corev1.Affinity.NodeAffinity affinity)
                               (corev1.Affinity.PodAffinity affinity)
                               (Some (corev1.PodAntiAffinity.mk required preferred))
        | None => affinity
        end in
      let affinity :=
        match nodeAffinity with
        | Some na =>
            corev1.Affinity.mk (Some na) (corev1.Affinity.PodAffinity affinity)
                               (corev1.Affinity.PodAntiAffinity affinity)
        | None => affinity
        end in
      Some affinity
  end.

(** [CreatePodSecurityContext] defines the security context under which the
    containers are running. *)
Definition CreatePodSecurityContext
           (seccompProfile : option corev1.SeccompProfile) (user group : Z)
  : option corev1.PodSecurityContext.t :=
  (* Under Openshift we inherit SecurityContext from the restricted
     security context constraint *)
  if HaveSecurityContextConstraints then None
  else Some (corev1.PodSecurityContext.mk
               (Some true) (Some user) (Some group) (Some group) seccompProfile).

(** The default probe of [createPostgresContainers] on a path of the
    status port. *)
Definition defaultProbe (period : Z) (path : string) : corev1.Probe.t :=
  corev1.Probe.mk
    (Some (corev1.HTTPGetAction.mk path (intstr.FromInt32 StatusPort) ""))
    0 5 period 0 0 None.

(** [probe.ProbeHandler.HTTPGet.Scheme = scheme] through the pointer [probe] *)
Definition setProbeScheme (scheme : string) (probe : corev1.Probe.t) : corev1.Probe.t :=
  corev1.Probe.set_HTTPGet probe
    ((fun a => corev1.HTTPGetAction.set_Scheme a scheme) <$> corev1.Probe.HTTPGet probe).

(** [ensureCustomProbesConfiguration] applies the custom probe configuration
    if specified inside the cluster specification. *)
Definition ensureCustomProbesConfiguration
           (cluster : apiv1.Cluster.t) (container : corev1.Container.t)
  : corev1.Container.t :=
  match apiv1.ClusterSpec.Probes (apiv1.Cluster.Spec cluster) with
  | None => container
  | Some probes =>
      let container :=
        corev1.Container.set_LivenessProbe container
          (ApplyInto (apiv1.ProbesConfiguration.Liveness probes)
             <$> corev1.Container.LivenessProbe container) in
      let container :=
        corev1.Container.set_ReadinessProbe container
          (ApplyInto (apiv1.ProbesConfiguration.Readiness probes)
             <$> corev1.Container.ReadinessProbe container) in
      corev1.Container.set_StartupProbe container
        (ApplyInto (apiv1.ProbesConfiguration.Startup probes)
           <$> corev1.Container.StartupProbe container)
  end.

(** The first part of [createPostgresContainers]: the container with its
    default probes, the TLS options, the logging options and the custom
    probe configuration, as it is when the thresholds are looked at. *)
Definition postgresContainerWithProbes
           (cluster : apiv1.Cluster.t) (envConfig : EnvConfig.t) (enableHTTPS : bool)
  : corev1.Container.t :=
  let container :=
    corev1.Container.mk
      PostgresContainerName
      (apiv1.ClusterStatus.Image (apiv1.Cluster.Status cluster))
      (apiv1.ClusterSpec.ImagePullPolicy (apiv1.Cluster.Spec cluster))
      (EnvConfig.EnvVars envConfig)
      (EnvConfig.EnvFrom envConfig)
      (CreatePostgresVolumeMounts cluster)
      (Some (defaultProbe StartupProbePeriod PathStartup))
      (Some (defaultProbe ReadinessProbePeriod PathReady))
      (Some (defaultProbe LivenessProbePeriod PathHealth))
      ["/controller/manager"; "instance"; "run"]
      (apiv1.ClusterSpec.Resources (apiv1.Cluster.Spec cluster))
      [ corev1.ContainerPort.mk "postgresql" ServerPort "TCP";
        corev1.ContainerPort.mk "metrics" PostgresMetricsPort "TCP";
        corev1.ContainerPort.mk "status" StatusPort "TCP" ]
      (CreateContainerSecurityContext (GetSeccompProfile cluster)) in
  let container :=
    if enableHTTPS then
      let container :=
        corev1.Container.set_StartupProbe container
          (setProbeScheme corev1.URISchemeHTTPS <$> corev1.Container.StartupProbe container) in
      let container :=
        corev1.Container.set_LivenessProbe container
          (setProbeScheme corev1.URISchemeHTTPS <$> corev1.Container.LivenessProbe container) in
      let container :=
        corev1.Container.set_ReadinessProbe container
          (setProbeScheme corev1.URISchemeHTTPS <$> corev1.Container.ReadinessProbe container) in
      corev1.Container.set_Command container
        (corev1.Container.Command container ++ ["--status-port-tls"])
    else container in
  let container :=
    if IsMetricsTLSEnabled cluster then
      corev1.Container.set_Command container
        (corev1.Container.Command container ++ ["--metrics-port-tls"])
    else container in
  let container := addManagerLoggingOptions cluster container in
  (* use the custom probe configuration if provided *)
  ensureCustomProbesConfiguration cluster container.

(** The second part of [createPostgresContainers]: ensure a proper
    threshold is set. *)
Definition ensureStartupThreshold (cluster : apiv1.Cluster.t) (probe : corev1.Probe.t)
  : corev1.Probe.t :=
  if corev1.Probe.FailureThreshold probe =? 0 then
    corev1.Probe.set_FailureThreshold probe
      (getFailureThreshold (GetMaxStartDelay cluster) (corev1.Probe.PeriodSeconds probe))
  else probe.

Definition ensureLivenessThreshold (cluster : apiv1.Cluster.t) (probe : corev1.Probe.t)
  : corev1.Probe.t :=
  match apiv1.ClusterSpec.LivenessProbeTimeout (apiv1.Cluster.Spec cluster) with
  | Some livenessProbeTimeout =>
      if corev1.Probe.FailureThreshold probe =? 0 then
        corev1.Probe.set_FailureThreshold probe
          (getFailureThreshold livenessProbeTimeout (corev1.Probe.PeriodSeconds probe))
      else probe
  | None => probe
  end.

(** [createPostgresContainers] creates the PostgreSQL containers that are
    used for every instance. The probes are reached through the pointers
    that the container holds, which the literal sets; where Go would fail on
    a nil pointer that [addManagerLoggingOptions] had left, the probe stays
    nil here. *)
Definition createPostgresContainers
           (cluster : apiv1.Cluster.t) (envConfig : EnvConfig.t) (enableHTTPS : bool)
  : list corev1.Container.t :=
  let container := postgresContainerWithProbes cluster envConfig enableHTTPS in
  let container :=
    corev1.Container.set_StartupProbe container
      (ensureStartupThreshold cluster <$> corev1.Container.StartupProbe container) in
  let container :=
    corev1.Container.set_LivenessProbe container
      (ensureLivenessThreshold cluster <$> corev1.Container.LivenessProbe container) in
  [container].

(** [createClusterPodSpec] computes the PodSpec corresponding to a cluster. *)
Definition createClusterPodSpec
           (podName : string) (cluster : apiv1.Cluster.t) (envConfig : EnvConfig.t)
           (gracePeriod : Z) (enableHTTPS : bool) : corev1.PodSpec.t :=
  let affinity := apiv1.ClusterSpec.Affinity (apiv1.Cluster.Spec cluster) in
  corev1.PodSpec.mk
    podName
    [createBootstrapContainer cluster]
    (apiv1.ClusterSpec.SchedulerName (apiv1.Cluster.Spec cluster))
    (createPostgresContainers cluster envConfig enableHTTPS)
    (createPostgresVolumes cluster podName)
    (CreatePodSecurityContext
       (GetSeccompProfile cluster) (GetPostgresUID cluster) (GetPostgresGID cluster))
    (CreateAffinitySection (apiv1.Cluster.Name cluster) affinity)
    (apiv1.AffinityConfiguration.Tolerations affinity)
    (apiv1.Cluster.Name cluster)
    (apiv1.AffinityConfiguration.NodeSelector affinity)
    (Some gracePeriod)
    (apiv1.ClusterSpec.TopologySpreadConstraints (apiv1.Cluster.Spec cluster))
    ""
    "".

End specs.

Section instance.
Context `{Externals}.

(** The pod that [buildInstance] has assembled when it reaches the patch
    of the annotation. *)
Definition buildInstance_base
           (cluster : apiv1.Cluster.t) (nodeSerial : Z) (tlsEnabled : bool)
  : corev1.Pod.t MapValue :=
  let podName := GetInstanceName (apiv1.Cluster.Name cluster) nodeSerial in
  let gracePeriod := GetMaxStopDelay cluster in
  let envConfig := CreatePodEnvConfig cluster podName in
  let podSpec := createClusterPodSpec podName cluster envConfig gracePeriod tlsEnabled in
  let meta :=
    metav1.ObjectMeta.mk
      (<[ PodRoleLabelName := PodRoleInstance ]>
         (<[ InstanceNameLabelName := podName ]>
            (<[ ClusterLabelName := apiv1.Cluster.Name cluster ]> ∅)))
      (Some (<[ PodEnvHashAnnotationName := EnvConfig.Hash envConfig ]>
               (<[ ClusterSerialAnnotationName := Go.Itoa nodeSerial ]> ∅)))
      podName
      (apiv1.Cluster.Namespace cluster) in
  let podSpec :=
    if negb (String.eqb (apiv1.ClusterSpec.PriorityClassName (apiv1.Cluster.Spec cluster)) "")
    then corev1.PodSpec.set_PriorityClassName podSpec
           (apiv1.ClusterSpec.PriorityClassName (apiv1.Cluster.Spec cluster))
    else podSpec in
  let podSpec :=
    if CreateAnyService
    then corev1.PodSpec.set_Subdomain podSpec (GetServiceAnyName cluster)
    else podSpec in
  let '(meta, podSpec) :=
    if IsAnnotationAppArmorPresent podSpec (apiv1.Cluster.Annotations cluster)
    then AnnotateAppArmor meta podSpec (apiv1.Cluster.Annotations cluster)
    else (meta, podSpec) in
  corev1.Pod.mk meta podSpec.

(** The patch of [buildInstance]: the pod is serialized, the patch is
    decoded and applied, and the result is read back into the pod. *)
Definition applyPodPatch (jsonPatch : string) (pod : corev1.Pod.t MapValue)
  : Go.result (corev1.Pod.t MapValue) :=
  Go.bind (Go.orWrap (json_Marshal_Pod pod) "while serializing pod to JSON")
    (fun serializedObject =>
  Go.bind (Go.orWrap (jsonpatch_DecodePatch jsonPatch)
                     "while decoding JSON patch from annotation")
    (fun patch =>
  Go.bind (Go.orWrap (jsonpatch_Apply patch serializedObject)
                     "while applying JSON patch from annotation")
    (fun serializedObject =>
  Go.orWrap (json_Unmarshal_Pod serializedObject pod)
            "while deserializing pod to JSON"))).

(** [buildInstance]: [Go.Ok pod] stands for [(pod, nil)] with a pod that
    nothing else points to yet, [Go.Err err] for [(nil, err)]. The pod has
    its annotation map by content; the map is nil when the patched document
    has null for it. *)
Definition buildInstance
           (cluster : apiv1.Cluster.t) (nodeSerial : Z) (tlsEnabled : bool)
  : Go.result (corev1.Pod.t MapValue) :=
  let pod := buildInstance_base cluster nodeSerial tlsEnabled in
  let jsonPatch := default "" (apiv1.Cluster.Annotations cluster !! PodPatchAnnotationName) in
  if negb (String.eqb jsonPatch "") then applyPodPatch jsonPatch pod
  else Go.Ok pod.

(** The deferred function of [NewInstance], run when the function returns,
    on the value that the variable [pod] has at that time: nothing for a nil
    pointer, and nothing when the specification cannot be serialized;
    otherwise [pod.Annotations[utils.PodSpecAnnotationName] =
    string(podSpecMarshaled)], which writes into the map that the pod refers
    to and panics when that map is nil. A pointer that is not nil points into
    the store; the case of a pointer outside of it is there for totality
    only. *)
Definition NewInstance_deferred (st : Store) (pod : option ptr) : Go.completion Store :=
  match pod with
  | None => Go.Done st
  | Some l =>
      match pods st !! l with
      | None => Go.Done st
      | Some p =>
          match json_Marshal_PodSpec (corev1.Pod.Spec p) with
          | Go.Ok podSpecMarshaled =>
              match metav1.ObjectMeta.Annotations (corev1.Pod.ObjectMeta p) with
              | Some ref =>
                  Go.Done (mapStore st ref PodSpecAnnotationName podSpecMarshaled)
              | None => Go.Panic "assignment to entry in nil map"
              end
          | Go.Err _ => Go.Done st
          end
      end
  end.

(** What a call of [NewInstance] that returns leaves: the two results, the
    store, and the calls of the lifecycle hook that were made. *)
Record NewInstanceResult : Type := mkNewInstanceResult {
  ret_pod : option ptr;
  ret_err : option Go.error;
  ret_store : Store;
  hookCalls : list (OperationVerb * apiv1.Cluster.t * ptr) }.

(** A call of [NewInstance] returns, or it panics; for a panic the store and
    the calls of the hook are those at the time of the panic. *)
Inductive NewInstanceOutcome : Type :=
| Returned (r : NewInstanceResult)
| Panicked (msg : string) (st : Store)
           (calls : list (OperationVerb * apiv1.Cluster.t * ptr)).


(** [return retPod, retErr] after the deferred function has been
    registered: the deferred function runs on the variable [pod], and its
    panic takes the place of the return. *)
Definition NewInstance_return
           (pod : option ptr) (retPod : option ptr) (retErr : option Go.error)
           (st : Store) (calls : list (OperationVerb * apiv1.Cluster.t * ptr))
  : NewInstanceOutcome :=
  match NewInstance_deferred st pod with
  | Go.Done st' => Returned (mkNewInstanceResult retPod retErr st' calls)
  | Go.Panic msg => Panicked msg st calls
  end.

(** [NewInstance] creates a new instance Pod with the plugin patches
    applied. The messages of the logger are left out. *)
Definition NewInstance
           (ctx : Context.t) (st : Store)
           (cluster : apiv1.Cluster.t) (nodeSerial : Z) (tlsEnabled : bool)
  : NewInstanceOutcome :=
  match buildInstance cluster nodeSerial tlsEnabled with
  | Go.Err err => Returned (mkNewInstanceResult None (Some err) st [])
  | Go.Ok built =>
      let '(pod, st) := alloc st built in
      match GetPluginClientFromContext ctx with
      | None => NewInstance_return (Some pod) (Some pod) None st []
      | Some pluginClient =>
          let '(reply, st) :=
            PluginClient.LifecycleHook pluginClient st OperationVerbEvaluate cluster pod in
          let calls := [(OperationVerbEvaluate, cluster, pod)] in
          match reply with
          | Go.Err err =>
              NewInstance_return (Some pod) None
                (Some (Go.Errorf_w "while invoking the lifecycle instance evaluation hook" err))
                st calls
          | Go.Ok (ObjPod pod') => NewInstance_return pod' pod' None st calls
          | Go.Ok _ =>
              NewInstance_return None None
                (Some (Go.Errorf "while casting the clientObject to the pod type"))
                st calls
          end
      end
  end.

(** [AddBarmanEndpointCAToPodSpec] adds the required volumes and env
    variables needed by barman to work correctly. The result is the pod
    specification after the call; [None] stands for the run-time panic of
    [podSpec.Containers[0]] on a specification without containers. *)
Definition AddBarmanEndpointCAToPodSpec
           (podSpec : corev1.PodSpec.t)
           (caSecret : option apiv1.SecretKeySelector.t)
           (credentials : apiv1.BarmanCredentials.t)
  : option corev1.PodSpec.t :=
  match caSecret with
  | None => Some podSpec
  | Some ca =>
      if String.eqb (apiv1.SecretKeySelector.Name ca) "" ||
         String.eqb (apiv1.SecretKeySelector.Key ca) ""
      then Some podSpec
      else
        let podSpec :=
          corev1.PodSpec.set_Volumes podSpec
            (corev1.PodSpec.Volumes podSpec ++
             [ corev1.Volume.mk "barman-endpoint-ca"
                 (corev1.VolumeSource_Secret
                    (corev1.SecretVolumeSource.mk
                       (apiv1.SecretKeySelector.Name ca)
                       [ corev1.KeyToPath.mk
                           (apiv1.SecretKeySelector.Key ca)
                           BarmanRestoreEndpointCACertificateFileName ])) ]) in
        match corev1.PodSpec.Containers podSpec with
        | [] => None
        | container :: others =>
            let container :=
              corev1.Container.set_VolumeMounts container
                (corev1.Container.VolumeMounts container ++
                 [ corev1.VolumeMount.mk "barman-endpoint-ca" CertificatesDir ]) in
            let envVars :=
              match apiv1.BarmanCredentials.Azure credentials with
              | Some _ =>
                  [ envVar "REQUESTS_CA_BUNDLE" BarmanRestoreEndpointCACertificateLocation ]
              (* If nothing is set we fall back to AWS *)
              | None =>
                  [ envVar "AWS_CA_BUNDLE" BarmanRestoreEndpointCACertificateLocation ]
              end in
            let container :=
              corev1.Container.set_Env container
                (corev1.Container.Env container ++ envVars) in
            Some (corev1.PodSpec.set_Containers podSpec (container :: others))
        end
  end.

End instance.

(** ** A concrete environment

    Values for the [Externals] on which the functions can be evaluated. The
    stand-ins for the libraries are small. The serializer of a pod
    specification lists the names of its containers, and fails, as the
    encoder of JSON does, on a specification with a probe whose port has a
    type that is neither [intstr.Int] nor [intstr.String]; the serializer of
    a pod fails on the same pods. A patch is its text: the texts [malformed],
    [inapplicable] and [unreadable] make decoding, applying and reading back
    fail, and the text [annotations: null] stands for the patch that replaces
    [/metadata/annotations] by null, after which the pod that is read back
    has a nil map of annotations. *)
Module Sample.

(** Modelled from the spec: [apiv1.Probe.ApplyInto], which is not in this
    file; only fields explicitly set in the override replace the
    corresponding default field, unset fields leave the default unchanged. *)
Definition Probe_ApplyInto (p : option apiv1.Probe.t) (k8sProbe : corev1.Probe.t)
  : corev1.Probe.t :=
  match p with
  | None => k8sProbe
  | Some p =>
      let pick (override current : Z) := if override =? 0 then current else override in
      corev1.Probe.mk
        (corev1.Probe.HTTPGet k8sProbe)
        (pick (apiv1.Probe.InitialDelaySeconds p) (corev1.Probe.InitialDelaySeconds k8sProbe))
        (pick (apiv1.Probe.TimeoutSeconds p) (corev1.Probe.TimeoutSeconds k8sProbe))
        (pick (apiv1.Probe.PeriodSeconds p) (corev1.Probe.PeriodSeconds k8sProbe))
        (pick (apiv1.Probe.SuccessThreshold p) (corev1.Probe.SuccessThreshold k8sProbe))
        (pick (apiv1.Probe.FailureThreshold p) (corev1.Probe.FailureThreshold k8sProbe))
        (match apiv1.Probe.TerminationGracePeriodSeconds p with
         | Some g => Some g
         | None => corev1.Probe.TerminationGracePeriodSeconds k8sProbe
         end)
  end.

Definition containerNames (spec : corev1.PodSpec.t) : string :=
  String.concat "," (corev1.Container.Name <$> corev1.PodSpec.Containers spec).

Definition bootstrapContainer : corev1.Container.t :=
  corev1.Container.mk "bootstrap-controller" "" "" [] [] [] None None None
    ["/manager"; "bootstrap"] (Doc "") [] None.

(** What the encoder of JSON accepts: [IntOrString.MarshalJSON] fails on a
    type that is neither of the two. *)
Definition encodablePort (port : intstr.IntOrString) : bool :=
  bool_decide (intstr.Type' port = intstr.Int) ||
  bool_decide (intstr.Type' port = intstr.String).

Definition encodableProbe (probe : option corev1.Probe.t) : bool :=
  match probe ≫= corev1.Probe.HTTPGet with
  | Some action => encodablePort (corev1.HTTPGetAction.Port action)
  | None => true
  end.

Definition encodableContainer (c : corev1.Container.t) : bool :=
  encodableProbe (corev1.Container.StartupProbe c) &&
  encodableProbe (corev1.Container.ReadinessProbe c) &&
  encodableProbe (corev1.Container.LivenessProbe c).

Definition encodableSpec (spec : corev1.PodSpec.t) : bool :=
  forallb encodableContainer (corev1.PodSpec.InitContainers spec) &&
  forallb encodableContainer (corev1.PodSpec.Containers spec).

Definition marshalPodSpec (spec : corev1.PodSpec.t) : Go.result string :=
  if encodableSpec spec then Go.Ok (containerNames spec)
  else Go.Err (Go.errorString "json: error calling MarshalJSON for type intstr.IntOrString").

Definition ext : Externals := {|
  ClusterLabelName := "cnpg.io/cluster";
  InstanceNameLabelName := "cnpg.io/instanceName";
  PodRoleLabelName := "cnpg.io/podRole";
  PodRoleInstance := "instance";
  ClusterSerialAnnotationName := "cnpg.io/nodeSerial";
  PodEnvHashAnnotationName := "cnpg.io/podEnvHash";
  PodSpecAnnotationName := "cnpg.io/podSpec";
  PodPatchAnnotationName := "cnpg.io/podPatch";
  HaveSecurityContextConstraints := false;
  IsAnnotationAppArmorPresent := fun _ _ => false;
  AnnotateAppArmor := fun meta spec _ => (meta, spec);
  TemporaryDirectory := "/controller/tmp";
  ServerPort := 5432;
  SocketDirectory := "/controller/run";
  CertificatesDir := "/controller/certificates/";
  BarmanRestoreEndpointCACertificateFileName := "barman-restore-ca.crt";
  BarmanRestoreEndpointCACertificateLocation :=
    "/controller/certificates/barman-restore-ca.crt";
  PathStartup := "/startupz";
  PathReady := "/readyz";
  PathHealth := "/healthz";
  StatusPort := 8000;
  PostgresMetricsPort := 9187;
  StandbyTCPUserTimeout := 0;
  CreateAnyService := false;
  GetSeccompProfile := fun _ => None;
  GetPostgresUID := fun _ => 26;
  GetPostgresGID := fun _ => 26;
  GetMaxStartDelay := fun _ => 3600;
  GetMaxStopDelay := fun _ => 1800;
  IsMetricsTLSEnabled := fun _ => false;
  GetServiceAnyName := fun cluster => apiv1.Cluster.Name cluster +:+ "-any";
  ApplyInto := Probe_ApplyInto;
  createBootstrapContainer := fun _ => bootstrapContainer;
  createPostgresVolumes := fun _ _ => [];
  CreatePostgresVolumeMounts := fun _ => [];
  CreateContainerSecurityContext := fun _ => None;
  addManagerLoggingOptions := fun _ container => container;
  path_Join := fun dir file => dir +:+ "/" +:+ file;
  hash_ComputeHash := fun config =>
    (String.concat ";" (corev1.EnvVar.Name <$> EnvConfig.EnvVars config), None);
  json_Marshal_Pod := fun pod => marshalPodSpec (corev1.Pod.Spec pod);
  json_Marshal_PodSpec := marshalPodSpec;
  json_Unmarshal_Pod := fun doc pod =>
    if String.eqb doc "unreadable" then Go.Err (Go.errorString "unexpected end of JSON input")
    else if String.eqb doc "annotations: null"
         then Go.Ok (corev1.Pod.set_Annotations pod (None : MapValue))
    else Go.Ok pod;
  jsonpatch_Patch := string;
  jsonpatch_DecodePatch := fun text =>
    if String.eqb text "malformed" then Go.Err (Go.errorString "invalid character")
    else Go.Ok text;
  jsonpatch_Apply := fun patch doc =>
    if String.eqb patch "inapplicable" then Go.Err (Go.errorString "missing path")
    else if String.eqb patch "unreadable" then Go.Ok "unreadable"
    else if String.eqb patch "annotations: null" then Go.Ok "annotations: null"
    else Go.Ok doc
|}.

Definition affinity : apiv1.AffinityConfiguration.t :=
  apiv1.AffinityConfiguration.mk None "" ∅ None [] "" None None.

Definition affinityOf (enable : option bool) (mode : string)
  : apiv1.AffinityConfiguration.t :=
  apiv1.AffinityConfiguration.mk enable "" ∅ None [] mode None None.

Definition clusterWith (annotations : gmap string string)
           (affinity : apiv1.AffinityConfiguration.t) : apiv1.Cluster.t :=
  apiv1.Cluster.mk "cluster-example" "default" annotations
    (apiv1.ClusterSpec.mk [] [] "" affinity [] "" (Doc "") None None "")
    (apiv1.ClusterStatus.mk "postgres:17").

Definition cluster : apiv1.Cluster.t := clusterWith ∅ affinity.

Definition patchedCluster (patch : string) : apiv1.Cluster.t :=
  clusterWith {[ "cnpg.io/podPatch" := patch ]} affinity.

Definition sidecar : corev1.Container.t :=
  corev1.Container.mk "sidecar" "" "" [] [] [] None None None [] (Doc "") [] None.

(** A container with a readiness probe whose port has a type that is
    neither [intstr.Int] nor [intstr.String]. *)
Definition oddPort : intstr.IntOrString := intstr.mk 2 0 "".

Definition oddContainer : corev1.Container.t :=
  corev1.Container.mk "odd" "" "" [] [] [] None
    (Some (corev1.Probe.mk (Some (corev1.HTTPGetAction.mk "/readyz" oddPort "")) 0 0 0 0 0 None))
    None [] (Doc "") [] None.

(** A hook that makes a shallow copy of the pod, appends a container to the
    containers of the copy and returns the pointer to the copy: the copy has
    a specification of its own and shares the map of the annotations with the
    pod it was copied from. *)
Definition appendingHook (c : corev1.Container.t) : PluginClient.t :=
  PluginClient.mk (fun st _ _ pod =>
    match pods st !! pod with
    | Some p =>
        let p' :=
          corev1.Pod.set_Spec p
            (corev1.PodSpec.set_Containers (corev1.Pod.Spec p)
               (corev1.PodSpec.Containers (corev1.Pod.Spec p) ++ [c])) in
        (Go.Ok (ObjPod (Some (List.length (pods st)))), mkStore (pods st ++ [p']) (maps st))
    | None => (Go.Err (Go.errorString "no pod"), st)
    end).

Definition sidecarHook : PluginClient.t := appendingHook sidecar.
Definition oddHook : PluginClient.t := appendingHook oddContainer.

Definition failingHook : PluginClient.t :=
  PluginClient.mk (fun st _ _ _ => (Go.Err (Go.errorString "plugin unavailable"), st)).

Definition wrongKindHook : PluginClient.t :=
  PluginClient.mk (fun st _ _ _ => (Go.Ok (ObjOther "ConfigMap"), st)).

(** A store with nothing in it, and one with a pod in it. *)
Definition emptyStore : Store := mkStore [] ∅.

Definition clusterPod : corev1.Pod.t MapValue :=
  corev1.Pod.mk (metav1.ObjectMeta.mk ∅ (Some ∅) "cluster-example-1" "default")
    (corev1.PodSpec.mk "cluster-example-1" [] "" [sidecar] [] None None [] "" ∅ None [] "" "").

Definition store : Store := (alloc emptyStore clusterPod).2.

Definition noClient : Context.t := Context.mk None.
Definition withClient (client : PluginClient.t) : Context.t := Context.mk (Some client).

End Sample.

(** The second half of [binary_round_aux]: the mantissa that rounding has
    produced is brought back to 53 digits. *)
Definition renormalise (s : bool) (Y e : Z) : spec_float :=
  let '(mrs'', e'') := shr_fexp Go.prec Go.emax Y e loc_Exact in
  match shr_m mrs'' with
  | Z0 => S754_zero s
  | Zpos m => if e'' <=? Go.emax - Go.prec then S754_finite s m e'' else S754_infinity s
  | _ => S754_nan
  end.

(** ** Terms used in the statements *)

(** The term of the generated anti-affinity: the pods of the cluster that
    have the instance role, within one value of the topology key. *)
Definition generatedPodAffinityTerm `{Externals} (clusterName topologyKey : string)
  : corev1.PodAffinityTerm.t :=
  corev1.PodAffinityTerm.mk
    (Some (metav1.LabelSelector.mk ∅
       [ metav1.LabelSelectorRequirement.mk ClusterLabelName "In" [clusterName];
         metav1.LabelSelectorRequirement.mk PodRoleLabelName "In" [PodRoleInstance] ]))
    topologyKey.

(** The required and the preferred anti-affinity terms of an affinity that
    may be absent. *)
Definition requiredAntiAffinityTerms (affinity : option corev1.Affinity.t)
  : list corev1.PodAffinityTerm.t :=
  match affinity ≫= corev1.Affinity.PodAntiAffinity with
  | Some anti => corev1.PodAntiAffinity.RequiredDuringSchedulingIgnoredDuringExecution anti
  | None => []
  end.

Definition preferredAntiAffinityTerms (affinity : option corev1.Affinity.t)
  : list corev1.WeightedPodAffinityTerm.t :=
  match affinity ≫= corev1.Affinity.PodAntiAffinity with
  | Some anti => corev1.PodAntiAffinity.PreferredDuringSchedulingIgnoredDuringExecution anti
  | None => []
  end.

(** The configuration declares none of the three extensions. *)
Definition noAffinityExtensions (config : apiv1.AffinityConfiguration.t) : Prop :=
  apiv1.AffinityConfiguration.AdditionalPodAffinity config = None /\
  apiv1.AffinityConfiguration.AdditionalPodAntiAffinity config = None /\
  apiv1.AffinityConfiguration.NodeAffinity config = None.

(** The fixed entries with which [CreatePodEnvConfig] starts. *)
Definition baselineEnvVars `{Externals} (cluster : apiv1.Cluster.t) (podName : string)
  : list corev1.EnvVar.t :=
  [ envVar "PGDATA" "/var/lib/postgresql/data/pgdata";
    envVar "POD_NAME" podName;
    envVar "NAMESPACE" (apiv1.Cluster.Namespace cluster);
    envVar "CLUSTER_NAME" (apiv1.Cluster.Name cluster);
    envVar "PSQL_HISTORY" (path_Join TemporaryDirectory ".psql_history");
    envVar "PGPORT" (Go.Itoa ServerPort);
    envVar "PGHOST" SocketDirectory;
    envVar "TMPDIR" TemporaryDirectory ].

(** The entry that depends on the process-wide configuration. *)
Definition operationalEnvVars `{Externals} : list corev1.EnvVar.t :=
  if decide (StandbyTCPUserTimeout = 0) then []
  else [ envVar "CNPG_STANDBY_TCP_USER_TIMEOUT" (Go.Itoa StandbyTCPUserTimeout) ].

(** Extensions and two entries, for the evaluation of the affinity and of
    the comparison of environments. *)
Module SampleAffinity.
Definition term (key : string) : corev1.PodAffinityTerm.t :=
  corev1.PodAffinityTerm.mk None key.
Definition podAffinity : corev1.PodAffinity.t :=
  corev1.PodAffinity.mk [term "zone"] [].
Definition podAntiAffinity : corev1.PodAntiAffinity.t :=
  corev1.PodAntiAffinity.mk [term "rack"] [corev1.WeightedPodAffinityTerm.mk 50 (term "zone")].
Definition nodeAffinity : corev1.NodeAffinity := Doc "nodeAffinity".
Definition extended : apiv1.AffinityConfiguration.t :=
  apiv1.AffinityConfiguration.mk None "" ∅ (Some nodeAffinity) [] "required"
    (Some podAntiAffinity) (Some podAffinity).
Definition first : corev1.EnvVar.t := envVar "A" "1".
Definition second : corev1.EnvVar.t := envVar "B" "2".
Definition containerWithEnv (env : list corev1.EnvVar.t) : corev1.Container.t :=
  corev1.Container.set_Env Sample.sidecar env.
End SampleAffinity.

(** The character of the dash, and whether it occurs in a string. *)
Definition dash : Ascii.ascii := Ascii.Ascii true false true true false true false false.

Fixpoint hasDash (s : string) : bool :=
  match s with
  | EmptyString => false
  | String a s' => if Ascii.eqb a dash then true else hasDash s'
  end.

(** The secret names a certificate: neither its name nor its key is empty. *)
Definition usableCASecret (caSecret : option apiv1.SecretKeySelector.t) : Prop :=
  exists ca, caSecret = Some ca /\
    apiv1.SecretKeySelector.Name ca <> "" /\ apiv1.SecretKeySelector.Key ca <> "".

(** The volume, the mount and the variable that
    [AddBarmanEndpointCAToPodSpec] adds. *)
Definition barmanCAVolume `{Externals} (ca : apiv1.SecretKeySelector.t) : corev1.Volume.t :=
  corev1.Volume.mk "barman-endpoint-ca"
    (corev1.VolumeSource_Secret
       (corev1.SecretVolumeSource.mk (apiv1.SecretKeySelector.Name ca)
          [ corev1.KeyToPath.mk (apiv1.SecretKeySelector.Key ca)
              BarmanRestoreEndpointCACertificateFileName ])).

Definition barmanCAMount `{Externals} : corev1.VolumeMount.t :=
  corev1.VolumeMount.mk "barman-endpoint-ca" CertificatesDir.

Definition barmanCAEnvVar `{Externals} (credentials : apiv1.BarmanCredentials.t)
  : corev1.EnvVar.t :=
  envVar (match apiv1.BarmanCredentials.Azure credentials with
          | Some _ => "REQUESTS_CA_BUNDLE"
          | None => "AWS_CA_BUNDLE"
          end)
         BarmanRestoreEndpointCACertificateLocation.

(** A secret and credentials for the evaluation of
    [AddBarmanEndpointCAToPodSpec]. *)
Module SampleBarman.
Definition caSecret : apiv1.SecretKeySelector.t :=
  apiv1.SecretKeySelector.mk "minio-ca" "ca.crt".
Definition aws : apiv1.BarmanCredentials.t :=
  apiv1.BarmanCredentials.mk None (Some (Doc "s3")) None.
Definition azure : apiv1.BarmanCredentials.t :=
  apiv1.BarmanCredentials.mk None None (Some (Doc "azure")).
Definition emptySpec : corev1.PodSpec.t :=
  corev1.PodSpec.mk "" [] "" [] [] None None [] "" ∅ None [] "" "".
Definition podSpec : corev1.PodSpec.t :=
  corev1.PodSpec.set_Containers emptySpec [Sample.sidecar; Sample.bootstrapContainer].
End SampleBarman.

(** A container with its three probes taken away. *)
Definition withoutProbes (c : corev1.Container.t) : corev1.Container.t :=
  corev1.Container.set_StartupProbe
    (corev1.Container.set_ReadinessProbe
       (corev1.Container.set_LivenessProbe c None) None) None.

(** The three probes of a container. *)
Definition probesOf (c : corev1.Container.t) : list (option corev1.Probe.t) :=
  [ corev1.Container.StartupProbe c;
    corev1.Container.ReadinessProbe c;
    corev1.Container.LivenessProbe c ].

(** A probe as [createPostgresContainers] creates it: a request on the status
    port with the given scheme, every 10 seconds, with a timeout of 5 seconds
    and no threshold yet. *)
Definition isDefaultProbe `{Externals} (scheme : string) (probe : option corev1.Probe.t)
  : Prop :=
  exists p action,
    probe = Some p /\ corev1.Probe.HTTPGet p = Some action /\
    corev1.HTTPGetAction.Scheme action = scheme /\
    corev1.HTTPGetAction.Port action = intstr.FromInt32 StatusPort /\
    corev1.Probe.PeriodSeconds p = 10 /\ corev1.Probe.TimeoutSeconds p = 5 /\
    corev1.Probe.FailureThreshold p = 0.

(** The messages with which [NewInstance] wraps the error of a stage. *)
Definition stageMessages : list string :=
  [ "while serializing pod to JSON";
    "while decoding JSON patch from annotation";
    "while applying JSON patch from annotation";
    "while deserializing pod to JSON";
    "while invoking the lifecycle instance evaluation hook" ].

(** A hook that returns a nil pointer to a pod. *)
Definition nilPodHook : PluginClient.t :=
  PluginClient.mk (fun st _ _ _ => (Go.Ok (ObjPod None), st)).

(** A hook that adds the sidecar when it is called on the second pod of the
    store, and fails on any other. *)
Definition firstCallHook : PluginClient.t :=
  PluginClient.mk (fun st verb cluster pod =>
    if decide (pod = 1%nat)
    then PluginClient.LifecycleHook Sample.sidecarHook st verb cluster pod
    else (Go.Err (Go.errorString "not the pod"), st)).

(** * Properties *)

(** ** The binary64 computation of [getFailureThreshold]

    The quotient of two integers below [2 ^ 31] is rounded to 53 digits; the
    lemmas follow the steps of [SFdiv] and show that the rounded quotient has
    the same ceiling as the exact one. *)

Lemma digits2_pos_bounds (p : positive) :
  2 ^ (Zpos (digits2_pos p) - 1) <= Zpos p < 2 ^ Zpos (digits2_pos p).
Proof.
  induction p as [p IH | p IH |]; cbn [digits2_pos].
  - rewrite Pos2Z.inj_succ.
    replace (Z.succ (Z.pos (digits2_pos p)) - 1) with (Z.succ (Z.pos (digits2_pos p) - 1)) by lia.
    rewrite !Z.pow_succ_r by lia. lia.
  - rewrite Pos2Z.inj_succ.
    replace (Z.succ (Z.pos (digits2_pos p)) - 1) with (Z.succ (Z.pos (digits2_pos p) - 1)) by lia.
    rewrite !Z.pow_succ_r by lia. lia.
  - cbn. lia.
Qed.

Lemma digits2_pos_unique (p : positive) (k : Z) :
  2 ^ (k - 1) <= Zpos p < 2 ^ k -> Zpos (digits2_pos p) = k.
Proof.
  intros [Hl Hu]. pose proof (digits2_pos_bounds p) as [Bl Bu].
  assert (0 < k).
  { destruct (Z.ltb_spec 0 k) as [|Hk]; [done|].
    assert (2 ^ k <= 2 ^ 0) by (destruct (Z.eq_dec k 0) as [->|]; [lia|rewrite Z.pow_neg_r by lia; cbn; lia]).
    cbn in *. lia. }
  destruct (Z.lt_trichotomy (Zpos (digits2_pos p)) k) as [Hlt | [Heq | Hgt]]; [|done|].
  - assert (2 ^ Zpos (digits2_pos p) <= 2 ^ (k - 1)) by (apply Z.pow_le_mono_r; lia). lia.
  - assert (2 ^ k <= 2 ^ (Zpos (digits2_pos p) - 1)) by (apply Z.pow_le_mono_r; lia). lia.
Qed.

Lemma iter_xO_val (m d : positive) :
  Zpos (Pos.iter xO m d) = Zpos m * 2 ^ Zpos d.
Proof.
  induction d as [|d IH] using Pos.peano_ind.
  - cbn. lia.
  - rewrite Pos.iter_succ, Pos2Z.inj_succ, Z.pow_succ_r by lia.
    rewrite Pos2Z.inj_xO, IH. lia.
Qed.


Lemma fexp_above (x : Z) : -1021 <= x -> fexp Go.prec Go.emax x = x - 53.
Proof. intros H. unfold fexp, emin, Go.prec, Go.emax. lia. Qed.

(* A mantissa of 53 digits with an exponent in range is returned as it is. *)
Lemma binary_round_aux_canonical (s : bool) (m : positive) (e : Z) :
  Zpos (digits2_pos m) = 53 -> -1074 <= e <= 971 ->
  binary_round_aux Go.prec Go.emax s (Zpos m) e loc_Exact = S754_finite s m e.
Proof.
  intros Hd He.
  unfold binary_round_aux, shr_fexp. cbn [Zdigits2 shr_record_of_loc].
  rewrite Hd, fexp_above by lia.
  replace (53 + e - 53 - e) with 0 by lia.
  cbn [shr shr_m loc_of_shr_record round_nearest_even Zdigits2].
  rewrite Hd, fexp_above by lia.
  replace (53 + e - 53 - e) with 0 by lia.
  cbn [shr shr_m].
  replace (e <=? Go.emax - Go.prec) with true; [done|].
  symmetry. apply Z.leb_le. unfold Go.emax, Go.prec. lia.
Qed.


Lemma float64_of_int_exact (n : positive) :
  Zpos n < 2 ^ 52 ->
  exists (m : positive) (k : Z),
    Go.float64_of_int (Zpos n) = S754_finite false m (- k) /\
    1 <= k <= 52 /\ Zpos m = Zpos n * 2 ^ k /\ Zpos (digits2_pos m) = 53.
Proof.
  intros Hn.
  pose proof (digits2_pos_bounds n) as [Bl Bu].
  set (dn := Zpos (digits2_pos n)) in *.
  assert (Hdn : 1 <= dn <= 52).
  { split; [unfold dn; lia|].
    destruct (Z.leb_spec dn 52); [done|].
    assert (2 ^ 52 <= 2 ^ (dn - 1)) by (apply Z.pow_le_mono_r; lia). lia. }
  unfold Go.float64_of_int, binary_normalize, binary_round.
  fold dn. rewrite Z.add_0_r, fexp_above by lia.
  unfold shl_align.
  destruct (dn - 53 - 0) as [|d|d] eqn:Hd; try lia.
  exists (Pos.iter xO n d), (Zpos d).
  assert (Hv : Zpos (Pos.iter xO n d) = Zpos n * 2 ^ Zpos d) by apply iter_xO_val.
  assert (Hdig : Zpos (digits2_pos (Pos.iter xO n d)) = 53).
  { apply digits2_pos_unique. rewrite Hv.
    replace 53 with (dn + Zpos d) by lia.
    replace (dn + Zpos d - 1) with ((dn - 1) + Zpos d) by lia.
    rewrite !Z.pow_add_r by lia. nia. }
  split; [|repeat split; try lia; done].
  rewrite binary_round_aux_canonical by (done || lia).
  f_equal. lia.
Qed.

Lemma Zdigits2_unique (q k : Z) : 0 < q -> 2 ^ (k - 1) <= q < 2 ^ k -> Zdigits2 q = k.
Proof.
  intros Hq H. destruct q as [|p|p]; try lia. cbn. by apply digits2_pos_unique.
Qed.

Lemma binary_round_aux_unfold (s : bool) (q e : Z) (l : location) :
  binary_round_aux Go.prec Go.emax s q e l =
  let '(mrs', e') := shr_fexp Go.prec Go.emax q e l in
  renormalise s (round_nearest_even (shr_m mrs') (loc_of_shr_record mrs')) e'.
Proof. reflexivity. Qed.

Lemma renormalise_spec (s : bool) (Y e : Z) :
  2 ^ 52 <= Y <= 2 ^ 53 -> -1074 <= e <= 900 ->
  exists (m : positive) (e2 : Z),
    renormalise s Y e = S754_finite s m e2 /\ e <= e2 <= e + 1 /\
    Zpos m * 2 ^ (e2 - e) = Y.
Proof.
  intros HY He. unfold renormalise, shr_fexp.
  destruct (Z.eq_dec Y (2 ^ 53)) as [-> | Hne].
  - cbn [Zdigits2 digits2_pos]. 
    replace (Zdigits2 (2 ^ 53)) with 54 by reflexivity.
    rewrite fexp_above by lia. replace (54 + e - 53 - e) with 1 by lia.
    cbn -[Z.leb Go.emax Go.prec Z.add].
    replace (e + 1 <=? Go.emax - Go.prec) with true
      by (symmetry; apply Z.leb_le; unfold Go.emax, Go.prec; lia).
    eexists _, _. split; [reflexivity|]. split; [lia|].
    replace (e + 1 - e) with 1 by lia. reflexivity.
  - assert (Hd : Zdigits2 Y = 53) by (apply Zdigits2_unique; lia).
    rewrite Hd, fexp_above by lia. replace (53 + e - 53 - e) with 0 by lia.
    cbn [shr shr_record_of_loc shr_m].
    destruct Y as [|m|m]; try lia.
    replace (e <=? Go.emax - Go.prec) with true
      by (symmetry; apply Z.leb_le; unfold Go.emax, Go.prec; lia).
    exists m, e. split; [done|]. split; [lia|].
    rewrite Z.sub_diag. cbn. lia.
Qed.

Lemma loc_of_shr_record_of_loc (m : Z) (l : location) :
  loc_of_shr_record (shr_record_of_loc m l) = l.
Proof. destruct l as [|[]]; reflexivity. Qed.

Lemma shr_m_record_of_loc (m : Z) (l : location) : shr_m (shr_record_of_loc m l) = m.
Proof. destruct l as [|[]]; reflexivity. Qed.

Lemma round_nearest_even_range (m : Z) (l : location) :
  m <= round_nearest_even m l <= m + 1.
Proof. unfold round_nearest_even. destruct l as [|[]]; try destruct (Z.even m); lia. Qed.

(* Rounding a quotient of 53 or 54 digits. *)
Lemma binary_round_aux_quotient (q e : Z) (l : location) :
  2 ^ 52 <= q < 2 ^ 54 -> -1074 <= e <= 800 ->
  exists (m : positive) (e2 Y k : Z),
    binary_round_aux Go.prec Go.emax false q e l = S754_finite false m e2 /\
    e <= e2 <= e + 2 /\ 0 <= k <= 1 /\
    Zpos m * 2 ^ (e2 - e) = Y * 2 ^ k /\
    q / 2 ^ k <= Y <= q / 2 ^ k + 1 /\
    (l = loc_Exact -> q mod 2 ^ k = 0 -> Y = q / 2 ^ k).
Proof.
  intros Hq He. rewrite binary_round_aux_unfold. unfold shr_fexp.
  destruct (Z.ltb_spec q (2 ^ 53)) as [Hlt | Hge].
  - assert (Hd : Zdigits2 q = 53) by (apply Zdigits2_unique; lia).
    rewrite Hd, fexp_above by lia. replace (53 + e - 53 - e) with 0 by lia.
    cbn [shr]. rewrite loc_of_shr_record_of_loc, shr_m_record_of_loc.
    pose proof (round_nearest_even_range q l) as HY.
    set (Y := round_nearest_even q l) in *.
    destruct (renormalise_spec false Y e) as (m & e2 & -> & He2 & Hm); [lia|lia|].
    exists m, e2, Y, 0. rewrite Z.pow_0_r, Z.div_1_r, Z.mul_1_r.
    repeat split; try lia.
    intros -> _. reflexivity.
  - assert (Hd : Zdigits2 q = 54) by (apply Zdigits2_unique; lia).
    rewrite Hd, fexp_above by lia. replace (54 + e - 53 - e) with 1 by lia.
    cbn [shr SpecFloat.iter_pos].
    destruct q as [|p|p]; try lia.
    destruct p as [p|p|]; try lia.
    + (* odd quotient *)
      assert (Hh : Z.pos p~1 / 2 = Z.pos p)
        by (symmetry; apply (Z.div_unique _ 2 _ 1); lia).
      assert (Hr : Z.pos p~1 mod 2 = 1)
        by (symmetry; apply (Z.mod_unique _ 2 (Z.pos p) 1); lia).
      assert (exists l', loc_of_shr_record (shr_1 (shr_record_of_loc (Z.pos p~1) l)) = l'
                  /\ shr_m (shr_1 (shr_record_of_loc (Z.pos p~1) l)) = Z.pos p) as (l' & -> & ->).
      { destruct l as [|[]]; eexists; split; reflexivity. }
      pose proof (round_nearest_even_range (Z.pos p) l') as HY.
      set (Y := round_nearest_even (Z.pos p) l') in *.
      destruct (renormalise_spec false Y (e + 1)) as (m & e2 & -> & He2 & Hm); [lia|lia|].
      exists m, e2, Y, 1. rewrite Z.pow_1_r, Hh, Hr.
      repeat split; try lia.
      replace (e2 - e) with (1 + (e2 - (e + 1))) by lia.
      rewrite Z.pow_add_r by lia. rewrite Z.pow_1_r. lia.
    + (* even quotient *)
      assert (Hh : Z.pos p~0 / 2 = Z.pos p)
        by (symmetry; apply (Z.div_unique _ 2 _ 0); lia).
      assert (exists l', loc_of_shr_record (shr_1 (shr_record_of_loc (Z.pos p~0) l)) = l'
                  /\ (l = loc_Exact -> l' = loc_Exact)
                  /\ shr_m (shr_1 (shr_record_of_loc (Z.pos p~0) l)) = Z.pos p) as (l' & -> & Hex & ->).
      { destruct l as [|[]]; eexists; (split; [reflexivity|split; [|reflexivity]]); intros; done. }
      pose proof (round_nearest_even_range (Z.pos p) l') as HY.
      set (Y := round_nearest_even (Z.pos p) l') in *.
      destruct (renormalise_spec false Y (e + 1)) as (m & e2 & -> & He2 & Hm); [lia|lia|].
      exists m, e2, Y, 1. rewrite Z.pow_1_r, Hh.
      repeat split; try lia.
      * replace (e2 - e) with (1 + (e2 - (e + 1))) by lia.
        rewrite Z.pow_add_r by lia. rewrite Z.pow_1_r. lia.
      * intros Hl _. unfold Y. rewrite (Hex Hl). reflexivity.
Qed.


Lemma float64_div_finite (mx my : positive) (kx ky : Z) :
  Zpos (digits2_pos mx) = 53 -> Zpos (digits2_pos my) = 53 ->
  0 <= kx <= 60 -> 0 <= ky <= 60 ->
  Go.float64_div (S754_finite false mx (- kx)) (S754_finite false my (- ky)) =
  binary_round_aux Go.prec Go.emax false (Zpos mx * 2 ^ 53 / Zpos my) (ky - kx - 53)
    (new_location (Zpos my) (Zpos mx * 2 ^ 53 mod Zpos my)).
Proof.
  intros Hx Hy Hkx Hky.
  unfold Go.float64_div, SFdiv, SFdiv_core_binary. cbn [Zdigits2 xorb].
  rewrite Hx, Hy, fexp_above by lia.
  replace (Z.min (53 + - kx - (53 + - ky) - 53) (- kx - - ky)) with (ky - kx - 53) by lia.
  replace (- kx - - ky - (ky - kx - 53)) with 53 by lia.
  rewrite Z.shiftl_mul_pow2 by lia.
  unfold Z.div, Z.modulo.
  destruct (Z.div_eucl (Z.pos mx * 2 ^ 53) (Z.pos my)) as [q r]. reflexivity.
Qed.

(* What the rounded quotient is, in units of [2 ^ (kp - kd - 53)]. *)
Lemma scaled_quotient (d p K U C G q r : Z) :
  0 < p -> 0 < K -> 2 <= G -> 0 < C ->
  U * K = G * C -> p * K < C ->
  d * G * C = p * K * q + r -> 0 <= r < p * K ->
  exists t, d * U = p * q + t /\ 0 <= t < p /\ r = K * t /\ 2 * p < U.
Proof.
  intros Hp HK HG HC HUK Hmy Hdiv Hr.
  exists (d * U - p * q).
  assert (E : K * (d * U - p * q) = r).
  { rewrite Z.mul_sub_distr_l.
    replace (K * (d * U)) with (d * (U * K)) by ring. rewrite HUK.
    replace (d * (G * C)) with (d * G * C) by ring. rewrite Hdiv. ring. }
  split; [ring|]. split; [|split; [done|]].
  - rewrite <- E in Hr. destruct Hr as [Hr1 Hr2].
    split.
    + apply (Z.mul_le_mono_pos_l _ _ K); [done|]. rewrite Z.mul_0_r. done.
    + apply (Z.mul_lt_mono_pos_l K); [done|]. replace (K * p) with (p * K) by ring. done.
  - apply (Z.mul_lt_mono_pos_r K); [done|]. rewrite HUK.
    apply Z.lt_le_trans with (2 * C).
    + replace (2 * p * K) with (2 * (p * K)) by ring. lia.
    + apply Z.mul_le_mono_nonneg_r; lia.
Qed.

Lemma rounded_quotient_bracket (d p U' q t Y c k2 : Z) :
  0 < p -> p < d -> 0 < U' ->
  d * (2 * U') = p * q + t -> 0 <= t < p -> 2 * p < 2 * U' ->
  k2 = 1 \/ k2 = 2 ->
  q / k2 <= Y <= q / k2 + 1 ->
  (t = 0 -> q mod k2 = 0 -> Y = q / k2) ->
  (c - 1) * p < d <= c * p ->
  (c - 1) * (2 * U') < Y * k2 <= c * (2 * U').
Proof.
  intros Hp Hd HU' Hdu Ht H2p Hk HY Hex Hc.
  assert (Hc2 : 2 <= c).
  { destruct (Z.le_gt_cases 2 c); [done|]. assert (c * p <= 1 * p) by (apply Z.mul_le_mono_nonneg_r; lia). lia. }
  pose proof (Z.div_mod q k2 ltac:(lia)) as E.
  pose proof (Z.mod_pos_bound q k2 ltac:(lia)) as B.
  destruct (Z.eq_dec d (c * p)) as [Hexact | Hinexact].
  - (* the quotient is an integer *)
    assert (Hq : q = c * (2 * U')).
    { assert (Hz : p * (c * (2 * U') - q) = t) by (rewrite Hexact in Hdu; lia).
      destruct (Z.lt_trichotomy (c * (2 * U') - q) 0) as [Hneg | [Hz0 | Hpos]]; [|lia|].
      - assert (p * (c * (2 * U') - q) <= p * (-1)) by (apply Z.mul_le_mono_nonneg_l; lia). lia.
      - assert (p * 1 <= p * (c * (2 * U') - q)) by (apply Z.mul_le_mono_nonneg_l; lia). lia. }
    assert (Ht0 : t = 0) by (rewrite Hexact, Hq in Hdu; lia).
    assert (Hmod : q mod k2 = 0).
    { destruct Hk as [-> | ->]; [apply Z.mod_1_r|].
      rewrite Hq. replace (c * (2 * U')) with (c * U' * 2) by ring. apply Z.mod_mul. lia. }
    rewrite (Hex Ht0 Hmod). rewrite Hmod in E.
    replace (q / k2 * k2) with q by lia. rewrite Hq.
    split; [|lia].
    apply Z.mul_lt_mono_pos_r; lia.
  - assert (Hd1 : d <= c * p - 1) by lia.
    assert (Hd2 : (c - 1) * p + 1 <= d) by lia.
    assert (Hqu : q < c * (2 * U')).
    { apply (Z.mul_lt_mono_pos_l p); [done|].
      assert (d * (2 * U') <= (c * p - 1) * (2 * U')) by (apply Z.mul_le_mono_nonneg_r; lia).
      lia. }
    assert (Hql : (c - 1) * (2 * U') + 2 <= q).
    { assert (((c - 1) * p + 1) * (2 * U') <= d * (2 * U')) by (apply Z.mul_le_mono_nonneg_r; lia).
      assert (p * ((c - 1) * (2 * U') + 1) < p * q) by lia.
      assert ((c - 1) * (2 * U') + 1 < q) by (apply (Z.mul_lt_mono_pos_l p); done).
      lia. }
    destruct Hk as [-> | ->].
    + rewrite Z.div_1_r in *. lia.
    + lia.
Qed.

Lemma new_location_zero (nb : Z) : new_location nb 0 = loc_Exact.
Proof. unfold new_location. destruct (Z.even nb); reflexivity. Qed.

Lemma int32_of_float64_of_int (c : Z) :
  0 < c < 2 ^ 31 -> Go.int32_of_float64 (Go.float64_of_int c) = c.
Proof.
  intros Hc. destruct c as [|c|c]; try lia.
  destruct (float64_of_int_exact c) as (m & k & -> & Hk & Hm & _); [lia|].
  unfold Go.int32_of_float64.
  replace (0 <=? - k) with false by (symmetry; apply Z.leb_gt; lia).
  cbn [cond_Zopp]. rewrite Z.opp_involutive, Hm.
  rewrite Z.quot_mul by (apply Z.pow_nonzero; lia).
  replace (Go.MinInt32 <=? Z.pos c) with true by (symmetry; apply Z.leb_le; unfold Go.MinInt32; lia).
  replace (Z.pos c <=? Go.MaxInt32) with true by (symmetry; apply Z.leb_le; unfold Go.MaxInt32; lia).
  reflexivity.
Qed.

Lemma mantissa_exponent_lower (d k : Z) :
  0 < d < 2 ^ 31 -> 0 <= k -> 2 ^ 52 <= d * 2 ^ k -> 22 <= k.
Proof.
  intros Hd Hk H. destruct (Z.le_gt_cases 22 k) as [|Hlt]; [done|].
  assert (2 ^ k <= 2 ^ 21) by (apply Z.pow_le_mono_r; lia).
  assert (0 < 2 ^ k) by (apply Z.pow_pos_nonneg; lia).
  assert (d * 2 ^ k <= d * 2 ^ 21) by (apply Z.mul_le_mono_nonneg_l; lia).
  lia.
Qed.

Theorem float64_ceil_div (d p c : Z) :
  0 < p -> p < d -> d < 2 ^ 31 -> (c - 1) * p < d <= c * p ->
  Go.int32_of_float64 (Go.math_Ceil (Go.float64_div (Go.float64_of_int d) (Go.float64_of_int p))) = c.
Proof.
  intros Hp Hpd Hd Hc.
  assert (Hc2 : 2 <= c).
  { destruct (Z.le_gt_cases 2 c); [done|].
    assert (c * p <= 1 * p) by (apply Z.mul_le_mono_nonneg_r; lia). lia. }
  assert (Hcd : c <= d).
  { assert (1 * (c - 1) <= p * (c - 1)) by (apply Z.mul_le_mono_nonneg_r; lia). lia. }
  destruct d as [|d|d]; try lia. destruct p as [|p|p]; try lia.
  destruct (float64_of_int_exact d) as (md & kd & -> & Hkd & Hmd & Hdd); [lia|].
  destruct (float64_of_int_exact p) as (mp & kp & -> & Hkp & Hmp & Hdp); [lia|].
  pose proof (digits2_pos_bounds md) as Bd. rewrite Hdd in Bd.
  pose proof (digits2_pos_bounds mp) as Bp. rewrite Hdp in Bp.
  change (2 ^ (53 - 1)) with (2 ^ 52) in *.
  assert (Hkd22 : 22 <= kd) by (apply (mantissa_exponent_lower (Z.pos d)); lia).
  rewrite float64_div_finite by (done || lia).
  pose proof (Z.div_mod (Z.pos md * 2 ^ 53) (Z.pos mp) ltac:(lia)) as Hdiv.
  pose proof (Z.mod_pos_bound (Z.pos md * 2 ^ 53) (Z.pos mp) ltac:(lia)) as Hr.
  set (q := Z.pos md * 2 ^ 53 / Z.pos mp) in *.
  set (r := Z.pos md * 2 ^ 53 mod Z.pos mp) in *.
  assert (Hq : 2 ^ 52 <= q < 2 ^ 54).
  { split.
    - apply Z.div_le_lower_bound; lia.
    - apply Z.div_lt_upper_bound; lia. }
  destruct (binary_round_aux_quotient q (kp - kd - 53) (new_location (Z.pos mp) r))
    as (m & e2 & Y & k & -> & He2 & Hk & Hm & HY & Hex); [done|lia|].
  unfold Go.math_Ceil.
  replace (0 <=? e2) with false by (symmetry; apply Z.leb_gt; lia).
  cbn [cond_Zopp].
  (* the quotient in units of U = 2 ^ (kd - kp + 53) *)
  set (U' := 2 ^ (kd - kp + 52)).
  assert (HU'pos : 0 < U') by (apply Z.pow_pos_nonneg; lia).
  assert (HU : 2 ^ (kd - kp + 53) = 2 * U').
  { unfold U'. replace (kd - kp + 53) with (Z.succ (kd - kp + 52)) by lia.
    rewrite Z.pow_succ_r by lia. reflexivity. }
  destruct (scaled_quotient (Z.pos d) (Z.pos p) (2 ^ kp) (2 * U') (2 ^ 53) (2 ^ kd) q r)
    as (t & Hdu & Ht & Hrt & H2p).
  { lia. } { apply Z.pow_pos_nonneg; lia. }
  { change 2 with (2 ^ 1) at 1. apply Z.pow_le_mono_r; lia. }
  { lia. }
  { rewrite <- HU, <- !Z.pow_add_r by lia. f_equal. lia. }
  { lia. } { lia. } { lia. }
  assert (Hbr : (c - 1) * (2 * U') < Y * 2 ^ k <= c * (2 * U')).
  { apply (rounded_quotient_bracket (Z.pos d) (Z.pos p) U' q t Y c (2 ^ k)); try done.
    - assert (k = 0 \/ k = 1) as [-> | ->] by lia; [left|right]; reflexivity.
    - intros Ht0 Hmod. apply Hex; [|done].
      assert (r = 0) as -> by lia. apply new_location_zero. }
  (* back to the exponent of the rounded result *)
  set (w := 2 ^ (- e2)).
  set (v := 2 ^ (e2 - (kp - kd - 53))) in *.
  assert (Hw : 0 < w) by (apply Z.pow_pos_nonneg; lia).
  assert (Hv : 0 < v) by (apply Z.pow_pos_nonneg; lia).
  assert (Hwv : 2 * U' = w * v).
  { rewrite <- HU. unfold w, v. rewrite <- Z.pow_add_r by lia. f_equal. lia. }
  rewrite <- Hm, Hwv in Hbr.
  assert (Hmw : (c - 1) * w < Z.pos m <= c * w).
  { destruct Hbr as [Hb1 Hb2]. split.
    - apply (Z.mul_lt_mono_pos_r v); [done|]. lia.
    - apply (Z.mul_le_mono_pos_r _ _ v); [done|]. lia. }
  assert (Hceil : Go.ceil_shift (Z.pos m) (- e2) = c).
  { unfold Go.ceil_shift. fold w.
    assert (- Z.pos m / w = - c); [|lia].
    symmetry. apply (Z.div_unique_pos _ _ _ (c * w - Z.pos m)); lia. }
  rewrite Hceil.
  apply int32_of_float64_of_int. lia.
Qed.

(** ** The failure threshold *)

Lemma ceiling_quotient (d p : Z) :
  0 < p -> ((d + p - 1) / p - 1) * p < d <= (d + p - 1) / p * p.
Proof.
  intros Hp.
  pose proof (Z.div_mod (d + p - 1) p ltac:(lia)) as E.
  pose proof (Z.mod_pos_bound (d + p - 1) p Hp) as B.
  lia.
Qed.

Lemma getFailureThreshold_small (d p : Z) : d <= p -> getFailureThreshold d p = 1.
Proof.
  intros Hle. unfold getFailureThreshold.
  destruct (Z.leb_spec d p); [reflexivity | lia].
Qed.

Lemma getFailureThreshold_ceiling (d p : Z) :
  0 < p -> p < d -> d <= Go.MaxInt32 -> getFailureThreshold d p = (d + p - 1) / p.
Proof.
  intros Hp Hpd Hd. unfold getFailureThreshold.
  destruct (Z.leb_spec d p); [lia|].
  apply float64_ceil_div; try done.
  - unfold Go.MaxInt32 in Hd. lia.
  - by apply ceiling_quotient.
Qed.

(** C3. For a startup delay [d] and a probe period [p], both positive [int32]
    values, the threshold is 1 when [d <= p] and otherwise the smallest integer
    that is at least [d / p]; so the threshold times the period covers the
    delay and the threshold is at least 1; 30/10 gives 3, 20/10 gives 2, 5/10
    gives 1, 10/10 gives 1 and 31/10 gives 4. [createPostgresContainers] sets
    the threshold of the startup probe only when, after the custom probe
    configuration has been applied, it is still zero, and that of the liveness
    probe only when the cluster has a liveness probe timeout and the threshold
    is still zero. *)
Theorem failure_threshold_resolution
        `{Externals} (d p : Z)
        (cluster : apiv1.Cluster.t) (envConfig : EnvConfig.t) (enableHTTPS : bool) :
  0 < d <= Go.MaxInt32 -> 0 < p <= Go.MaxInt32 ->
  let t := getFailureThreshold d p in
  let merged := postgresContainerWithProbes cluster envConfig enableHTTPS in
  (d <= p -> t = 1) /\
  (p < d -> t = (d + p - 1) / p /\ (t - 1) * p < d <= t * p) /\
  d <= t * p /\ 1 <= t /\
  getFailureThreshold 30 10 = 3 /\ getFailureThreshold 20 10 = 2 /\
  getFailureThreshold 5 10 = 1 /\ getFailureThreshold 10 10 = 1 /\
  getFailureThreshold 31 10 = 4 /\
  exists container,
    createPostgresContainers cluster envConfig enableHTTPS = [container] /\
    (forall probe, corev1.Container.StartupProbe merged = Some probe ->
       (corev1.Probe.FailureThreshold probe <> 0 ->
        corev1.Container.StartupProbe container = Some probe) /\
       (corev1.Probe.FailureThreshold probe = 0 ->
        corev1.Container.StartupProbe container =
        Some (corev1.Probe.set_FailureThreshold probe
                (getFailureThreshold (GetMaxStartDelay cluster)
                                     (corev1.Probe.PeriodSeconds probe))))) /\
    (forall probe, corev1.Container.LivenessProbe merged = Some probe ->
       (apiv1.ClusterSpec.LivenessProbeTimeout (apiv1.Cluster.Spec cluster) = None \/
        corev1.Probe.FailureThreshold probe <> 0 ->
        corev1.Container.LivenessProbe container = Some probe) /\
       (forall timeout,
          apiv1.ClusterSpec.LivenessProbeTimeout (apiv1.Cluster.Spec cluster) = Some timeout ->
          corev1.Probe.FailureThreshold probe = 0 ->
          corev1.Container.LivenessProbe container =
          Some (corev1.Probe.set_FailureThreshold probe
                  (getFailureThreshold timeout (corev1.Probe.PeriodSeconds probe))))).
Proof.
  intros Hd Hp t merged.
  assert (Hsmall : d <= p -> t = 1) by apply getFailureThreshold_small.
  assert (Hlarge : p < d -> t = (d + p - 1) / p /\ (t - 1) * p < d <= t * p).
  { intros Hpd. assert (Ht : t = (d + p - 1) / p) by (apply getFailureThreshold_ceiling; lia).
    split; [done|]. rewrite Ht. apply ceiling_quotient. lia. }
  split; [done|]. split; [done|].
  split; [destruct (Z.le_gt_cases d p) as [Hle|Hgt];
          [rewrite (Hsmall Hle); lia | destruct (Hlarge Hgt); lia]|].
  split.
  { destruct (Z.le_gt_cases d p) as [Hle|Hgt]; [rewrite (Hsmall Hle); lia|].
    destruct (Hlarge Hgt) as [_ [Hl Hu]].
    destruct (Z.le_gt_cases 1 t); [done|].
    assert (t * p <= 0 * p) by (apply Z.mul_le_mono_nonneg_r; lia). lia. }
  do 5 (split; [vm_compute; reflexivity|]).
  eexists. split; [reflexivity|]. fold merged. cbn [corev1.Container.StartupProbe
    corev1.Container.LivenessProbe corev1.Container.set_StartupProbe
    corev1.Container.set_LivenessProbe].
  split.
  - intros probe ->. cbn. unfold ensureStartupThreshold. split.
    + intros Hne. destruct (Z.eqb_spec (corev1.Probe.FailureThreshold probe) 0); done.
    + intros ->. reflexivity.
  - intros probe ->. cbn. unfold ensureLivenessThreshold. split.
    + intros [-> | Hne]; [done|].
      destruct (apiv1.ClusterSpec.LivenessProbeTimeout _); [|done].
      destruct (Z.eqb_spec (corev1.Probe.FailureThreshold probe) 0); done.
    + intros timeout -> ->. reflexivity.
Qed.

Lemma failure_threshold_resolution_witness :
  0 < 31 <= Go.MaxInt32 /\ 0 < 10 <= Go.MaxInt32 /\
  getFailureThreshold 31 10 = (31 + 10 - 1) / 10 /\ 31 <= getFailureThreshold 31 10 * 10.
Proof.
  assert (H1 : 0 < 31 <= Go.MaxInt32) by (unfold Go.MaxInt32; lia).
  assert (H2 : 0 < 10 <= Go.MaxInt32) by (unfold Go.MaxInt32; lia).
  split; [exact H1|]. split; [exact H2|].
  destruct (@failure_threshold_resolution Sample.ext 31 10 Sample.cluster
              (EnvConfig.mk [] [] "") true H1 H2)
    as (_ & Hlarge & Hcover & _).
  split; [apply Hlarge; lia | exact Hcover].
Defined.

(** ** Affinity *)

Lemma length_zero_empty (s : string) : Nat.eqb (String.length s) 0 = true <-> s = "".
Proof. destruct s; cbn; split; intros; done. Qed.

Lemma generated_when_required `{Externals} (clusterName : string)
      (config : apiv1.AffinityConfiguration.t) :
  apiv1.AffinityConfiguration.EnablePodAntiAffinity config <> Some false ->
  apiv1.AffinityConfiguration.PodAntiAffinityType config = "required" ->
  CreateGeneratedAntiAffinity clusterName config =
  Some (corev1.Affinity.mk None None
          (Some (corev1.PodAntiAffinity.mk
                   [generatedPodAffinityTerm clusterName
                      (if decide (apiv1.AffinityConfiguration.TopologyKey config = "")
                       then "kubernetes.io/hostname"
                       else apiv1.AffinityConfiguration.TopologyKey config)] []))).
Proof.
  intros Hen Hmode. unfold CreateGeneratedAntiAffinity. rewrite Hmode.
  assert (Hkey : (if Nat.eqb (String.length (apiv1.AffinityConfiguration.TopologyKey config)) 0
                  then "kubernetes.io/hostname"
                  else apiv1.AffinityConfiguration.TopologyKey config) =
                 (if decide (apiv1.AffinityConfiguration.TopologyKey config = "")
                  then "kubernetes.io/hostname"
                  else apiv1.AffinityConfiguration.TopologyKey config)).
  { destruct (apiv1.AffinityConfiguration.TopologyKey config); reflexivity. }
  rewrite Hkey.
  destruct (apiv1.AffinityConfiguration.EnablePodAntiAffinity config) as [[]|]; done.
Qed.

Lemma generated_when_preferred `{Externals} (clusterName : string)
      (config : apiv1.AffinityConfiguration.t) :
  apiv1.AffinityConfiguration.EnablePodAntiAffinity config <> Some false ->
  apiv1.AffinityConfiguration.PodAntiAffinityType config = "preferred" ->
  CreateGeneratedAntiAffinity clusterName config =
  Some (corev1.Affinity.mk None None
          (Some (corev1.PodAntiAffinity.mk []
                   [corev1.WeightedPodAffinityTerm.mk 100
                      (generatedPodAffinityTerm clusterName
                         (if decide (apiv1.AffinityConfiguration.TopologyKey config = "")
                          then "kubernetes.io/hostname"
                          else apiv1.AffinityConfiguration.TopologyKey config))]))).
Proof.
  intros Hen Hmode. unfold CreateGeneratedAntiAffinity. rewrite Hmode.
  assert (Hkey : (if Nat.eqb (String.length (apiv1.AffinityConfiguration.TopologyKey config)) 0
                  then "kubernetes.io/hostname"
                  else apiv1.AffinityConfiguration.TopologyKey config) =
                 (if decide (apiv1.AffinityConfiguration.TopologyKey config = "")
                  then "kubernetes.io/hostname"
                  else apiv1.AffinityConfiguration.TopologyKey config)).
  { destruct (apiv1.AffinityConfiguration.TopologyKey config); reflexivity. }
  rewrite Hkey.
  destruct (apiv1.AffinityConfiguration.EnablePodAntiAffinity config) as [[]|]; done.
Qed.

Lemma generated_none_when_disabled `{Externals} (clusterName : string)
      (config : apiv1.AffinityConfiguration.t) :
  apiv1.AffinityConfiguration.EnablePodAntiAffinity config = Some false ->
  CreateGeneratedAntiAffinity clusterName config = None.
Proof. intros Hen. unfold CreateGeneratedAntiAffinity. by rewrite Hen. Qed.

Lemma generated_none_when_other_mode `{Externals} (clusterName : string)
      (config : apiv1.AffinityConfiguration.t) :
  apiv1.AffinityConfiguration.PodAntiAffinityType config <> "required" ->
  apiv1.AffinityConfiguration.PodAntiAffinityType config <> "preferred" ->
  CreateGeneratedAntiAffinity clusterName config = None.
Proof.
  intros Hr Hp. unfold CreateGeneratedAntiAffinity.
  apply String.eqb_neq in Hr, Hp.
  unfold apiv1.PodAntiAffinityTypeRequired, apiv1.PodAntiAffinityTypePreferred.
  rewrite Hr, Hp.
  by destruct (apiv1.AffinityConfiguration.EnablePodAntiAffinity config) as [[]|].
Qed.

Lemma section_without_extensions `{Externals} (clusterName : string)
      (config : apiv1.AffinityConfiguration.t) :
  noAffinityExtensions config ->
  CreateAffinitySection clusterName config = CreateGeneratedAntiAffinity clusterName config.
Proof. intros (Ha & Hb & Hc). unfold CreateAffinitySection. by rewrite Ha, Hb, Hc. Qed.

(** C4 (as the code has it). A generated anti-affinity constraint exists
    exactly when pod anti-affinity is not explicitly disabled and the mode is
    explicitly "required" or "preferred". When no mode is specified (or any
    other text) none is generated, and without extensions the pod
    specification then carries no affinity: the mode does not default to
    required. *)
Theorem generated_anti_affinity_needs_mode
        `{Externals} (podName : string) (cluster : apiv1.Cluster.t)
        (envConfig : EnvConfig.t) (gracePeriod : Z) (enableHTTPS : bool) :
  let config := apiv1.ClusterSpec.Affinity (apiv1.Cluster.Spec cluster) in
  let mode := apiv1.AffinityConfiguration.PodAntiAffinityType config in
  let generated := CreateGeneratedAntiAffinity (apiv1.Cluster.Name cluster) config in
  (is_Some generated <->
   apiv1.AffinityConfiguration.EnablePodAntiAffinity config <> Some false /\
   (mode = "required" \/ mode = "preferred")) /\
  (mode <> "required" -> mode <> "preferred" ->
   generated = None /\
   (noAffinityExtensions config ->
    corev1.PodSpec.Affinity
      (createClusterPodSpec podName cluster envConfig gracePeriod enableHTTPS) = None)).
Proof.
  intros config mode generated. split.
  - split.
    + intros Hsome. 
      destruct (decide (apiv1.AffinityConfiguration.EnablePodAntiAffinity config = Some false))
        as [Hdis | Hen].
      { unfold generated in Hsome. rewrite generated_none_when_disabled in Hsome by done.
        by destruct Hsome. }
      split; [done|].
      destruct (decide (mode = "required")) as [|Hr]; [by left|].
      destruct (decide (mode = "preferred")) as [|Hp]; [by right|].
      unfold generated in Hsome. rewrite generated_none_when_other_mode in Hsome by done.
      by destruct Hsome.
    + intros [Hen [Hmode | Hmode]]; unfold generated.
      * rewrite generated_when_required by done. by eexists.
      * rewrite generated_when_preferred by done. by eexists.
  - intros Hr Hp.
    assert (Hnone : generated = None) by (by apply generated_none_when_other_mode).
    split; [done|]. intros Hext.
    cbn [createClusterPodSpec corev1.PodSpec.Affinity].
    rewrite section_without_extensions by done. exact Hnone.
Qed.

Lemma generated_anti_affinity_needs_mode_witness :
  "" <> "required" /\ "" <> "preferred" /\
  noAffinityExtensions Sample.affinity /\
  corev1.PodSpec.Affinity
    (@createClusterPodSpec Sample.ext "cluster-example-1" Sample.cluster
       (EnvConfig.mk [] [] "") 1800 true) = None.
Proof.
  assert (H1 : "" <> "required") by discriminate.
  assert (H2 : "" <> "preferred") by discriminate.
  assert (H3 : noAffinityExtensions Sample.affinity) by (repeat split).
  split; [exact H1|]. split; [exact H2|]. split; [exact H3|].
  destruct (@generated_anti_affinity_needs_mode Sample.ext "cluster-example-1"
              Sample.cluster (EnvConfig.mk [] [] "") 1800 true) as [_ Hmode].
  destruct (Hmode H1 H2) as [_ Hspec]. exact (Hspec H3).
Defined.

(** C4 as it is stated does not hold: pod anti-affinity is not disabled, no
    mode is specified, and the instance that is built carries no affinity. *)
Lemma no_mode_no_anti_affinity_counterexample :
  apiv1.AffinityConfiguration.EnablePodAntiAffinity
    (apiv1.ClusterSpec.Affinity (apiv1.Cluster.Spec Sample.cluster)) = None /\
  apiv1.AffinityConfiguration.PodAntiAffinityType
    (apiv1.ClusterSpec.Affinity (apiv1.Cluster.Spec Sample.cluster)) = "" /\
  @CreateGeneratedAntiAffinity Sample.ext "cluster-example"
    (apiv1.ClusterSpec.Affinity (apiv1.Cluster.Spec Sample.cluster)) = None /\
  exists pod,
    @buildInstance Sample.ext Sample.cluster 1 true = Go.Ok pod /\
    corev1.PodSpec.Affinity (corev1.Pod.Spec pod) = None.
Proof.
  split; [reflexivity|]. split; [reflexivity|]. split; [reflexivity|].
  eexists. split; reflexivity.
Qed.

(** C5. With anti-affinity not disabled: in mode "required" the generated
    affinity is exactly one required anti-affinity term, which selects the
    pods with the label of the cluster name and the label of the instance
    role, on the topology key "kubernetes.io/hostname" or on the declared one
    when there is one; in mode "preferred" it is exactly one preferred term of
    weight 100 with the same selector. With anti-affinity explicitly disabled
    and no extension, [CreateAffinitySection] returns no affinity at all. *)
Theorem generated_anti_affinity_terms
        `{Externals} (clusterName : string) (config : apiv1.AffinityConfiguration.t) :
  let topologyKey :=
    if decide (apiv1.AffinityConfiguration.TopologyKey config = "")
    then "kubernetes.io/hostname"
    else apiv1.AffinityConfiguration.TopologyKey config in
  let term := generatedPodAffinityTerm clusterName topologyKey in
  (apiv1.AffinityConfiguration.EnablePodAntiAffinity config <> Some false ->
   apiv1.AffinityConfiguration.PodAntiAffinityType config = "required" ->
   CreateGeneratedAntiAffinity clusterName config =
   Some (corev1.Affinity.mk None None (Some (corev1.PodAntiAffinity.mk [term] [])))) /\
  (apiv1.AffinityConfiguration.EnablePodAntiAffinity config <> Some false ->
   apiv1.AffinityConfiguration.PodAntiAffinityType config = "preferred" ->
   CreateGeneratedAntiAffinity clusterName config =
   Some (corev1.Affinity.mk None None
           (Some (corev1.PodAntiAffinity.mk []
                    [corev1.WeightedPodAffinityTerm.mk 100 term])))) /\
  (apiv1.AffinityConfiguration.EnablePodAntiAffinity config = Some false ->
   noAffinityExtensions config ->
   CreateAffinitySection clusterName config = None).
Proof.
  intros topologyKey term. split; [|split].
  - apply generated_when_required.
  - apply generated_when_preferred.
  - intros Hdis Hext. rewrite section_without_extensions by done.
    by apply generated_none_when_disabled.
Qed.

Lemma generated_anti_affinity_terms_witness :
  Some true <> Some false /\
  @CreateGeneratedAntiAffinity Sample.ext "cluster-example"
    (Sample.affinityOf (Some true) "required") =
  Some (corev1.Affinity.mk None None
          (Some (corev1.PodAntiAffinity.mk
                   [@generatedPodAffinityTerm Sample.ext "cluster-example"
                      "kubernetes.io/hostname"] []))) /\
  @CreateGeneratedAntiAffinity Sample.ext "cluster-example"
    (Sample.affinityOf None "preferred") =
  Some (corev1.Affinity.mk None None
          (Some (corev1.PodAntiAffinity.mk []
                   [corev1.WeightedPodAffinityTerm.mk 100
                      (@generatedPodAffinityTerm Sample.ext "cluster-example"
                         "kubernetes.io/hostname")]))) /\
  @CreateAffinitySection Sample.ext "cluster-example"
    (Sample.affinityOf (Some false) "required") = None.
Proof.
  assert (H1 : Some true <> Some false) by discriminate.
  split; [exact H1|]. split; [|split].
  - apply (@generated_anti_affinity_terms Sample.ext "cluster-example"
             (Sample.affinityOf (Some true) "required")); [exact H1 | reflexivity].
  - apply (@generated_anti_affinity_terms Sample.ext "cluster-example"
             (Sample.affinityOf None "preferred")); [discriminate | reflexivity].
  - apply (@generated_anti_affinity_terms Sample.ext "cluster-example"
             (Sample.affinityOf (Some false) "required")); [reflexivity | repeat split].
Defined.

(** C6. Of the extensions that the user declares, the additional pod affinity
    becomes the pod affinity, the node affinity becomes the node affinity, and
    the required and preferred terms of the additional pod anti-affinity are
    appended after the generated ones. *)
Theorem affinity_extensions
        `{Externals} (clusterName : string) (config : apiv1.AffinityConfiguration.t) :
  let generated := CreateGeneratedAntiAffinity clusterName config in
  (forall podAffinity,
     apiv1.AffinityConfiguration.AdditionalPodAffinity config = Some podAffinity ->
     exists affinity,
       CreateAffinitySection clusterName config = Some affinity /\
       corev1.Affinity.PodAffinity affinity = Some podAffinity) /\
  (forall extra,
     apiv1.AffinityConfiguration.AdditionalPodAntiAffinity config = Some extra ->
     exists affinity anti,
       CreateAffinitySection clusterName config = Some affinity /\
       corev1.Affinity.PodAntiAffinity affinity = Some anti /\
       corev1.PodAntiAffinity.RequiredDuringSchedulingIgnoredDuringExecution anti =
       requiredAntiAffinityTerms generated ++
       corev1.PodAntiAffinity.RequiredDuringSchedulingIgnoredDuringExecution extra /\
       corev1.PodAntiAffinity.PreferredDuringSchedulingIgnoredDuringExecution anti =
       preferredAntiAffinityTerms generated ++
       corev1.PodAntiAffinity.PreferredDuringSchedulingIgnoredDuringExecution extra) /\
  (forall nodeAffinity,
     apiv1.AffinityConfiguration.NodeAffinity config = Some nodeAffinity ->
     exists affinity,
       CreateAffinitySection clusterName config = Some affinity /\
       corev1.Affinity.NodeAffinity affinity = Some nodeAffinity).
Proof.
  intros generated. unfold CreateAffinitySection. fold generated.
  split; [|split].
  - intros podAffinity ->.
    destruct (apiv1.AffinityConfiguration.AdditionalPodAntiAffinity config),
             (apiv1.AffinityConfiguration.NodeAffinity config);
      eexists; (split; [reflexivity|]); reflexivity.
  - intros extra ->.
    unfold requiredAntiAffinityTerms, preferredAntiAffinityTerms.
    destruct (apiv1.AffinityConfiguration.AdditionalPodAffinity config),
             (apiv1.AffinityConfiguration.NodeAffinity config),
             generated as [[? ? [anti|]]|];
      eexists _, _; (split; [reflexivity|]); cbn; done.
  - intros nodeAffinity ->.
    destruct (apiv1.AffinityConfiguration.AdditionalPodAffinity config),
             (apiv1.AffinityConfiguration.AdditionalPodAntiAffinity config);
      eexists; (split; [reflexivity|]); reflexivity.
Qed.

Lemma affinity_extensions_witness :
  exists affinity anti,
    @CreateAffinitySection Sample.ext "cluster-example" SampleAffinity.extended = Some affinity /\
    corev1.Affinity.PodAffinity affinity = Some SampleAffinity.podAffinity /\
    corev1.Affinity.NodeAffinity affinity = Some SampleAffinity.nodeAffinity /\
    corev1.Affinity.PodAntiAffinity affinity = Some anti /\
    corev1.PodAntiAffinity.RequiredDuringSchedulingIgnoredDuringExecution anti =
    [ @generatedPodAffinityTerm Sample.ext "cluster-example" "kubernetes.io/hostname";
      SampleAffinity.term "rack" ].
Proof.
  destruct (@affinity_extensions Sample.ext "cluster-example" SampleAffinity.extended)
    as (Hpod & Hanti & Hnode).
  destruct (Hpod SampleAffinity.podAffinity eq_refl) as (a1 & E1 & P1).
  destruct (Hanti SampleAffinity.podAntiAffinity eq_refl) as (a2 & anti & E2 & A2 & R2 & _).
  destruct (Hnode SampleAffinity.nodeAffinity eq_refl) as (a3 & E3 & N3).
  assert (a2 = a1) as -> by congruence.
  assert (a3 = a1) as -> by congruence.
  exists a1, anti. repeat split; assumption.
Defined.

(** ** The environment *)

(** C7. The variables of the [EnvConfig] are the eight fixed entries (data
    directory, instance name, namespace, cluster name, history file, port,
    socket directory, temporary directory) in this order, then the entries
    that the cluster declares, in their order, then at most one operational
    entry, which is there exactly when the standby TCP user timeout of the
    configuration is not zero; the environment sources are those of the
    cluster. The function has a value for every cluster and instance name. *)
Theorem pod_env_config_order
        `{Externals} (cluster : apiv1.Cluster.t) (podName : string) :
  let config := CreatePodEnvConfig cluster podName in
  EnvConfig.EnvVars config =
    baselineEnvVars cluster podName ++
    apiv1.ClusterSpec.Env (apiv1.Cluster.Spec cluster) ++
    operationalEnvVars /\
  corev1.EnvVar.Name <$> baselineEnvVars cluster podName =
    ["PGDATA"; "POD_NAME"; "NAMESPACE"; "CLUSTER_NAME"; "PSQL_HISTORY";
     "PGPORT"; "PGHOST"; "TMPDIR"] /\
  (List.length operationalEnvVars <= 1)%nat /\
  (operationalEnvVars <> [] <-> StandbyTCPUserTimeout <> 0) /\
  EnvConfig.EnvFrom config = apiv1.ClusterSpec.EnvFrom (apiv1.Cluster.Spec cluster).
Proof.
  intros config. unfold config, CreatePodEnvConfig, operationalEnvVars.
  cbn [EnvConfig.EnvVars EnvConfig.EnvFrom].
  destruct (Z.eqb_spec StandbyTCPUserTimeout 0) as [Hz | Hnz]; cbn [negb].
  - destruct (decide (StandbyTCPUserTimeout = 0)); [|done].
    rewrite app_nil_r. repeat split; cbn; (lia || done).
  - destruct (decide (StandbyTCPUserTimeout = 0)); [done|].
    rewrite <- app_assoc. repeat split; cbn; (lia || done).
Qed.

Lemma pod_env_config_order_witness :
  corev1.EnvVar.Name <$>
    EnvConfig.EnvVars (@CreatePodEnvConfig Sample.ext Sample.cluster "cluster-example-1") =
  ["PGDATA"; "POD_NAME"; "NAMESPACE"; "CLUSTER_NAME"; "PSQL_HISTORY";
   "PGPORT"; "PGHOST"; "TMPDIR"].
Proof.
  destruct (@pod_env_config_order Sample.ext Sample.cluster "cluster-example-1")
    as (Hvars & Hnames & _).
  rewrite Hvars, fmap_app, Hnames. reflexivity.
Defined.

Lemma EqualFunc_DeepEqual {A : Type} `{EqDecision A} (s1 s2 : list A) :
  Go.EqualFunc s1 s2 (fun e1 e2 => Go.DeepEqual e1 e2) = true <-> s1 = s2.
Proof.
  unfold Go.EqualFunc. split.
  - destruct (Nat.eqb_spec (List.length s1) (List.length s2)) as [Hlen|]; [|done].
    cbn [negb]. revert s2 Hlen.
    induction s1 as [|v1 s1 IH]; intros [|v2 s2] Hlen; try done.
    cbn. unfold Go.DeepEqual. case_bool_decide; [|done].
    intros Hloop. f_equal; [done|]. apply IH; [|done]. by injection Hlen.
  - intros <-. rewrite Nat.eqb_refl. cbn [negb].
    induction s1 as [|v1 s1 IH]; [done|].
    cbn. unfold Go.DeepEqual. by rewrite bool_decide_eq_true_2.
Qed.

Lemma IsEnvEqual_spec (c : EnvConfig.t) (container : corev1.Container.t) :
  IsEnvEqual c container = true <->
  corev1.Container.EnvFrom container = EnvConfig.EnvFrom c /\
  corev1.Container.Env container = EnvConfig.EnvVars c.
Proof.
  unfold IsEnvEqual.
  destruct (Go.EqualFunc (corev1.Container.EnvFrom container) _ _) eqn:Hfrom; cbn [negb].
  - apply EqualFunc_DeepEqual in Hfrom. rewrite EqualFunc_DeepEqual. by split; [|intros []].
  - split; [done|]. intros [Hf _]. apply EqualFunc_DeepEqual in Hf. congruence.
Qed.

(** C8. [IsEnvEqual] is true exactly when the environment sources and the
    environment variables of the container are, element by element and in
    order, those of the [EnvConfig]; two lists with the same entries in a
    different order are reported unequal. *)
Theorem env_equality_is_ordered (c : EnvConfig.t) (container : corev1.Container.t) :
  (IsEnvEqual c container = true <->
   corev1.Container.EnvFrom container = EnvConfig.EnvFrom c /\
   corev1.Container.Env container = EnvConfig.EnvVars c) /\
  (corev1.Container.Env container ≡ₚ EnvConfig.EnvVars c ->
   corev1.Container.Env container <> EnvConfig.EnvVars c ->
   IsEnvEqual c container = false) /\
  (corev1.Container.EnvFrom container ≡ₚ EnvConfig.EnvFrom c ->
   corev1.Container.EnvFrom container <> EnvConfig.EnvFrom c ->
   IsEnvEqual c container = false).
Proof.
  split; [apply IsEnvEqual_spec|].
  split; intros _ Hne; apply not_true_is_false; rewrite IsEnvEqual_spec; intros []; done.
Qed.

Lemma env_equality_is_ordered_witness :
  [SampleAffinity.second; SampleAffinity.first] ≡ₚ [SampleAffinity.first; SampleAffinity.second] /\
  [SampleAffinity.second; SampleAffinity.first] <> [SampleAffinity.first; SampleAffinity.second] /\
  IsEnvEqual (EnvConfig.mk [SampleAffinity.first; SampleAffinity.second] [] "")
    (SampleAffinity.containerWithEnv [SampleAffinity.second; SampleAffinity.first]) = false.
Proof.
  assert (H1 : [SampleAffinity.second; SampleAffinity.first] ≡ₚ
               [SampleAffinity.first; SampleAffinity.second]) by apply Permutation_swap.
  assert (H2 : [SampleAffinity.second; SampleAffinity.first] <>
               [SampleAffinity.first; SampleAffinity.second]) by discriminate.
  split; [exact H1|]. split; [exact H2|].
  destruct (env_equality_is_ordered
              (EnvConfig.mk [SampleAffinity.first; SampleAffinity.second] [] "")
              (SampleAffinity.containerWithEnv [SampleAffinity.second; SampleAffinity.first]))
    as (_ & Hvars & _).
  exact (Hvars H1 H2).
Defined.

(** ** Building the instance *)

Lemma buildInstance_unpatched `{Externals}
      (cluster : apiv1.Cluster.t) (nodeSerial : Z) (tlsEnabled : bool) :
  default "" (apiv1.Cluster.Annotations cluster !! PodPatchAnnotationName) = "" ->
  buildInstance cluster nodeSerial tlsEnabled =
  Go.Ok (buildInstance_base cluster nodeSerial tlsEnabled).
Proof. intros Hp. unfold buildInstance. by rewrite Hp. Qed.

Lemma buildInstance_patched `{Externals}
      (cluster : apiv1.Cluster.t) (nodeSerial : Z) (tlsEnabled : bool) :
  default "" (apiv1.Cluster.Annotations cluster !! PodPatchAnnotationName) <> "" ->
  buildInstance cluster nodeSerial tlsEnabled =
  applyPodPatch (default "" (apiv1.Cluster.Annotations cluster !! PodPatchAnnotationName))
                (buildInstance_base cluster nodeSerial tlsEnabled).
Proof.
  intros Hp. unfold buildInstance. apply String.eqb_neq in Hp. by rewrite Hp.
Qed.

Lemma NewInstance_build_error `{Externals}
      (ctx : Context.t) (st : Store)
      (cluster : apiv1.Cluster.t) (nodeSerial : Z) (tlsEnabled : bool) (err : Go.error) :
  buildInstance cluster nodeSerial tlsEnabled = Go.Err err ->
  NewInstance ctx st cluster nodeSerial tlsEnabled =
  Returned (mkNewInstanceResult None (Some err) st []).
Proof. intros Hb. unfold NewInstance. by rewrite Hb. Qed.

(** C2. When the cluster carries a patch and decoding it, applying it or
    reading the patched document back fails, [NewInstance] returns the error
    of that stage and a nil pod, the store is as it was, and the lifecycle
    hook has not been called. *)
Theorem patch_failure_aborts
        `{Externals} (ctx : Context.t) (st : Store)
        (cluster : apiv1.Cluster.t) (nodeSerial : Z) (tlsEnabled : bool)
        (serialized : string) :
  let jsonPatch := default "" (apiv1.Cluster.Annotations cluster !! PodPatchAnnotationName) in
  let pod := buildInstance_base cluster nodeSerial tlsEnabled in
  let r := NewInstance ctx st cluster nodeSerial tlsEnabled in
  jsonPatch <> "" ->
  json_Marshal_Pod pod = Go.Ok serialized ->
  (forall err,
     jsonpatch_DecodePatch jsonPatch = Go.Err err ->
     r = Returned (mkNewInstanceResult None
           (Some (Go.Errorf_w "while decoding JSON patch from annotation" err)) st [])) /\
  (forall patch err,
     jsonpatch_DecodePatch jsonPatch = Go.Ok patch ->
     jsonpatch_Apply patch serialized = Go.Err err ->
     r = Returned (mkNewInstanceResult None
           (Some (Go.Errorf_w "while applying JSON patch from annotation" err)) st [])) /\
  (forall patch patched err,
     jsonpatch_DecodePatch jsonPatch = Go.Ok patch ->
     jsonpatch_Apply patch serialized = Go.Ok patched ->
     json_Unmarshal_Pod patched pod = Go.Err err ->
     r = Returned (mkNewInstanceResult None
           (Some (Go.Errorf_w "while deserializing pod to JSON" err)) st [])).
Proof.
  intros jsonPatch pod r Hpatch Hser.
  assert (Hb : buildInstance cluster nodeSerial tlsEnabled = applyPodPatch jsonPatch pod)
    by (by apply buildInstance_patched).
  unfold applyPodPatch in Hb. fold pod in Hb. rewrite Hser in Hb. cbn [Go.orWrap Go.bind] in Hb.
  split; [|split].
  - intros err Hdec. apply NewInstance_build_error. by rewrite Hb, Hdec.
  - intros patch err Hdec Happ. apply NewInstance_build_error.
    rewrite Hb, Hdec. cbn [Go.orWrap Go.bind]. by rewrite Happ.
  - intros patch patched err Hdec Happ Hun. apply NewInstance_build_error.
    rewrite Hb, Hdec. cbn [Go.orWrap Go.bind]. rewrite Happ. cbn [Go.orWrap Go.bind].
    by rewrite Hun.
Qed.

Lemma patch_failure_aborts_witness :
  "malformed" <> "" /\
  @NewInstance Sample.ext (Sample.withClient Sample.sidecarHook) Sample.store
    (Sample.patchedCluster "malformed") 1 true =
  Returned (mkNewInstanceResult None
              (Some (Go.wrapError
                       "while decoding JSON patch from annotation: invalid character"
                       (Go.errorString "invalid character")))
              Sample.store []).
Proof.
  assert (H1 : "malformed" <> "") by discriminate.
  split; [exact H1|].
  destruct (@patch_failure_aborts Sample.ext (Sample.withClient Sample.sidecarHook)
              Sample.store (Sample.patchedCluster "malformed") 1 true "postgres" H1 eq_refl)
    as (Hdec & _ & _).
  exact (Hdec (Go.errorString "invalid character") eq_refl).
Defined.

(** C10. Without a patch in the annotations of the cluster (no annotation, or
    an empty one) [buildInstance] returns a pod and no error, whatever the
    AppArmor helpers do; an error of [buildInstance] comes from one of the
    four steps of the patch. *)
Theorem build_fails_only_in_patch
        `{Externals} (cluster : apiv1.Cluster.t) (nodeSerial : Z) (tlsEnabled : bool) :
  let jsonPatch := default "" (apiv1.Cluster.Annotations cluster !! PodPatchAnnotationName) in
  (jsonPatch = "" ->
   buildInstance cluster nodeSerial tlsEnabled =
   Go.Ok (buildInstance_base cluster nodeSerial tlsEnabled)) /\
  (forall err,
     buildInstance cluster nodeSerial tlsEnabled = Go.Err err ->
     jsonPatch <> "" /\
     exists cause,
       err = Go.Errorf_w "while serializing pod to JSON" cause \/
       err = Go.Errorf_w "while decoding JSON patch from annotation" cause \/
       err = Go.Errorf_w "while applying JSON patch from annotation" cause \/
       err = Go.Errorf_w "while deserializing pod to JSON" cause).
Proof.
  intros jsonPatch. split; [apply buildInstance_unpatched|].
  intros err Hb.
  destruct (decide (jsonPatch = "")) as [He | Hne].
  { rewrite buildInstance_unpatched in Hb by done. discriminate. }
  split; [done|].
  rewrite buildInstance_patched in Hb by done. unfold applyPodPatch in Hb.
  destruct (json_Marshal_Pod _) as [doc | e1]; cbn [Go.orWrap Go.bind] in Hb;
    [|injection Hb as <-; eauto].
  destruct (jsonpatch_DecodePatch _) as [patch | e2]; cbn [Go.orWrap Go.bind] in Hb;
    [|injection Hb as <-; eauto].
  destruct (jsonpatch_Apply _ _) as [patched | e3]; cbn [Go.orWrap Go.bind] in Hb;
    [|injection Hb as <-; eauto].
  destruct (json_Unmarshal_Pod _ _) as [pod' | e4]; cbn [Go.orWrap] in Hb;
    [discriminate | injection Hb as <-; eauto 6].
Qed.

Lemma build_fails_only_in_patch_witness :
  default "" (apiv1.Cluster.Annotations Sample.cluster !! "cnpg.io/podPatch") = "" /\
  @buildInstance Sample.ext Sample.cluster 1 true =
  Go.Ok (@buildInstance_base Sample.ext Sample.cluster 1 true).
Proof.
  assert (H1 : default "" (apiv1.Cluster.Annotations Sample.cluster !! "cnpg.io/podPatch") = "")
    by reflexivity.
  split; [exact H1|].
  apply (@build_fails_only_in_patch Sample.ext Sample.cluster 1 true). exact H1.
Defined.

(** ** The lifecycle hook and the annotation of the specification *)

Lemma mapStore_pods (st : Store) (ref : nat) (key value : string) :
  pods (mapStore st ref key value) = pods st.
Proof. reflexivity. Qed.

Lemma mapStore_lookup (st : Store) (ref : nat) (key value : string) :
  mapContent (mapStore st ref key value) ref !! key = Some value.
Proof.
  unfold mapContent, mapStore. cbn [maps].
  rewrite lookup_insert_eq. cbn. apply lookup_insert_eq.
Qed.

Lemma mapStore_lookup_ne (st : Store) (ref : nat) (key key' value : string) :
  key' <> key ->
  mapContent (mapStore st ref key value) ref !! key' = mapContent st ref !! key'.
Proof.
  intros Hne. unfold mapContent at 1, mapStore. cbn [maps].
  rewrite lookup_insert_eq. cbn. by apply lookup_insert_ne.
Qed.

Lemma mapStore_other (st : Store) (ref ref' : nat) (key value : string) :
  ref' <> ref -> maps (mapStore st ref key value) !! ref' = maps st !! ref'.
Proof. intros Hne. unfold mapStore. cbn [maps]. by apply lookup_insert_ne. Qed.

(** What [alloc] does: the pointer is the number of the pods, the pods are
    kept and the new one comes last, with a nil map when it had one and with
    a reference that the store did not have otherwise. *)
Lemma alloc_spec (st : Store) (pod : corev1.Pod.t MapValue) :
  (alloc st pod).1 = List.length (pods st) /\
  exists ref,
    pods (alloc st pod).2 = pods st ++ [corev1.Pod.set_Annotations pod ref] /\
    match metav1.ObjectMeta.Annotations (corev1.Pod.ObjectMeta pod) with
    | None => ref = None /\ maps (alloc st pod).2 = maps st
    | Some content =>
        exists r, ref = Some r /\ maps st !! r = None /\
                  maps (alloc st pod).2 = <[ r := content ]> (maps st)
    end.
Proof.
  unfold alloc, allocMap.
  destruct (metav1.ObjectMeta.Annotations (corev1.Pod.ObjectMeta pod)) as [content|].
  - split; [done|]. eexists. split; [done|]. eexists. split; [done|].
    split; [|done]. apply not_elem_of_dom, is_fresh.
  - split; [done|]. by eexists.
Qed.

Lemma alloc_lookup (st : Store) (pod : corev1.Pod.t MapValue) :
  exists ref,
    pods (alloc st pod).2 !! (alloc st pod).1 = Some (corev1.Pod.set_Annotations pod ref) /\
    mapValue (alloc st pod).2 ref = metav1.ObjectMeta.Annotations (corev1.Pod.ObjectMeta pod).
Proof.
  destruct (alloc_spec st pod) as (-> & ref & -> & Hmaps). exists ref. split.
  - rewrite lookup_app_r by lia. by rewrite Nat.sub_diag.
  - destruct (metav1.ObjectMeta.Annotations (corev1.Pod.ObjectMeta pod)) as [content|].
    + destruct Hmaps as (r & -> & _ & Hmaps). cbn. unfold mapContent.
      rewrite Hmaps, lookup_insert_eq. done.
    + by destruct Hmaps as (-> & _).
Qed.


(** The three ways in which the deferred function ends on a pod of the
    store. *)
Lemma deferred_unserializable `{Externals}
      (st : Store) (l : ptr) (p : corev1.Pod.t MapRef) (err : Go.error) :
  pods st !! l = Some p ->
  json_Marshal_PodSpec (corev1.Pod.Spec p) = Go.Err err ->
  NewInstance_deferred st (Some l) = Go.Done st.
Proof. intros Hl Hm. unfold NewInstance_deferred. by rewrite Hl, Hm. Qed.

Lemma deferred_writes `{Externals}
      (st : Store) (l : ptr) (p : corev1.Pod.t MapRef) (podSpecMarshaled : string)
      (ref : nat) :
  pods st !! l = Some p ->
  json_Marshal_PodSpec (corev1.Pod.Spec p) = Go.Ok podSpecMarshaled ->
  metav1.ObjectMeta.Annotations (corev1.Pod.ObjectMeta p) = Some ref ->
  NewInstance_deferred st (Some l) =
  Go.Done (mapStore st ref PodSpecAnnotationName podSpecMarshaled).
Proof. intros Hl Hm Ha. unfold NewInstance_deferred. by rewrite Hl, Hm, Ha. Qed.

Lemma deferred_panics `{Externals}
      (st : Store) (l : ptr) (p : corev1.Pod.t MapRef) (podSpecMarshaled : string) :
  pods st !! l = Some p ->
  json_Marshal_PodSpec (corev1.Pod.Spec p) = Go.Ok podSpecMarshaled ->
  metav1.ObjectMeta.Annotations (corev1.Pod.ObjectMeta p) = None ->
  NewInstance_deferred st (Some l) = Go.Panic "assignment to entry in nil map".
Proof. intros Hl Hm Ha. unfold NewInstance_deferred. by rewrite Hl, Hm, Ha. Qed.

(** When the deferred function returns, the pods are the same objects as
    before, and the store is either untouched or has one more entry in the
    map of the pod. *)
Lemma deferred_done `{Externals} (st st' : Store) (l : ptr) (p : corev1.Pod.t MapRef) :
  pods st !! l = Some p ->
  NewInstance_deferred st (Some l) = Go.Done st' ->
  match json_Marshal_PodSpec (corev1.Pod.Spec p) with
  | Go.Ok podSpecMarshaled =>
      exists ref,
        metav1.ObjectMeta.Annotations (corev1.Pod.ObjectMeta p) = Some ref /\
        st' = mapStore st ref PodSpecAnnotationName podSpecMarshaled
  | Go.Err _ => st' = st
  end.
Proof.
  intros Hl. unfold NewInstance_deferred. rewrite Hl.
  destruct (json_Marshal_PodSpec _) as [s|err]; [|congruence].
  destruct (metav1.ObjectMeta.Annotations _) as [ref|]; [|discriminate].
  intros E. injection E as <-. by exists ref.
Qed.

Lemma deferred_pods `{Externals} (st st' : Store) (pod : option ptr) :
  NewInstance_deferred st pod = Go.Done st' -> pods st' = pods st.
Proof.
  unfold NewInstance_deferred. destruct pod as [l|]; [|congruence].
  destruct (pods st !! l) as [p|]; [|congruence].
  destruct (json_Marshal_PodSpec _) as [s|err]; [|congruence].
  destruct (metav1.ObjectMeta.Annotations _) as [ref|]; [|discriminate].
  by intros E; injection E as <-.
Qed.

Lemma NewInstance_return_inv `{Externals}
      (pod retPod : option ptr) (retErr : option Go.error) (st : Store)
      (calls : list (OperationVerb * apiv1.Cluster.t * ptr)) (r : NewInstanceResult) :
  NewInstance_return pod retPod retErr st calls = Returned r ->
  ret_pod r = retPod /\ ret_err r = retErr /\ hookCalls r = calls /\
  NewInstance_deferred st pod = Go.Done (ret_store r).
Proof.
  unfold NewInstance_return. destruct (NewInstance_deferred st pod) as [st'|msg]; [|discriminate].
  by intros E; injection E as <-.
Qed.

(** The returns of [NewInstance] with a pod and no error. *)
Lemma NewInstance_success `{Externals}
      (ctx : Context.t) (st : Store)
      (cluster : apiv1.Cluster.t) (nodeSerial : Z) (tlsEnabled : bool)
      (r : NewInstanceResult) (l : ptr) :
  NewInstance ctx st cluster nodeSerial tlsEnabled = Returned r ->
  ret_err r = None -> ret_pod r = Some l ->
  exists built before,
    buildInstance cluster nodeSerial tlsEnabled = Go.Ok built /\
    NewInstance_deferred before (Some l) = Go.Done (ret_store r) /\
    ((GetPluginClientFromContext ctx = None /\ alloc st built = (l, before)) \/
     (exists client,
        GetPluginClientFromContext ctx = Some client /\
        PluginClient.LifecycleHook client (alloc st built).2 OperationVerbEvaluate cluster
          (alloc st built).1 = (Go.Ok (ObjPod (Some l)), before))).
Proof.
  unfold NewInstance.
  destruct (buildInstance cluster nodeSerial tlsEnabled) as [built | err].
  2: { intros E. injection E as <-. discriminate. }
  destruct (alloc st built) as [pod st1] eqn:Halloc. cbn [fst snd].
  destruct (GetPluginClientFromContext ctx) as [client|].
  - destruct (PluginClient.LifecycleHook client _ _ _ _) as [reply st'] eqn:Hhook.
    destruct reply as [[| pod' |]|];
      intros (Hpod & Herr & _ & Hdef)%NewInstance_return_inv Herr' Hpod'; try congruence.
    rewrite Hpod' in Hpod. subst pod'.
    exists built, st'. split; [done|]. split; [done|]. right. exists client.
    by rewrite Halloc.
  - intros (Hpod & Herr & _ & Hdef)%NewInstance_return_inv _ Hpod'.
    rewrite Hpod' in Hpod. injection Hpod as ->.
    exists built, st1. split; [done|]. split; [done|]. by left.
Qed.

(** C1 (as the code has it). When [NewInstance] returns a pod and no error,
    and the specification of that pod can be serialized, the map of the
    annotations of the pod is allocated and has under [PodSpecAnnotationName]
    exactly the serialization of the specification of the pod. The pod is
    the one of [buildInstance] when there is no client, and the one that the
    lifecycle hook has returned when there is one, the replaced one included,
    as it is in the store that the hook has left. When the serialization
    fails the call succeeds all the same and nothing is written: the store is
    as it was before the deferred function. *)
Theorem self_annotation
        `{Externals} (ctx : Context.t) (st : Store)
        (cluster : apiv1.Cluster.t) (nodeSerial : Z) (tlsEnabled : bool)
        (r : NewInstanceResult) (l : ptr) (pod : corev1.Pod.t MapRef) :
  NewInstance ctx st cluster nodeSerial tlsEnabled = Returned r ->
  ret_err r = None -> ret_pod r = Some l -> pods (ret_store r) !! l = Some pod ->
  (forall podSpecMarshaled,
     json_Marshal_PodSpec (corev1.Pod.Spec pod) = Go.Ok podSpecMarshaled ->
     exists ref,
       metav1.ObjectMeta.Annotations (corev1.Pod.ObjectMeta pod) = Some ref /\
       mapContent (ret_store r) ref !! PodSpecAnnotationName = Some podSpecMarshaled) /\
  (exists built before,
     buildInstance cluster nodeSerial tlsEnabled = Go.Ok built /\
     pods before !! l = Some pod /\
     (forall err,
        json_Marshal_PodSpec (corev1.Pod.Spec pod) = Go.Err err -> ret_store r = before) /\
     ((GetPluginClientFromContext ctx = None /\ alloc st built = (l, before) /\
       corev1.Pod.Spec pod = corev1.Pod.Spec built) \/
      (exists client,
         GetPluginClientFromContext ctx = Some client /\
         PluginClient.LifecycleHook client (alloc st built).2 OperationVerbEvaluate cluster
           (alloc st built).1 = (Go.Ok (ObjPod (Some l)), before)))).
Proof.
  intros Hret Herr Hpod Hstore.
  destruct (NewInstance_success ctx st cluster nodeSerial tlsEnabled r l Hret Herr Hpod)
    as (built & before & Hbuilt & Hdef & Hcase).
  assert (Hbefore : pods before !! l = Some pod)
    by (by rewrite <- (deferred_pods _ _ _ Hdef)).
  pose proof (deferred_done before (ret_store r) l pod Hbefore Hdef) as Hdone.
  split.
  - intros podSpecMarshaled Hm. rewrite Hm in Hdone. destruct Hdone as (ref & Href & ->).
    exists ref. split; [done|]. apply mapStore_lookup.
  - exists built, before. split; [done|]. split; [done|]. split.
    + intros err Hm. by rewrite Hm in Hdone.
    + destruct Hcase as [(Hnone & Halloc) | Hsome]; [left | by right].
      split; [done|]. split; [done|].
      destruct (alloc_lookup st built) as (ref & Hl & _).
      rewrite Halloc in Hl. cbn [fst snd] in Hl. rewrite Hbefore in Hl.
      by injection Hl as ->.
Qed.

Lemma self_annotation_witness :
  exists r pod,
    @NewInstance Sample.ext (Sample.withClient Sample.sidecarHook) Sample.emptyStore
      Sample.cluster 1 true = Returned r /\
    ret_err r = None /\ ret_pod r = Some 1%nat /\
    pods (ret_store r) !! 1%nat = Some pod /\
    Sample.containerNames (corev1.Pod.Spec pod) = "postgres,sidecar" /\
    exists ref,
      metav1.ObjectMeta.Annotations (corev1.Pod.ObjectMeta pod) = Some ref /\
      mapContent (ret_store r) ref !! "cnpg.io/podSpec" = Some "postgres,sidecar".
Proof.
  destruct (@NewInstance Sample.ext (Sample.withClient Sample.sidecarHook) Sample.emptyStore
              Sample.cluster 1 true) as [r | msg st calls] eqn:Hret;
    [|vm_compute in Hret; discriminate Hret].
  assert (Hr : ret_err r = None /\ ret_pod r = Some 1%nat).
  { vm_compute in Hret. injection Hret as <-. split; reflexivity. }
  destruct Hr as [H1 H2].
  destruct (pods (ret_store r) !! 1%nat) as [pod|] eqn:Hl.
  2: { vm_compute in Hret. injection Hret as <-. vm_compute in Hl. discriminate Hl. }
  assert (Hnames : Sample.containerNames (corev1.Pod.Spec pod) = "postgres,sidecar").
  { vm_compute in Hret. injection Hret as <-. vm_compute in Hl. injection Hl as <-.
    reflexivity. }
  exists r, pod. split; [reflexivity|]. split; [exact H1|]. split; [exact H2|].
  split; [exact Hl|]. split; [exact Hnames|].
  destruct (@self_annotation Sample.ext (Sample.withClient Sample.sidecarHook)
              Sample.emptyStore Sample.cluster 1 true r 1%nat pod Hret H1 H2 Hl) as [Hann _].
  apply (Hann "postgres,sidecar").
  vm_compute in Hret. injection Hret as <-. vm_compute in Hl. injection Hl as <-.
  reflexivity.
Defined.

(** C1 as it is stated does not hold: where the lifecycle hook returns a pod
    whose specification cannot be serialized (here a pod with a probe whose
    port has a type that is neither [intstr.Int] nor [intstr.String]),
    [NewInstance] returns that pod with no error, and the annotations of the
    pod have no serialization of its specification. *)
Lemma unserializable_spec_counterexample :
  exists r pod ref,
    @NewInstance Sample.ext (Sample.withClient Sample.oddHook) Sample.emptyStore
      Sample.cluster 1 true = Returned r /\
    ret_err r = None /\ ret_pod r = Some 1%nat /\
    pods (ret_store r) !! 1%nat = Some pod /\
    (exists err, @json_Marshal_PodSpec Sample.ext (corev1.Pod.Spec pod) = Go.Err err) /\
    metav1.ObjectMeta.Annotations (corev1.Pod.ObjectMeta pod) = Some ref /\
    mapContent (ret_store r) ref !! "cnpg.io/podSpec" = None.
Proof.
  eexists _, _, _. split; [vm_compute; reflexivity|].
  split; [reflexivity|]. split; [reflexivity|]. split; [vm_compute; reflexivity|].
  split; [eexists; vm_compute; reflexivity|]. split; [reflexivity|].
  vm_compute. reflexivity.
Qed.

(** C9 (where the code departs from it). When the pod of [buildInstance] has
    a nil map of annotations, as it has after a patch that replaces
    [/metadata/annotations] by null, and its specification can be
    serialized, [NewInstance] does not return: without a plugin client, and
    also when the call of the hook fails and has left the pod alone, the
    deferred function writes into the nil map and the call panics. *)
Theorem lifecycle_hook_nil_annotations
        `{Externals} (ctx : Context.t) (st : Store)
        (cluster : apiv1.Cluster.t) (nodeSerial : Z) (tlsEnabled : bool)
        (built : corev1.Pod.t MapValue) (podSpecMarshaled : string) :
  let pod := (alloc st built).1 in
  let st1 := (alloc st built).2 in
  buildInstance cluster nodeSerial tlsEnabled = Go.Ok built ->
  metav1.ObjectMeta.Annotations (corev1.Pod.ObjectMeta built) = None ->
  json_Marshal_PodSpec (corev1.Pod.Spec built) = Go.Ok podSpecMarshaled ->
  (GetPluginClientFromContext ctx = None ->
   NewInstance ctx st cluster nodeSerial tlsEnabled =
   Panicked "assignment to entry in nil map" st1 []) /\
  (forall client err st',
     GetPluginClientFromContext ctx = Some client ->
     PluginClient.LifecycleHook client st1 OperationVerbEvaluate cluster pod =
     (Go.Err err, st') ->
     pods st' !! pod = pods st1 !! pod ->
     NewInstance ctx st cluster nodeSerial tlsEnabled =
     Panicked "assignment to entry in nil map" st' [(OperationVerbEvaluate, cluster, pod)]).
Proof.
  intros pod st1 Hbuilt Hnil Hm.
  destruct (alloc_lookup st built) as (ref & Hl & Hval). fold pod st1 in Hl, Hval.
  rewrite Hnil in Hval. destruct ref as [ref|]; [discriminate|].
  unfold NewInstance. rewrite Hbuilt.
  destruct (alloc st built) as [pod0 st0] eqn:Halloc. cbn [fst snd] in pod, st1.
  subst pod st1.
  split.
  - intros ->. unfold NewInstance_return.
    by rewrite (deferred_panics st0 pod0 _ podSpecMarshaled Hl Hm eq_refl).
  - intros client err st' -> Hhook Hsame. rewrite Hhook. unfold NewInstance_return.
    rewrite <- Hsame in Hl.
    by rewrite (deferred_panics st' pod0 _ podSpecMarshaled Hl Hm eq_refl).
Qed.

Lemma lifecycle_hook_nil_annotations_witness :
  let cluster := Sample.patchedCluster "annotations: null" in
  let built :=
    corev1.Pod.set_Annotations (@buildInstance_base Sample.ext cluster 1 true)
      (None : MapValue) in
  @buildInstance Sample.ext cluster 1 true = Go.Ok built /\
  @NewInstance Sample.ext Sample.noClient Sample.emptyStore cluster 1 true =
  Panicked "assignment to entry in nil map" (alloc Sample.emptyStore built).2 [] /\
  @NewInstance Sample.ext (Sample.withClient Sample.failingHook) Sample.emptyStore
    cluster 1 true =
  Panicked "assignment to entry in nil map" (alloc Sample.emptyStore built).2
    [(OperationVerbEvaluate, cluster, 0%nat)].
Proof.
  intros cluster built.
  assert (Hb : @buildInstance Sample.ext cluster 1 true = Go.Ok built)
    by (vm_compute; reflexivity).
  assert (Hm : @json_Marshal_PodSpec Sample.ext (corev1.Pod.Spec built) = Go.Ok "postgres")
    by (vm_compute; reflexivity).
  split; [exact Hb|].
  destruct (@lifecycle_hook_nil_annotations Sample.ext Sample.noClient Sample.emptyStore
              cluster 1 true built "postgres" Hb eq_refl Hm) as [Hnone _].
  destruct (@lifecycle_hook_nil_annotations Sample.ext (Sample.withClient Sample.failingHook)
              Sample.emptyStore cluster 1 true built "postgres" Hb eq_refl Hm) as [_ Hfail].
  split; [exact (Hnone eq_refl)|].
  exact (Hfail Sample.failingHook (Go.errorString "plugin unavailable")
           (alloc Sample.emptyStore built).2 eq_refl eq_refl eq_refl).
Defined.

(** * Further properties of the file *)

(** ** Instance names *)

Lemma to_int_not_nil (n : Z) :
  Z.to_int n <> Decimal.Pos Decimal.Nil /\ Z.to_int n <> Decimal.Neg Decimal.Nil.
Proof.
  destruct n as [|p|p]; cbn; split; try discriminate;
    intros E; injection E as E; by apply Unsigned.to_uint_nonnil in E.
Qed.

Lemma Itoa_inj (n m : Z) : Go.Itoa n = Go.Itoa m -> n = m.
Proof.
  unfold Go.Itoa. intros E.
  destruct (to_int_not_nil n) as [Hn1 Hn2], (to_int_not_nil m) as [Hm1 Hm2].
  pose proof (NilZero.isi (Z.to_int n) Hn1 Hn2) as In.
  pose proof (NilZero.isi (Z.to_int m) Hm1 Hm2) as Im.
  rewrite E in In. rewrite In in Im. injection Im as Im.
  by apply DecimalZ.to_int_inj.
Qed.

Lemma append_inj_l (c s1 s2 : string) : c +:+ s1 = c +:+ s2 -> s1 = s2.
Proof. induction c as [|a c IH]; cbn; [done|]. intros E. injection E as E. by apply IH. Qed.

(** [GetInstanceName]: within one cluster, two serials that differ give two
    names that differ. *)
Theorem GetInstanceName_serial_inj (clusterName : string) (n m : Z) :
  GetInstanceName clusterName n = GetInstanceName clusterName m -> n = m.
Proof.
  unfold GetInstanceName. intros E.
  apply append_inj_l in E. cbn in E. injection E as E. by apply Itoa_inj.
Qed.

Lemma GetInstanceName_serial_inj_witness :
  GetInstanceName "cluster-example" 1 <> GetInstanceName "cluster-example" 2.
Proof.
  intros E. apply (GetInstanceName_serial_inj "cluster-example" 1 2) in E. discriminate.
Defined.

Lemma hasDash_string_of_uint (d : Decimal.uint) :
  hasDash (NilEmpty.string_of_uint d) = false.
Proof. induction d; cbn; done. Qed.

Lemma hasDash_Itoa (n : Z) : 0 <= n -> hasDash (Go.Itoa n) = false.
Proof.
  intros Hn. unfold Go.Itoa. destruct n as [|p|p]; [done| |lia].
  cbn. destruct (Pos.to_uint p) eqn:E; try apply (hasDash_string_of_uint (_ u)).
  done.
Qed.

Lemma hasDash_append_dash (c s : string) : hasDash (c +:+ "-" +:+ s) = true.
Proof.
  induction c as [|a c IH]; [reflexivity|].
  change (hasDash (String a (c +:+ "-" +:+ s)) = true).
  cbn [hasDash]. rewrite IH. by destruct (Ascii.eqb a dash).
Qed.

Lemma dash_split (c c' s s' : string) :
  hasDash s = false -> hasDash s' = false ->
  c +:+ "-" +:+ s = c' +:+ "-" +:+ s' -> c = c' /\ s = s'.
Proof.
  intros Hs Hs'. revert c'.
  induction c as [|a c IH]; intros [|a' c'] E.
  - cbn in E. injection E as E. done.
  - change (String dash s = String a' (c' +:+ "-" +:+ s')) in E. injection E as _ E.
    rewrite E, hasDash_append_dash in Hs. done.
  - change (String a (c +:+ "-" +:+ s) = String dash s') in E. injection E as _ E.
    rewrite <- E, hasDash_append_dash in Hs'. done.
  - change (String a (c +:+ "-" +:+ s) = String a' (c' +:+ "-" +:+ s')) in E.
    injection E as -> E. destruct (IH c' E) as [-> ->]. done.
Qed.

(** [GetInstanceName]: with serials that are not negative, the name
    determines both the cluster name and the serial, even when the cluster
    name has dashes and digits of its own. *)
Theorem GetInstanceName_inj (clusterName clusterName' : string) (n m : Z) :
  0 <= n -> 0 <= m ->
  GetInstanceName clusterName n = GetInstanceName clusterName' m ->
  clusterName = clusterName' /\ n = m.
Proof.
  intros Hn Hm E. unfold GetInstanceName in E.
  apply dash_split in E as [-> E]; try by apply hasDash_Itoa.
  split; [done|]. by apply Itoa_inj.
Qed.

Lemma GetInstanceName_inj_witness :
  0 <= 12 /\ 0 <= 2 /\ GetInstanceName "pg" 12 <> GetInstanceName "pg-1" 2.
Proof.
  split; [lia|]. split; [lia|].
  intros E. apply (GetInstanceName_inj "pg" "pg-1" 12 2) in E as [E _]; [discriminate|lia|lia].
Defined.

(** ** The certificate of the barman endpoint *)

Lemma usableCASecret_dec (caSecret : option apiv1.SecretKeySelector.t) :
  usableCASecret caSecret \/
  (caSecret = None \/
   exists ca, caSecret = Some ca /\
     (apiv1.SecretKeySelector.Name ca = "" \/ apiv1.SecretKeySelector.Key ca = "")).
Proof.
  destruct caSecret as [ca|]; [|by right; left].
  destruct (decide (apiv1.SecretKeySelector.Name ca = "")) as [|Hn];
    [right; right; exists ca; by split; [|left]|].
  destruct (decide (apiv1.SecretKeySelector.Key ca = "")) as [|Hk];
    [right; right; exists ca; by split; [|right]|].
  left. by exists ca.
Qed.

(** [AddBarmanEndpointCAToPodSpec] leaves the specification as it is when
    there is no secret, or when the name or the key of the secret is empty;
    this holds for a specification without containers too. *)
Theorem barman_ca_without_secret
        `{Externals} (podSpec : corev1.PodSpec.t)
        (caSecret : option apiv1.SecretKeySelector.t)
        (credentials : apiv1.BarmanCredentials.t) :
  ~ usableCASecret caSecret ->
  AddBarmanEndpointCAToPodSpec podSpec caSecret credentials = Some podSpec.
Proof.
  intros Hno. unfold AddBarmanEndpointCAToPodSpec.
  destruct caSecret as [ca|]; [|done].
  destruct (String.eqb_spec (apiv1.SecretKeySelector.Name ca) "") as [|Hn]; [done|].
  destruct (String.eqb_spec (apiv1.SecretKeySelector.Key ca) "") as [|Hk]; [done|].
  destruct Hno. by exists ca.
Qed.

Lemma barman_ca_without_secret_witness :
  ~ usableCASecret (Some (apiv1.SecretKeySelector.mk "minio-ca" "")) /\
  @AddBarmanEndpointCAToPodSpec Sample.ext SampleBarman.emptySpec
    (Some (apiv1.SecretKeySelector.mk "minio-ca" "")) SampleBarman.aws =
  Some SampleBarman.emptySpec.
Proof.
  assert (H1 : ~ usableCASecret (Some (apiv1.SecretKeySelector.mk "minio-ca" ""))).
  { intros (ca & E & _ & Hk). injection E as <-. by apply Hk. }
  split; [exact H1|].
  exact (@barman_ca_without_secret Sample.ext SampleBarman.emptySpec _ SampleBarman.aws H1).
Defined.

(** With a usable secret and at least one container,
    [AddBarmanEndpointCAToPodSpec] appends one volume for the secret to the
    volumes, and to the first container one mount of that volume and one
    variable, [REQUESTS_CA_BUNDLE] with Azure credentials and [AWS_CA_BUNDLE]
    otherwise; what was there before stays in front, and the other containers
    and fields are not touched. *)
Theorem barman_ca_added
        `{Externals} (podSpec : corev1.PodSpec.t) (ca : apiv1.SecretKeySelector.t)
        (credentials : apiv1.BarmanCredentials.t)
        (container : corev1.Container.t) (others : list corev1.Container.t) :
  apiv1.SecretKeySelector.Name ca <> "" -> apiv1.SecretKeySelector.Key ca <> "" ->
  corev1.PodSpec.Containers podSpec = container :: others ->
  exists podSpec' container',
    AddBarmanEndpointCAToPodSpec podSpec (Some ca) credentials = Some podSpec' /\
    corev1.PodSpec.Volumes podSpec' = corev1.PodSpec.Volumes podSpec ++ [barmanCAVolume ca] /\
    corev1.PodSpec.Containers podSpec' = container' :: others /\
    corev1.Container.VolumeMounts container' =
      corev1.Container.VolumeMounts container ++ [barmanCAMount] /\
    corev1.Container.Env container' =
      corev1.Container.Env container ++ [barmanCAEnvVar credentials] /\
    corev1.Container.set_Env (corev1.Container.set_VolumeMounts container' []) [] =
      corev1.Container.set_Env (corev1.Container.set_VolumeMounts container []) [] /\
    corev1.PodSpec.set_Volumes (corev1.PodSpec.set_Containers podSpec' []) [] =
      corev1.PodSpec.set_Volumes (corev1.PodSpec.set_Containers podSpec []) [].
Proof.
  intros Hn Hk Hcs. unfold AddBarmanEndpointCAToPodSpec.
  apply String.eqb_neq in Hn, Hk. rewrite Hn, Hk. cbn [orb].
  cbn [corev1.PodSpec.set_Volumes corev1.PodSpec.Containers]. rewrite Hcs.
  eexists _, _. split; [reflexivity|].
  repeat split; cbn; try done.
  unfold barmanCAEnvVar. by destruct (apiv1.BarmanCredentials.Azure credentials).
Qed.

Lemma barman_ca_added_witness :
  exists podSpec',
    @AddBarmanEndpointCAToPodSpec Sample.ext SampleBarman.podSpec
      (Some SampleBarman.caSecret) SampleBarman.azure = Some podSpec' /\
    (corev1.Container.Env <$> corev1.PodSpec.Containers podSpec') =
    [[envVar "REQUESTS_CA_BUNDLE" "/controller/certificates/barman-restore-ca.crt"]; []].
Proof.
  destruct (@barman_ca_added Sample.ext SampleBarman.podSpec SampleBarman.caSecret
              SampleBarman.azure Sample.sidecar [Sample.bootstrapContainer])
    as (podSpec' & container' & E & _ & Hcs & _ & Henv & _);
    [discriminate | discriminate | reflexivity |].
  exists podSpec'. split; [exact E|]. rewrite Hcs. cbn. rewrite Henv. reflexivity.
Defined.

(** [AddBarmanEndpointCAToPodSpec] fails at run time, on the index of the
    first container, exactly when the secret is usable and the specification
    has no container. *)
Theorem barman_ca_panics_without_container
        `{Externals} (podSpec : corev1.PodSpec.t)
        (caSecret : option apiv1.SecretKeySelector.t)
        (credentials : apiv1.BarmanCredentials.t) :
  AddBarmanEndpointCAToPodSpec podSpec caSecret credentials = None <->
  usableCASecret caSecret /\ corev1.PodSpec.Containers podSpec = [].
Proof.
  split.
  - intros Hnone. destruct (usableCASecret_dec caSecret) as [Hu | Hno].
    + split; [done|]. destruct Hu as (ca & -> & Hn & Hk).
      destruct (corev1.PodSpec.Containers podSpec) as [|container others] eqn:Hcs; [done|].
      destruct (barman_ca_added podSpec ca credentials container others Hn Hk Hcs)
        as (? & ? & E & _). congruence.
    + rewrite barman_ca_without_secret in Hnone; [done|].
      intros (ca & -> & Hn & Hk). destruct Hno as [|(ca' & E & [|])]; congruence.
  - intros [(ca & -> & Hn & Hk) Hcs]. unfold AddBarmanEndpointCAToPodSpec.
    apply String.eqb_neq in Hn, Hk. rewrite Hn, Hk. cbn [orb].
    cbn [corev1.PodSpec.set_Volumes corev1.PodSpec.Containers]. by rewrite Hcs.
Qed.

Lemma barman_ca_panics_without_container_witness :
  @AddBarmanEndpointCAToPodSpec Sample.ext SampleBarman.emptySpec
    (Some SampleBarman.caSecret) SampleBarman.aws = None.
Proof.
  apply (@barman_ca_panics_without_container Sample.ext). split; [|reflexivity].
  exists SampleBarman.caSecret. by repeat split.
Defined.

(** The specification of [createClusterPodSpec] has exactly one init
    container and exactly one container, so [AddBarmanEndpointCAToPodSpec]
    never fails on it. *)
Theorem barman_ca_on_cluster_pod_spec
        `{Externals} (podName : string) (cluster : apiv1.Cluster.t)
        (envConfig : EnvConfig.t) (gracePeriod : Z) (enableHTTPS : bool)
        (caSecret : option apiv1.SecretKeySelector.t)
        (credentials : apiv1.BarmanCredentials.t) :
  let podSpec := createClusterPodSpec podName cluster envConfig gracePeriod enableHTTPS in
  List.length (corev1.PodSpec.InitContainers podSpec) = 1%nat /\
  List.length (corev1.PodSpec.Containers podSpec) = 1%nat /\
  is_Some (AddBarmanEndpointCAToPodSpec podSpec caSecret credentials).
Proof.
  intros podSpec. split; [done|]. split; [done|].
  destruct (AddBarmanEndpointCAToPodSpec podSpec caSecret credentials) eqn:E; [by eexists|].
  apply barman_ca_panics_without_container in E as [_ E]. discriminate.
Qed.

(** ** The container of the instance *)

(** The container that [createPostgresContainers] hands to
    [addManagerLoggingOptions]: its command is that of the instance manager,
    followed by the flag of the status port exactly when HTTPS is enabled and
    by the flag of the metrics port exactly when the TLS of the metrics is;
    its three probes are the default ones, all with the scheme HTTPS when
    HTTPS is enabled and all without a scheme otherwise; its environment is
    that of the [EnvConfig]. *)
Theorem tls_options
        `{Externals} (cluster : apiv1.Cluster.t) (envConfig : EnvConfig.t)
        (enableHTTPS : bool) :
  exists initial,
    postgresContainerWithProbes cluster envConfig enableHTTPS =
      ensureCustomProbesConfiguration cluster (addManagerLoggingOptions cluster initial) /\
    corev1.Container.Command initial =
      ["/controller/manager"; "instance"; "run"] ++
      (if enableHTTPS then ["--status-port-tls"] else []) ++
      (if IsMetricsTLSEnabled cluster then ["--metrics-port-tls"] else []) /\
    Forall (isDefaultProbe (if enableHTTPS then "HTTPS" else "")) (probesOf initial) /\
    corev1.Container.Name initial = "postgres" /\
    corev1.Container.Env initial = EnvConfig.EnvVars envConfig /\
    corev1.Container.EnvFrom initial = EnvConfig.EnvFrom envConfig.
Proof.
  unfold postgresContainerWithProbes. eexists. split; [reflexivity|].
  destruct enableHTTPS, (IsMetricsTLSEnabled cluster); cbn;
    (split; [reflexivity|]); (split; [|done]);
    repeat constructor; eexists _, _; cbn; done.
Qed.

(** [ensureCustomProbesConfiguration] changes nothing without a probe
    configuration in the cluster; with one it changes the probes only, and a
    probe that the container does not have is not created. *)
Theorem custom_probes_touch_probes_only
        `{Externals} (cluster : apiv1.Cluster.t) (container : corev1.Container.t) :
  let container' := ensureCustomProbesConfiguration cluster container in
  (apiv1.ClusterSpec.Probes (apiv1.Cluster.Spec cluster) = None -> container' = container) /\
  withoutProbes container' = withoutProbes container /\
  (corev1.Container.StartupProbe container = None ->
   corev1.Container.StartupProbe container' = None) /\
  (corev1.Container.ReadinessProbe container = None ->
   corev1.Container.ReadinessProbe container' = None) /\
  (corev1.Container.LivenessProbe container = None ->
   corev1.Container.LivenessProbe container' = None).
Proof.
  intros container'. unfold container', ensureCustomProbesConfiguration.
  destruct (apiv1.ClusterSpec.Probes _) as [probes|].
  - split; [done|]. split; [reflexivity|].
    repeat split; intros E; cbn; by rewrite E.
  - done.
Qed.

Lemma custom_probes_touch_probes_only_witness :
  @ensureCustomProbesConfiguration Sample.ext Sample.cluster Sample.sidecar = Sample.sidecar.
Proof.
  destruct (@custom_probes_touch_probes_only Sample.ext Sample.cluster Sample.sidecar)
    as [Hid _].
  exact (Hid eq_refl).
Defined.

Lemma ensureCustomProbesConfiguration_env `{Externals}
      (cluster : apiv1.Cluster.t) (container : corev1.Container.t) :
  corev1.Container.Env (ensureCustomProbesConfiguration cluster container) =
    corev1.Container.Env container /\
  corev1.Container.EnvFrom (ensureCustomProbesConfiguration cluster container) =
    corev1.Container.EnvFrom container.
Proof.
  unfold ensureCustomProbesConfiguration. by destruct (apiv1.ClusterSpec.Probes _).
Qed.

(** When [addManagerLoggingOptions] leaves the environment of the container
    alone, the container that [createPostgresContainers] builds from an
    [EnvConfig] is found equal to that [EnvConfig] by [IsEnvEqual]: an
    instance that has just been built is not seen as changed. *)
Theorem built_container_env_is_equal
        `{Externals} (cluster : apiv1.Cluster.t) (envConfig : EnvConfig.t)
        (enableHTTPS : bool) (container : corev1.Container.t) :
  (forall c, corev1.Container.Env (addManagerLoggingOptions cluster c) =
             corev1.Container.Env c /\
             corev1.Container.EnvFrom (addManagerLoggingOptions cluster c) =
             corev1.Container.EnvFrom c) ->
  container ∈ createPostgresContainers cluster envConfig enableHTTPS ->
  IsEnvEqual envConfig container = true.
Proof.
  intros Hlog Hin. unfold createPostgresContainers in Hin.
  apply list_elem_of_singleton in Hin as ->.
  apply IsEnvEqual_spec.
  cbn [corev1.Container.EnvFrom corev1.Container.Env corev1.Container.set_LivenessProbe
       corev1.Container.set_StartupProbe].
  destruct (tls_options cluster envConfig enableHTTPS) as (initial & -> & _ & _ & _ & He & Hf).
  destruct (ensureCustomProbesConfiguration_env cluster
              (addManagerLoggingOptions cluster initial)) as [-> ->].
  destruct (Hlog initial) as [-> ->]. done.
Qed.

Lemma built_container_env_is_equal_witness :
  let envConfig := @CreatePodEnvConfig Sample.ext Sample.cluster "cluster-example-1" in
  Forall (fun container => IsEnvEqual envConfig container = true)
         (@createPostgresContainers Sample.ext Sample.cluster envConfig true).
Proof.
  intros envConfig. apply Forall_forall. intros container Hin.
  apply (@built_container_env_is_equal Sample.ext Sample.cluster envConfig true container);
    [intros c; split; reflexivity | exact Hin].
Defined.

(** ** More on the failure threshold *)

Lemma getFailureThreshold_pos (d p : Z) :
  0 < p -> d <= Go.MaxInt32 -> 1 <= getFailureThreshold d p.
Proof.
  intros Hp Hd. destruct (Z.le_gt_cases d p) as [Hle | Hgt].
  - rewrite getFailureThreshold_small by done. lia.
  - rewrite getFailureThreshold_ceiling by done.
    apply Z.div_le_lower_bound; lia.
Qed.

(** [getFailureThreshold] grows with the delay and shrinks with the period:
    for a positive period a longer delay never gives a smaller threshold, and
    for any delay a longer period never gives a larger one. *)
Theorem getFailureThreshold_monotone (d1 d2 p1 p2 : Z) :
  0 < p1 -> p1 <= p2 -> d1 <= d2 -> d2 <= Go.MaxInt32 ->
  getFailureThreshold d1 p2 <= getFailureThreshold d2 p1.
Proof.
  intros Hp1 Hp Hd Hmax.
  destruct (Z.le_gt_cases d1 p2) as [Hle | Hgt].
  - rewrite (getFailureThreshold_small d1 p2) by done.
    apply getFailureThreshold_pos; lia.
  - rewrite (getFailureThreshold_ceiling d1 p2), (getFailureThreshold_ceiling d2 p1) by lia.
    pose proof (ceiling_quotient d1 p2 ltac:(lia)) as [L1 _].
    pose proof (ceiling_quotient d2 p1 ltac:(lia)) as [_ U2].
    set (t1 := (d1 + p2 - 1) / p2) in *. set (t2 := (d2 + p1 - 1) / p1) in *.
    assert (0 <= t2) by (apply Z.div_pos; lia).
    destruct (Z.le_gt_cases t1 t2) as [|Hlt]; [done|].
    assert (t2 * p1 <= t2 * p2) by (apply Z.mul_le_mono_nonneg_l; lia).
    assert (t2 * p2 <= (t1 - 1) * p2) by (apply Z.mul_le_mono_nonneg_r; lia).
    lia.
Qed.

Lemma getFailureThreshold_monotone_witness :
  0 < 10 /\ 10 <= 15 /\ 31 <= 45 /\ 45 <= Go.MaxInt32 /\
  getFailureThreshold 31 15 <= getFailureThreshold 45 10.
Proof.
  assert (H : 45 <= Go.MaxInt32) by (unfold Go.MaxInt32; lia).
  split; [lia|]. split; [lia|]. split; [lia|]. split; [exact H|].
  apply getFailureThreshold_monotone; (lia || exact H).
Defined.

(** [getFailureThreshold] in closed form: a delay of [k] periods and a rest
    of at least one second and at most one period gives [k + 1]; so a delay
    that is a multiple of the period gives exactly that multiple, with no
    error from the floating-point division. *)
Theorem getFailureThreshold_closed_form (p k rest : Z) :
  0 < p -> 0 <= k -> 0 < rest <= p -> k * p + rest <= Go.MaxInt32 ->
  getFailureThreshold (k * p + rest) p = k + 1.
Proof.
  intros Hp Hk Hrest Hmax.
  destruct (Z.eq_dec k 0) as [-> | Hk0].
  - rewrite getFailureThreshold_small by lia. lia.
  - assert (p <= k * p) by (replace p with (1 * p) at 1 by lia;
                            apply Z.mul_le_mono_nonneg_r; lia).
    rewrite getFailureThreshold_ceiling by lia.
    symmetry. apply (Z.div_unique_pos _ _ _ (rest - 1)); lia.
Qed.

Lemma getFailureThreshold_closed_form_witness :
  0 < 10 /\ 0 <= 359 /\ 0 < 10 <= 10 /\ 359 * 10 + 10 <= Go.MaxInt32 /\
  getFailureThreshold 3600 10 = 360.
Proof.
  assert (H : 359 * 10 + 10 <= Go.MaxInt32) by (unfold Go.MaxInt32; lia).
  split; [lia|]. split; [lia|]. split; [lia|]. split; [exact H|].
  apply (getFailureThreshold_closed_form 10 359 10); (lia || exact H).
Defined.

(** ** More on [NewInstance] *)

(** [NewInstance] never returns a pod together with an error. *)
Theorem NewInstance_error_without_pod
        `{Externals} (ctx : Context.t) (st : Store)
        (cluster : apiv1.Cluster.t) (nodeSerial : Z) (tlsEnabled : bool)
        (r : NewInstanceResult) :
  NewInstance ctx st cluster nodeSerial tlsEnabled = Returned r ->
  is_Some (ret_err r) -> ret_pod r = None.
Proof.
  unfold NewInstance.
  destruct (buildInstance _ _ _) as [built|err].
  2: { by intros E; injection E as <-. }
  destruct (alloc st built) as [pod st1].
  destruct (GetPluginClientFromContext ctx) as [client|].
  - destruct (PluginClient.LifecycleHook client _ _ _ _) as [[[|pod'|]|] st'];
      intros (Hpod & Herr & _)%NewInstance_return_inv; try done.
    rewrite Herr. by intros [? ?].
  - intros (Hpod & Herr & _)%NewInstance_return_inv. rewrite Herr. by intros [? ?].
Qed.

Lemma NewInstance_error_without_pod_witness :
  exists r,
    @NewInstance Sample.ext (Sample.withClient Sample.failingHook) Sample.emptyStore
      Sample.cluster 1 true = Returned r /\
    is_Some (ret_err r) /\ ret_pod r = None.
Proof.
  destruct (@NewInstance Sample.ext (Sample.withClient Sample.failingHook) Sample.emptyStore
              Sample.cluster 1 true) as [r | msg st calls] eqn:Hret;
    [|vm_compute in Hret; discriminate Hret].
  assert (Herr : is_Some (ret_err r))
    by (vm_compute in Hret; injection Hret as <-; by eexists).
  exists r. split; [reflexivity|]. split; [exact Herr|].
  exact (@NewInstance_error_without_pod Sample.ext (Sample.withClient Sample.failingHook)
           Sample.emptyStore Sample.cluster 1 true r Hret Herr).
Defined.

(** The outcome of [NewInstance] depends on the plugin client through one
    call of its lifecycle hook only: the call with the verb of the
    evaluation, the cluster and the pointer to the pod that has just been
    built, in the store that holds this pod. Two clients whose hooks agree on
    that call give the same outcome, and when the build fails the outcome is
    the same in every context. *)
Theorem NewInstance_hook_calls
        `{Externals} (st : Store)
        (cluster : apiv1.Cluster.t) (nodeSerial : Z) (tlsEnabled : bool) :
  (forall client1 client2,
     (forall built,
        buildInstance cluster nodeSerial tlsEnabled = Go.Ok built ->
        PluginClient.LifecycleHook client1 (alloc st built).2 OperationVerbEvaluate cluster
          (alloc st built).1 =
        PluginClient.LifecycleHook client2 (alloc st built).2 OperationVerbEvaluate cluster
          (alloc st built).1) ->
     NewInstance (Context.mk (Some client1)) st cluster nodeSerial tlsEnabled =
     NewInstance (Context.mk (Some client2)) st cluster nodeSerial tlsEnabled) /\
  (forall ctx1 ctx2 err,
     buildInstance cluster nodeSerial tlsEnabled = Go.Err err ->
     NewInstance ctx1 st cluster nodeSerial tlsEnabled =
     NewInstance ctx2 st cluster nodeSerial tlsEnabled).
Proof.
  split.
  - intros client1 client2 Hagree. unfold NewInstance.
    destruct (buildInstance _ _ _) as [built|err]; [|done].
    specialize (Hagree built eq_refl).
    destruct (alloc st built) as [pod st1]. cbn [fst snd] in Hagree.
    cbn [GetPluginClientFromContext Context.pluginClient]. by rewrite Hagree.
  - intros ctx1 ctx2 err Hb. by rewrite !(NewInstance_build_error _ st _ _ _ err Hb).
Qed.

Lemma NewInstance_hook_calls_witness :
  @NewInstance Sample.ext (Sample.withClient Sample.sidecarHook) Sample.store
    Sample.cluster 2 true =
  @NewInstance Sample.ext (Sample.withClient firstCallHook) Sample.store
    Sample.cluster 2 true /\
  PluginClient.LifecycleHook Sample.sidecarHook Sample.store OperationVerbEvaluate
    Sample.cluster 0%nat <>
  PluginClient.LifecycleHook firstCallHook Sample.store OperationVerbEvaluate
    Sample.cluster 0%nat.
Proof.
  split.
  - apply (@NewInstance_hook_calls Sample.ext Sample.store Sample.cluster 2 true).
    intros built Hb.
    assert (Hb' : @buildInstance Sample.ext Sample.cluster 2 true =
                  Go.Ok (@buildInstance_base Sample.ext Sample.cluster 2 true))
      by reflexivity.
    rewrite Hb' in Hb. injection Hb as <-. vm_compute. reflexivity.
  - vm_compute. discriminate.
Defined.



(** When the hook returns a pointer to a pod that is nil, [NewInstance]
    returns neither a pod nor an error, and the store is as the hook left
    it. *)
Theorem NewInstance_nil_pod_from_hook
        `{Externals} (ctx : Context.t) (st st' : Store)
        (cluster : apiv1.Cluster.t) (nodeSerial : Z) (tlsEnabled : bool)
        (client : PluginClient.t) (built : corev1.Pod.t MapValue) :
  buildInstance cluster nodeSerial tlsEnabled = Go.Ok built ->
  GetPluginClientFromContext ctx = Some client ->
  PluginClient.LifecycleHook client (alloc st built).2 OperationVerbEvaluate cluster
    (List.length (pods st)) = (Go.Ok (ObjPod None), st') ->
  NewInstance ctx st cluster nodeSerial tlsEnabled =
  Returned (mkNewInstanceResult None None st'
              [(OperationVerbEvaluate, cluster, List.length (pods st))]).
Proof.
  intros Hb Hc Hhook. unfold NewInstance. rewrite Hb, Hc.
  destruct (alloc_spec st built) as (Hptr & _).
  destruct (alloc st built) as [pod st1]. cbn [fst snd] in *. subst pod.
  by rewrite Hhook.
Qed.

Lemma NewInstance_nil_pod_from_hook_witness :
  exists r,
    @NewInstance Sample.ext (Sample.withClient nilPodHook) Sample.emptyStore
      Sample.cluster 1 true = Returned r /\
    ret_pod r = None /\ ret_err r = None.
Proof.
  eexists. split.
  - exact (@NewInstance_nil_pod_from_hook Sample.ext (Sample.withClient nilPodHook)
             Sample.emptyStore _ Sample.cluster 1 true nilPodHook _ eq_refl eq_refl eq_refl).
  - split; reflexivity.
Defined.

(** When the cluster carries a patch and the pod cannot be serialized,
    [NewInstance] returns the error of the serialization and a nil pod,
    without a call of the hook; when the four steps of the patch succeed,
    [buildInstance] returns the pod that was read back from the patched
    document. *)
Theorem patch_serialization_and_success
        `{Externals} (ctx : Context.t) (st : Store)
        (cluster : apiv1.Cluster.t) (nodeSerial : Z) (tlsEnabled : bool) :
  let jsonPatch := default "" (apiv1.Cluster.Annotations cluster !! PodPatchAnnotationName) in
  let pod := buildInstance_base cluster nodeSerial tlsEnabled in
  jsonPatch <> "" ->
  (forall err,
     json_Marshal_Pod pod = Go.Err err ->
     NewInstance ctx st cluster nodeSerial tlsEnabled =
     Returned (mkNewInstanceResult None
                 (Some (Go.Errorf_w "while serializing pod to JSON" err)) st [])) /\
  (forall serialized patch patched pod',
     json_Marshal_Pod pod = Go.Ok serialized ->
     jsonpatch_DecodePatch jsonPatch = Go.Ok patch ->
     jsonpatch_Apply patch serialized = Go.Ok patched ->
     json_Unmarshal_Pod patched pod = Go.Ok pod' ->
     buildInstance cluster nodeSerial tlsEnabled = Go.Ok pod').
Proof.
  intros jsonPatch pod Hpatch.
  assert (Hb : buildInstance cluster nodeSerial tlsEnabled = applyPodPatch jsonPatch pod)
    by (by apply buildInstance_patched).
  split.
  - intros err Hser. apply NewInstance_build_error.
    rewrite Hb. unfold applyPodPatch. by rewrite Hser.
  - intros serialized patch patched pod' Hser Hdec Happ Hun.
    rewrite Hb. unfold applyPodPatch. rewrite Hser. cbn [Go.orWrap Go.bind].
    rewrite Hdec. cbn [Go.orWrap Go.bind]. rewrite Happ. cbn [Go.orWrap Go.bind].
    by rewrite Hun.
Qed.

Lemma patch_serialization_and_success_witness :
  "replace" <> "" /\
  @buildInstance Sample.ext (Sample.patchedCluster "replace") 1 true =
  Go.Ok (@buildInstance_base Sample.ext (Sample.patchedCluster "replace") 1 true).
Proof.
  assert (H1 : "replace" <> "") by discriminate.
  split; [exact H1|].
  destruct (@patch_serialization_and_success Sample.ext Sample.noClient Sample.emptyStore
              (Sample.patchedCluster "replace") 1 true H1) as [_ Hok].
  exact (Hok "postgres" "replace" "postgres" _ eq_refl eq_refl eq_refl eq_refl).
Defined.

(** Every error of [NewInstance] is either the error of the cast, which has
    no cause, or wraps the error of a library or of the hook: [Unwrap] gives
    that cause back, and the message is the message of the stage, a colon and
    the message of the cause. *)
Theorem NewInstance_errors
        `{Externals} (ctx : Context.t) (st : Store)
        (cluster : apiv1.Cluster.t) (nodeSerial : Z) (tlsEnabled : bool)
        (r : NewInstanceResult) (err : Go.error) :
  NewInstance ctx st cluster nodeSerial tlsEnabled = Returned r ->
  ret_err r = Some err ->
  (err = Go.errorString "while casting the clientObject to the pod type" /\
   Go.Unwrap err = None) \/
  (exists stage cause,
     stage ∈ stageMessages /\ Go.Unwrap err = Some cause /\
     Go.Error err = stage +:+ ": " +:+ Go.Error cause).
Proof.
  unfold NewInstance.
  destruct (buildInstance _ _ _) as [built|berr] eqn:Hb.
  - destruct (alloc st built) as [pod st1].
    destruct (GetPluginClientFromContext ctx) as [client|].
    2: { intros (_ & Herr & _)%NewInstance_return_inv. congruence. }
    destruct (PluginClient.LifecycleHook client _ _ _ _) as [[[|pod'|]|herr] st'];
      intros (_ & Herr & _)%NewInstance_return_inv E; rewrite Herr in E; try done;
      injection E as <-.
    + by left.
    + by left.
    + right. eexists _, herr. split; [|done]. unfold stageMessages. set_solver.
  - intros E. injection E as <-. cbn [ret_err]. intros E. injection E as <-. right.
    destruct (build_fails_only_in_patch cluster nodeSerial tlsEnabled) as [_ Hcause].
    specialize (Hcause berr Hb) as (_ & cause & Hstage).
    destruct Hstage as [-> | [-> | [-> | ->]]];
      eexists _, cause; (split; [|done]); unfold stageMessages; set_solver.
Qed.

Lemma NewInstance_errors_witness :
  Go.Unwrap (Go.wrapError
     "while invoking the lifecycle instance evaluation hook: plugin unavailable"
     (Go.errorString "plugin unavailable")) = Some (Go.errorString "plugin unavailable").
Proof.
  destruct (@NewInstance Sample.ext (Sample.withClient Sample.failingHook) Sample.emptyStore
              Sample.cluster 1 true) as [r | msg st calls] eqn:Hret;
    [|vm_compute in Hret; discriminate Hret].
  assert (Herr : ret_err r = Some (Go.wrapError
            "while invoking the lifecycle instance evaluation hook: plugin unavailable"
            (Go.errorString "plugin unavailable")))
    by (vm_compute in Hret; injection Hret as <-; reflexivity).
  destruct (@NewInstance_errors Sample.ext (Sample.withClient Sample.failingHook)
              Sample.emptyStore Sample.cluster 1 true r _ Hret Herr)
    as [[E _] | (stage & cause & _ & Hu & _)].
  - discriminate E.
  - reflexivity.
Defined.

(** Once the instance is built with a map of annotations that is not nil:
    without a plugin client [NewInstance] returns, with no error and without
    any call of the hook, the pod of [buildInstance], whose annotations are
    those it was built with and the serialization of its specification under
    [PodSpecAnnotationName] (or those it was built with when the
    specification cannot be serialized); when the call of the hook fails,
    and the deferred function does not panic on the pod as the hook has left
    it, it returns a nil pod and the error of the call, wrapped as the
    failure of the hook invocation; when the hook returns an object that is
    not a pod it returns a nil pod and the error of the cast, and the store
    is as the hook left it. *)
Theorem hook_step_outcomes
        `{Externals} (ctx : Context.t) (st : Store)
        (cluster : apiv1.Cluster.t) (nodeSerial : Z) (tlsEnabled : bool)
        (built : corev1.Pod.t MapValue) :
  let o := NewInstance ctx st cluster nodeSerial tlsEnabled in
  let pod := List.length (pods st) in
  let st1 := (alloc st built).2 in
  buildInstance cluster nodeSerial tlsEnabled = Go.Ok built ->
  (forall content,
     GetPluginClientFromContext ctx = None ->
     metav1.ObjectMeta.Annotations (corev1.Pod.ObjectMeta built) = Some content ->
     exists r,
       o = Returned r /\
       ret_err r = None /\ ret_pod r = Some pod /\ hookCalls r = [] /\
       podValue (ret_store r) pod =
       Some (corev1.Pod.set_Annotations built
               (Some (match json_Marshal_PodSpec (corev1.Pod.Spec built) with
                      | Go.Ok podSpecMarshaled =>
                          <[ PodSpecAnnotationName := podSpecMarshaled ]> content
                      | Go.Err _ => content
                      end)))) /\
  (forall client err st',
     GetPluginClientFromContext ctx = Some client ->
     PluginClient.LifecycleHook client st1 OperationVerbEvaluate cluster pod =
     (Go.Err err, st') ->
     (forall p podSpecMarshaled,
        pods st' !! pod = Some p ->
        json_Marshal_PodSpec (corev1.Pod.Spec p) = Go.Ok podSpecMarshaled ->
        is_Some (metav1.ObjectMeta.Annotations (corev1.Pod.ObjectMeta p))) ->
     exists r,
       o = Returned r /\
       ret_pod r = None /\
       ret_err r =
       Some (Go.Errorf_w "while invoking the lifecycle instance evaluation hook" err) /\
       pods (ret_store r) = pods st') /\
  (forall client obj st',
     GetPluginClientFromContext ctx = Some client ->
     PluginClient.LifecycleHook client st1 OperationVerbEvaluate cluster pod =
     (Go.Ok obj, st') ->
     (forall p, obj <> ObjPod p) ->
     o = Returned (mkNewInstanceResult None
                     (Some (Go.Errorf "while casting the clientObject to the pod type"))
                     st' [(OperationVerbEvaluate, cluster, pod)])).
Proof.
  intros o pod st1 Hbuilt.
  destruct (alloc_spec st built) as (Hptr & ref & Hpods & Hmaps).
  assert (Hnew : pods st1 !! pod = Some (corev1.Pod.set_Annotations built ref)).
  { unfold st1, pod. rewrite Hpods, lookup_app_r, Nat.sub_diag by lia. done. }
  unfold o, NewInstance. rewrite Hbuilt. fold pod in Hptr. fold st1 in Hmaps.
  destruct (alloc st built) as [pod0 st0]. cbn [fst snd] in *. subst pod0 st1.
  split; [|split].
  - intros content -> Hcontent. rewrite Hcontent in Hmaps.
    destruct Hmaps as (r & -> & Hfresh & Hst0).
    unfold NewInstance_return, NewInstance_deferred. rewrite Hnew.
    cbn [corev1.Pod.set_Annotations corev1.Pod.Spec corev1.Pod.ObjectMeta
         metav1.ObjectMeta.set_Annotations metav1.ObjectMeta.Annotations].
    assert (Hc0 : mapContent st0 r = content)
      by (unfold mapContent; by rewrite Hst0, lookup_insert_eq).
    destruct (json_Marshal_PodSpec _) as [s|err]; eexists; (split; [reflexivity|]);
      repeat (split; [reflexivity|]); cbn [ret_store]; unfold podValue.
    + rewrite mapStore_pods, Hnew.
      cbn [corev1.Pod.set_Annotations corev1.Pod.Spec corev1.Pod.ObjectMeta
           metav1.ObjectMeta.set_Annotations metav1.ObjectMeta.Annotations
           metav1.ObjectMeta.Labels metav1.ObjectMeta.Name metav1.ObjectMeta.Namespace
           mapValue].
      unfold mapContent at 1, mapStore. cbn [maps]. rewrite lookup_insert_eq. cbn [default].
      by rewrite Hc0.
    + rewrite Hnew.
      cbn [corev1.Pod.set_Annotations corev1.Pod.Spec corev1.Pod.ObjectMeta
           metav1.ObjectMeta.set_Annotations metav1.ObjectMeta.Annotations
           metav1.ObjectMeta.Labels metav1.ObjectMeta.Name metav1.ObjectMeta.Namespace
           mapValue].
      by rewrite Hc0.
  - intros client err st' -> Hhook Hsafe. rewrite Hhook.
    unfold NewInstance_return, NewInstance_deferred.
    destruct (pods st' !! pod) as [p|] eqn:Hp; [|by eexists].
    destruct (json_Marshal_PodSpec _) as [s|merr] eqn:Hm; [|by eexists].
    destruct (Hsafe p s eq_refl Hm) as [r ->]. by eexists.
  - intros client obj st' -> Hhook Hkind. rewrite Hhook.
    destruct obj as [| p |]; [done | by destruct (Hkind p) | done].
Qed.

Lemma hook_step_outcomes_witness :
  (exists r,
     @NewInstance Sample.ext Sample.noClient Sample.emptyStore Sample.cluster 1 true =
     Returned r /\
     ret_err r = None /\ ret_pod r = Some 0%nat /\ hookCalls r = [] /\
     podValue (ret_store r) 0%nat =
     Some (corev1.Pod.set_Annotations (@buildInstance_base Sample.ext Sample.cluster 1 true)
             (Some ({[ "cnpg.io/podSpec" := "postgres";
                       "cnpg.io/podEnvHash" :=
                         "PGDATA;POD_NAME;NAMESPACE;CLUSTER_NAME;PSQL_HISTORY;PGPORT;PGHOST;TMPDIR";
                       "cnpg.io/nodeSerial" := "1" ]} : gmap string string)))) /\
  (exists r,
     @NewInstance Sample.ext (Sample.withClient Sample.failingHook) Sample.emptyStore
       Sample.cluster 1 true = Returned r /\
     ret_pod r = None /\
     ret_err r = Some (Go.wrapError
       "while invoking the lifecycle instance evaluation hook: plugin unavailable"
       (Go.errorString "plugin unavailable"))) /\
  @NewInstance Sample.ext (Sample.withClient Sample.wrongKindHook) Sample.emptyStore
    Sample.cluster 1 true =
  Returned (mkNewInstanceResult None
              (Some (Go.errorString "while casting the clientObject to the pod type"))
              (alloc Sample.emptyStore (@buildInstance_base Sample.ext Sample.cluster 1 true)).2
              [(OperationVerbEvaluate, Sample.cluster, 0%nat)]).
Proof.
  split; [|split].
  - destruct (@hook_step_outcomes Sample.ext Sample.noClient Sample.emptyStore
                Sample.cluster 1 true _ eq_refl) as (Hnone & _ & _).
    destruct (Hnone _ eq_refl eq_refl) as (r & Hr & Herr & Hpod & Hcalls & Hvalue).
    exists r. split; [exact Hr|]. split; [exact Herr|]. split; [exact Hpod|].
    split; [exact Hcalls|]. refine (eq_trans Hvalue _). vm_compute. reflexivity.
  - destruct (@hook_step_outcomes Sample.ext (Sample.withClient Sample.failingHook)
                Sample.emptyStore Sample.cluster 1 true _ eq_refl) as (_ & Hfail & _).
    destruct (Hfail Sample.failingHook (Go.errorString "plugin unavailable") _
                eq_refl eq_refl) as (r & Hr & Hpod & Herr & _).
    + intros p s Hp _. vm_compute in Hp. injection Hp as <-. by eexists.
    + exists r. by repeat split.
  - destruct (@hook_step_outcomes Sample.ext (Sample.withClient Sample.wrongKindHook)
                Sample.emptyStore Sample.cluster 1 true _ eq_refl) as (_ & _ & Hkind).
    apply (Hkind Sample.wrongKindHook (ObjOther "ConfigMap") _ eq_refl eq_refl).
    intros p. discriminate.
Defined.

(** ** More on the affinity *)

(** [CreateAffinitySection] returns no affinity exactly when nothing is
    generated and the configuration declares no extension. *)
Theorem affinity_section_absent
        `{Externals} (clusterName : string) (config : apiv1.AffinityConfiguration.t) :
  CreateAffinitySection clusterName config = None <->
  CreateGeneratedAntiAffinity clusterName config = None /\ noAffinityExtensions config.
Proof.
  unfold CreateAffinitySection, noAffinityExtensions.
  destruct (apiv1.AffinityConfiguration.AdditionalPodAffinity config),
           (apiv1.AffinityConfiguration.AdditionalPodAntiAffinity config),
           (apiv1.AffinityConfiguration.NodeAffinity config);
    split; try done; try (by intros (_ & ? & ? & ?)).
  by intros [? _].
Qed.

Lemma affinity_section_absent_witness :
  @CreateAffinitySection Sample.ext "cluster-example" (Sample.affinityOf (Some false) "") = None.
Proof.
  apply (@affinity_section_absent Sample.ext). split; [reflexivity | repeat split].
Defined.

(** In the affinity that [CreateAffinitySection] returns, a field for which
    the configuration declares no extension is as the generated affinity has
    it: no pod affinity, no node affinity, and the generated anti-affinity. *)
Theorem affinity_fields_without_extension
        `{Externals} (clusterName : string) (config : apiv1.AffinityConfiguration.t)
        (affinity : corev1.Affinity.t) :
  CreateAffinitySection clusterName config = Some affinity ->
  (apiv1.AffinityConfiguration.AdditionalPodAffinity config = None ->
   corev1.Affinity.PodAffinity affinity = None) /\
  (apiv1.AffinityConfiguration.NodeAffinity config = None ->
   corev1.Affinity.NodeAffinity affinity = None) /\
  (apiv1.AffinityConfiguration.AdditionalPodAntiAffinity config = None ->
   corev1.Affinity.PodAntiAffinity affinity =
   CreateGeneratedAntiAffinity clusterName config ≫= corev1.Affinity.PodAntiAffinity).
Proof.
  unfold CreateAffinitySection.
  assert (Hgen : forall a, CreateGeneratedAntiAffinity clusterName config = Some a ->
                   corev1.Affinity.NodeAffinity a = None /\
                   corev1.Affinity.PodAffinity a = None).
  { intros a. unfold CreateGeneratedAntiAffinity.
    destruct (apiv1.AffinityConfiguration.EnablePodAntiAffinity config) as [[]|];
      repeat case_match; intros E; try done; by injection E as <-. }
  destruct (CreateGeneratedAntiAffinity clusterName config) as [a|];
    [destruct (Hgen a eq_refl) as [Hn Hp]|];
    destruct (apiv1.AffinityConfiguration.AdditionalPodAffinity config),
             (apiv1.AffinityConfiguration.AdditionalPodAntiAffinity config),
             (apiv1.AffinityConfiguration.NodeAffinity config);
    intros E; try done; injection E as <-; cbn; repeat split; done.
Qed.

Lemma affinity_fields_without_extension_witness :
  exists affinity,
    @CreateAffinitySection Sample.ext "cluster-example" (Sample.affinityOf None "preferred") =
      Some affinity /\
    corev1.Affinity.PodAffinity affinity = None /\
    corev1.Affinity.NodeAffinity affinity = None.
Proof.
  eexists. split; [reflexivity|].
  destruct (@affinity_fields_without_extension Sample.ext "cluster-example"
              (Sample.affinityOf None "preferred") _ eq_refl) as (Hp & Hn & _).
  split; [exact (Hp eq_refl) | exact (Hn eq_refl)].
Defined.

(** A generated affinity holds one term and nothing else: the term is either
    the only required one or the only preferred one, with weight 100; its
    topology key is never empty. *)
Theorem generated_anti_affinity_shape
        `{Externals} (clusterName : string) (config : apiv1.AffinityConfiguration.t)
        (affinity : corev1.Affinity.t) :
  CreateGeneratedAntiAffinity clusterName config = Some affinity ->
  exists topologyKey,
    topologyKey <> "" /\
    (affinity =
       corev1.Affinity.mk None None
         (Some (corev1.PodAntiAffinity.mk
                  [generatedPodAffinityTerm clusterName topologyKey] [])) \/
     affinity =
       corev1.Affinity.mk None None
         (Some (corev1.PodAntiAffinity.mk []
                  [corev1.WeightedPodAffinityTerm.mk 100
                     (generatedPodAffinityTerm clusterName topologyKey)]))).
Proof.
  intros Hgen.
  exists (if decide (apiv1.AffinityConfiguration.TopologyKey config = "")
          then "kubernetes.io/hostname"
          else apiv1.AffinityConfiguration.TopologyKey config).
  split; [by case_decide|].
  destruct (decide (apiv1.AffinityConfiguration.EnablePodAntiAffinity config = Some false))
    as [Hdis | Hen]; [by rewrite generated_none_when_disabled in Hgen|].
  destruct (decide (apiv1.AffinityConfiguration.PodAntiAffinityType config = "required"))
    as [Hr | Hr].
  { left. rewrite generated_when_required in Hgen by done. by injection Hgen as <-. }
  destruct (decide (apiv1.AffinityConfiguration.PodAntiAffinityType config = "preferred"))
    as [Hp | Hp].
  { right. rewrite generated_when_preferred in Hgen by done. by injection Hgen as <-. }
  by rewrite generated_none_when_other_mode in Hgen.
Qed.

Lemma generated_anti_affinity_shape_witness :
  exists affinity topologyKey,
    @CreateGeneratedAntiAffinity Sample.ext "cluster-example"
      (Sample.affinityOf None "required") = Some affinity /\
    topologyKey <> "" /\
    corev1.Affinity.PodAntiAffinity affinity =
    Some (corev1.PodAntiAffinity.mk
            [@generatedPodAffinityTerm Sample.ext "cluster-example" topologyKey] []).
Proof.
  eexists.
  destruct (@generated_anti_affinity_shape Sample.ext "cluster-example"
              (Sample.affinityOf None "required") _ eq_refl)
    as (topologyKey & Hne & [E | E]); [|discriminate E].
  exists topologyKey. split; [reflexivity|]. split; [exact Hne|].
  apply (f_equal corev1.Affinity.PodAntiAffinity) in E. exact E.
Defined.

(** ** More on the environment *)

(** [CreatePodEnvConfig] depends on the cluster through its name, its
    namespace, its environment variables and its environment sources only:
    two clusters that agree on these give the same [EnvConfig], hash
    included, for the same instance name. *)
Theorem pod_env_config_depends_on
        `{Externals} (cluster cluster' : apiv1.Cluster.t) (podName : string) :
  apiv1.Cluster.Name cluster = apiv1.Cluster.Name cluster' ->
  apiv1.Cluster.Namespace cluster = apiv1.Cluster.Namespace cluster' ->
  apiv1.ClusterSpec.Env (apiv1.Cluster.Spec cluster) =
    apiv1.ClusterSpec.Env (apiv1.Cluster.Spec cluster') ->
  apiv1.ClusterSpec.EnvFrom (apiv1.Cluster.Spec cluster) =
    apiv1.ClusterSpec.EnvFrom (apiv1.Cluster.Spec cluster') ->
  CreatePodEnvConfig cluster podName = CreatePodEnvConfig cluster' podName.
Proof.
  intros Hn Hns He Hf. unfold CreatePodEnvConfig. by rewrite Hn, Hns, He, Hf.
Qed.

Lemma pod_env_config_depends_on_witness :
  @CreatePodEnvConfig Sample.ext Sample.cluster "cluster-example-1" =
  @CreatePodEnvConfig Sample.ext (Sample.patchedCluster "replace") "cluster-example-1".
Proof.
  apply (@pod_env_config_depends_on Sample.ext); reflexivity.
Defined.

(** [IsEnvEqual] looks at the variables and at the sources only: neither the
    hash of the [EnvConfig] nor any other field of the container
    counts. *)
Theorem env_equality_ignores_the_rest
        (c c' : EnvConfig.t) (container container' : corev1.Container.t) :
  EnvConfig.EnvVars c = EnvConfig.EnvVars c' ->
  EnvConfig.EnvFrom c = EnvConfig.EnvFrom c' ->
  corev1.Container.Env container = corev1.Container.Env container' ->
  corev1.Container.EnvFrom container = corev1.Container.EnvFrom container' ->
  IsEnvEqual c container = IsEnvEqual c' container'.
Proof.
  intros Hv Hf He Hef. unfold IsEnvEqual. by rewrite Hv, Hf, He, Hef.
Qed.

Lemma env_equality_ignores_the_rest_witness :
  IsEnvEqual (EnvConfig.mk [SampleAffinity.first] [] "hash-1")
             (SampleAffinity.containerWithEnv [SampleAffinity.first]) =
  IsEnvEqual (EnvConfig.mk [SampleAffinity.first] [] "hash-2")
             (corev1.Container.set_Command
                (SampleAffinity.containerWithEnv [SampleAffinity.first]) ["run"]).
Proof.
  apply env_equality_ignores_the_rest; reflexivity.
Defined.

(** After [AddBarmanEndpointCAToPodSpec] has added its variable, the first
    container is no longer equal, for [IsEnvEqual], to an [EnvConfig] to which
    it was equal before. *)
Theorem barman_ca_changes_the_environment
        `{Externals} (c : EnvConfig.t) (podSpec podSpec' : corev1.PodSpec.t)
        (ca : apiv1.SecretKeySelector.t) (credentials : apiv1.BarmanCredentials.t)
        (container : corev1.Container.t) (others : list corev1.Container.t) :
  apiv1.SecretKeySelector.Name ca <> "" -> apiv1.SecretKeySelector.Key ca <> "" ->
  corev1.PodSpec.Containers podSpec = container :: others ->
  IsEnvEqual c container = true ->
  AddBarmanEndpointCAToPodSpec podSpec (Some ca) credentials = Some podSpec' ->
  exists container',
    corev1.PodSpec.Containers podSpec' = container' :: others /\
    IsEnvEqual c container' = false.
Proof.
  intros Hn Hk Hcs Heq Hadd.
  destruct (barman_ca_added podSpec ca credentials container others Hn Hk Hcs)
    as (podSpec'' & container' & E & _ & Hcs' & _ & Henv & _).
  assert (podSpec'' = podSpec') as -> by congruence.
  exists container'. split; [done|].
  apply not_true_is_false. rewrite IsEnvEqual_spec. intros [_ Hv].
  apply IsEnvEqual_spec in Heq as [_ Hv0].
  rewrite Henv, Hv0 in Hv.
  apply (f_equal List.length) in Hv. rewrite length_app in Hv. cbn in Hv. lia.
Qed.

Lemma barman_ca_changes_the_environment_witness :
  exists podSpec' container',
    @AddBarmanEndpointCAToPodSpec Sample.ext SampleBarman.podSpec
      (Some SampleBarman.caSecret) SampleBarman.aws = Some podSpec' /\
    corev1.PodSpec.Containers podSpec' = container' :: [Sample.bootstrapContainer] /\
    IsEnvEqual (EnvConfig.mk [] [] "") container' = false.
Proof.
  destruct (@AddBarmanEndpointCAToPodSpec Sample.ext SampleBarman.podSpec
              (Some SampleBarman.caSecret) SampleBarman.aws) as [podSpec'|] eqn:E;
    [|discriminate E].
  destruct (@barman_ca_changes_the_environment Sample.ext (EnvConfig.mk [] [] "")
              SampleBarman.podSpec podSpec' SampleBarman.caSecret SampleBarman.aws
              Sample.sidecar [Sample.bootstrapContainer])
    as (container' & Hcs & Hne);
    [discriminate | discriminate | reflexivity | reflexivity | exact E |].
  exists podSpec', container'. split; [reflexivity|]. split; [exact Hcs | exact Hne].
Defined.

(** ** The pod of [buildInstance] *)

(** When the cluster has no AppArmor annotation, the pod that [buildInstance]
    assembles has the instance name as name and host name, the namespace of
    the cluster, the cluster name as service account, the priority class of
    the cluster, the subdomain of the service exactly when the configuration
    creates it, the stop delay as grace period, the three labels of the
    cluster, the instance and the role, and the annotations of the serial and
    of the hash of the environment. *)
Theorem built_pod_identity
        `{Externals} (cluster : apiv1.Cluster.t) (nodeSerial : Z) (tlsEnabled : bool) :
  (forall spec, IsAnnotationAppArmorPresent spec (apiv1.Cluster.Annotations cluster) = false) ->
  NoDup [ClusterLabelName; InstanceNameLabelName; PodRoleLabelName] ->
  ClusterSerialAnnotationName <> PodEnvHashAnnotationName ->
  let pod := buildInstance_base cluster nodeSerial tlsEnabled in
  let meta := corev1.Pod.ObjectMeta pod in
  let spec := corev1.Pod.Spec pod in
  let podName := GetInstanceName (apiv1.Cluster.Name cluster) nodeSerial in
  metav1.ObjectMeta.Name meta = podName /\
  metav1.ObjectMeta.Namespace meta = apiv1.Cluster.Namespace cluster /\
  corev1.PodSpec.Hostname spec = podName /\
  corev1.PodSpec.ServiceAccountName spec = apiv1.Cluster.Name cluster /\
  corev1.PodSpec.PriorityClassName spec =
    apiv1.ClusterSpec.PriorityClassName (apiv1.Cluster.Spec cluster) /\
  corev1.PodSpec.Subdomain spec =
    (if CreateAnyService then GetServiceAnyName cluster else "") /\
  corev1.PodSpec.TerminationGracePeriodSeconds spec = Some (GetMaxStopDelay cluster) /\
  metav1.ObjectMeta.Labels meta !! ClusterLabelName = Some (apiv1.Cluster.Name cluster) /\
  metav1.ObjectMeta.Labels meta !! InstanceNameLabelName = Some podName /\
  metav1.ObjectMeta.Labels meta !! PodRoleLabelName = Some PodRoleInstance /\
  exists annotations,
    metav1.ObjectMeta.Annotations meta = Some annotations /\
    annotations !! ClusterSerialAnnotationName = Some (Go.Itoa nodeSerial) /\
    annotations !! PodEnvHashAnnotationName =
      Some (EnvConfig.Hash (CreatePodEnvConfig cluster podName)).
Proof.
  intros Happ Hlabels Hann pod meta spec podName.
  apply NoDup_cons in Hlabels as [Hc Hlabels].
  apply NoDup_cons in Hlabels as [Hi _].
  unfold meta, spec, pod, buildInstance_base. rewrite Happ. fold podName.
  cbn [corev1.Pod.ObjectMeta corev1.Pod.Spec metav1.ObjectMeta.Name
       metav1.ObjectMeta.Namespace metav1.ObjectMeta.Labels metav1.ObjectMeta.Annotations].
  repeat split.
  - by destruct CreateAnyService, (negb _).
  - by destruct CreateAnyService, (negb _).
  - destruct (String.eqb_spec (apiv1.ClusterSpec.PriorityClassName (apiv1.Cluster.Spec cluster)) "")
      as [-> | Hne]; by destruct CreateAnyService.
  - by destruct CreateAnyService, (negb _).
  - by destruct CreateAnyService, (negb _).
  - rewrite !lookup_insert_ne by set_solver. apply lookup_insert_eq.
  - rewrite lookup_insert_ne by set_solver. apply lookup_insert_eq.
  - apply lookup_insert_eq.
  - eexists. split; [reflexivity|]. split.
    + rewrite lookup_insert_ne by done. apply lookup_insert_eq.
    + apply lookup_insert_eq.
Qed.

Lemma built_pod_identity_witness :
  let pod := @buildInstance_base Sample.ext Sample.cluster 3 true in
  metav1.ObjectMeta.Name (corev1.Pod.ObjectMeta pod) = "cluster-example-3" /\
  exists annotations,
    metav1.ObjectMeta.Annotations (corev1.Pod.ObjectMeta pod) = Some annotations /\
    annotations !! "cnpg.io/nodeSerial" = Some "3".
Proof.
  intros pod.
  destruct (@built_pod_identity Sample.ext Sample.cluster 3 true)
    as (Hname & _ & _ & _ & _ & _ & _ & _ & _ & _ & annotations & Hann & Hserial & _).
  - intros spec. reflexivity.
  - apply (bool_decide_unpack _). vm_compute. reflexivity.
  - discriminate.
  - split; [exact Hname|]. exists annotations. split; [exact Hann | exact Hserial].
Defined.

(** The security context of the pod is absent exactly when the platform has
    security context constraints; otherwise it makes the containers run as
    non-root with the user and the group of the cluster, the group being the
    file-system group as well, and it carries the seccomp profile of the
    cluster. *)
Theorem pod_security_context
        `{Externals} (podName : string) (cluster : apiv1.Cluster.t)
        (envConfig : EnvConfig.t) (gracePeriod : Z) (enableHTTPS : bool) :
  let securityContext :=
    corev1.PodSpec.SecurityContext
      (createClusterPodSpec podName cluster envConfig gracePeriod enableHTTPS) in
  (securityContext = None <-> HaveSecurityContextConstraints = true) /\
  (forall ctx, securityContext = Some ctx ->
     corev1.PodSecurityContext.RunAsNonRoot ctx = Some true /\
     corev1.PodSecurityContext.RunAsUser ctx = Some (GetPostgresUID cluster) /\
     corev1.PodSecurityContext.RunAsGroup ctx = Some (GetPostgresGID cluster) /\
     corev1.PodSecurityContext.FSGroup ctx = Some (GetPostgresGID cluster) /\
     corev1.PodSecurityContext.SeccompProfile ctx = GetSeccompProfile cluster).
Proof.
  intros securityContext. unfold securityContext.
  cbn [createClusterPodSpec corev1.PodSpec.SecurityContext]. unfold CreatePodSecurityContext.
  destruct HaveSecurityContextConstraints; split; try done.
  intros ctx E. by injection E as <-.
Qed.

Lemma pod_security_context_witness :
  exists ctx,
    corev1.PodSpec.SecurityContext
      (@createClusterPodSpec Sample.ext "cluster-example-1" Sample.cluster
         (EnvConfig.mk [] [] "") 1800 true) = Some ctx /\
    corev1.PodSecurityContext.FSGroup ctx = Some 26.
Proof.
  eexists. split; [reflexivity|].
  apply (@pod_security_context Sample.ext "cluster-example-1" Sample.cluster
           (EnvConfig.mk [] [] "") 1800 true). reflexivity.
Defined.

(** The deferred function of [NewInstance] never changes a pod of the store
    and writes at most one entry of one map. When it returns, the pods are
    as they were (specification, labels, name, namespace, and the map that
    each of them refers to), every map other than the one of the pod is as
    it was, and in every map every key other than [PodSpecAnnotationName] is
    as it was; when the specification of the pod has been serialized, every
    pod that shares the map of the pod has the serialization in its
    annotations. It panics exactly when the specification can be serialized
    and the map of the pod is nil. *)
Theorem deferred_annotation_frame
        `{Externals} (st : Store) (l : ptr) (p : corev1.Pod.t MapRef) :
  pods st !! l = Some p ->
  ((exists msg, NewInstance_deferred st (Some l) = Go.Panic msg) <->
   (exists podSpecMarshaled,
      json_Marshal_PodSpec (corev1.Pod.Spec p) = Go.Ok podSpecMarshaled) /\
   metav1.ObjectMeta.Annotations (corev1.Pod.ObjectMeta p) = None) /\
  (forall st',
     NewInstance_deferred st (Some l) = Go.Done st' ->
     pods st' = pods st /\
     (forall ref,
        metav1.ObjectMeta.Annotations (corev1.Pod.ObjectMeta p) <> Some ref ->
        maps st' !! ref = maps st !! ref) /\
     (forall ref key,
        key <> PodSpecAnnotationName ->
        mapContent st' ref !! key = mapContent st ref !! key) /\
     (forall podSpecMarshaled l' q,
        json_Marshal_PodSpec (corev1.Pod.Spec p) = Go.Ok podSpecMarshaled ->
        pods st !! l' = Some q ->
        metav1.ObjectMeta.Annotations (corev1.Pod.ObjectMeta q) =
        metav1.ObjectMeta.Annotations (corev1.Pod.ObjectMeta p) ->
        exists ref,
          metav1.ObjectMeta.Annotations (corev1.Pod.ObjectMeta q) = Some ref /\
          mapContent st' ref !! PodSpecAnnotationName = Some podSpecMarshaled)).
Proof.
  intros Hl. split.
  - unfold NewInstance_deferred. rewrite Hl.
    destruct (json_Marshal_PodSpec _) as [s|err];
      [destruct (metav1.ObjectMeta.Annotations _) as [ref|]|].
    + split; [by intros [msg ?] | by intros [_ ?]].
    + split; [intros _; split; [by exists s | done] | intros _; by eexists].
    + split; [by intros [msg ?] | by intros [[s ?] _]].
  - intros st' Hdone. pose proof (deferred_done st st' l p Hl Hdone) as Hcase.
    destruct (json_Marshal_PodSpec _) as [s|err].
    + destruct Hcase as (ref & Href & ->). split; [done|]. split; [|split].
      * intros ref' Hne. apply mapStore_other. congruence.
      * intros ref' key Hkey. destruct (decide (ref' = ref)) as [-> | Hne].
        -- by apply mapStore_lookup_ne.
        -- unfold mapContent. by rewrite mapStore_other.
      * intros s' l' q E Hq Hshare. injection E as <-. exists ref.
        split; [congruence|]. apply mapStore_lookup.
    + subst st'. repeat split; try done.
Qed.

Lemma deferred_annotation_frame_witness :
  exists st',
    @NewInstance_deferred Sample.ext Sample.store (Some 0%nat) = Go.Done st' /\
    pods st' = pods Sample.store /\
    podValue st' 0%nat =
    Some (corev1.Pod.set_Annotations Sample.clusterPod
            (Some ({[ "cnpg.io/podSpec" := "sidecar" ]} : gmap string string))).
Proof.
  assert (Hl : pods Sample.store !! 0%nat =
               Some (corev1.Pod.set_Annotations Sample.clusterPod (Some 0%nat)))
    by (vm_compute; reflexivity).
  destruct (@NewInstance_deferred Sample.ext Sample.store (Some 0%nat)) as [st'|msg] eqn:Hd;
    [|vm_compute in Hd; discriminate Hd].
  exists st'. split; [reflexivity|].
  destruct (@deferred_annotation_frame Sample.ext Sample.store 0%nat _ Hl) as [_ Hframe].
  destruct (Hframe st' Hd) as (Hpods & _).
  split; [exact Hpods|].
  vm_compute in Hd. injection Hd as <-. vm_compute. reflexivity.
Defined.
